(** * Reservations: the availability and booking engine

    A shallow embedding of [helpers/reservationHelpers.py] and
    [helpers/availabilityHelpers.py] over the schema of [models.py], and
    the properties of the booking engine proved of it.

    - The SQL tables are lists of rows, in the order a query without
      [order_by] returns them; a query is a [filter] over the rows, a join
      returns one row for each pair that satisfies its condition.
    - Python's [str] is [string] (the ASCII part), [int] is [Z],
      [Optional[...]] is [option]; a result tuple is a tuple.
    - [datetime.time] values carry hour, minute and second; microseconds are
      always zero in the values the helpers build and are left out.
    - The wall clock ([datetime.now()]) and the outcome of
      [db.session.commit()] are inputs of a call, gathered in [Env]; a failed
      commit is rolled back and leaves the database as it was.
    - The columns [created_at] and [updated_at] are set by the database
      ([updated_at] again at every update of a row, so also at a soft
      delete) and are left out of the rows: what is stated of a row is
      stated of its other columns. The one helper that reads [created_at],
      [get_reservation_details], is given the column as an argument.

    The file has the model first (Python primitives, dates and times, the
    schema, the helpers, sequences of operations, a sample database, the
    vocabulary of the statements), then the lemmas and theorems. *)

From Stdlib Require Import ZArith List String Ascii Bool Lia Permutation.
From Stdlib Require Import DecimalString.
Import ListNotations.

Local Open Scope string_scope.
Local Open Scope Z_scope.

(* ================================================================= *)
(** ** Python primitives used by the helpers *)

Module Py.

Definition is_digit (c : ascii) : bool :=
  let n := nat_of_ascii c in (48 <=? n)%nat && (n <=? 57)%nat.

Definition digit_val (c : ascii) : Z := Z.of_nat (nat_of_ascii c) - 48.

(** The white space that [int] skips around a literal: tab, LF, VT, FF, CR
    and the space. (The separators FS, GS, RS and US, which [str.isspace]
    and [str.strip] count as white space, are not skipped.) *)
Definition isspace (c : ascii) : bool :=
  let n := nat_of_ascii c in
  ((9 <=? n)%nat && (n <=? 13)%nat) || (n =? 32)%nat.

Fixpoint lstrip (s : string) : string :=
  match s with
  | String c s' => if isspace c then lstrip s' else s
  | EmptyString => EmptyString
  end.

(** Drops the trailing white space: a character is kept when something
    that is not white space follows it or it is not white space itself. *)
Fixpoint rstrip (s : string) : string :=
  match s with
  | EmptyString => EmptyString
  | String c s' =>
      match rstrip s' with
      | EmptyString => if isspace c then EmptyString else String c EmptyString
      | r => String c r
      end
  end.

Definition strip (s : string) : string := rstrip (lstrip s).

(** The digits of an [int] literal after its first digit: single
    underscores may separate digits. [prev_us] records that the previous
    character was an underscore. *)
Fixpoint int_digits (acc : Z) (prev_us : bool) (s : string) : option Z :=
  match s with
  | EmptyString => if prev_us then None else Some acc
  | String c s' =>
      if is_digit c then int_digits (10 * acc + digit_val c) false s'
      else if Ascii.eqb c "_" then
             if prev_us then None else int_digits acc true s'
      else None
  end.

Definition int_unsigned (s : string) : option Z :=
  match s with
  | String c s' => if is_digit c then int_digits (digit_val c) false s' else None
  | EmptyString => None
  end.

(** [int(s)] in base 10 for an ASCII string; [None] stands for
    [ValueError]. The limit that recent versions of Python put on the
    number of digits (4300) is not modelled. *)
Definition int (s : string) : option Z :=
  match strip s with
  | String "+" s' => int_unsigned s'
  | String "-" s' => option_map Z.opp (int_unsigned s')
  | s' => int_unsigned s'
  end.

(** The text of the [ValueError] that [int(s)] raises ([repr] of [s] is
    exact for a string without quotes, backslashes or control
    characters). *)
Definition int_error (s : string) : string :=
  "invalid literal for int() with base 10: '" ++ s ++ "'".

(** [str(n)] and [f"{n}"]. *)
Definition str (n : Z) : string := NilZero.string_of_int (Z.to_int n).

(** [f"{n:02d}"]: at least two characters, padded with zeros after the
    sign. *)
Definition fmt_02d (n : Z) : string :=
  let s := str n in
  match s with
  | String "-" _ => s
  | String _ EmptyString => String "0" s
  | _ => s
  end.

(** [c in s] for a one-character [c]. *)
Fixpoint contains (c : ascii) (s : string) : bool :=
  match s with
  | EmptyString => false
  | String c' s' => Ascii.eqb c c' || contains c s'
  end.

(** [s.split(sep)] for a one-character separator: never the empty list. *)
Fixpoint split (sep : ascii) (s : string) : list string :=
  match s with
  | EmptyString => [EmptyString]
  | String c s' =>
      if Ascii.eqb c sep then EmptyString :: split sep s'
      else match split sep s' with
           | h :: t => String c h :: t
           | [] => [String c EmptyString]
           end
  end.

(** [len(xs)]. *)
Definition len {A} (xs : list A) : Z := Z.of_nat (List.length xs).

(** [min(xs, key=key)]: the first element whose key is minimal; [None]
    stands for the [ValueError] on an empty list. *)
Fixpoint min_by {A} (key : A -> Z) (xs : list A) : option A :=
  match xs with
  | [] => None
  | x :: xs' =>
      match min_by key xs' with
      | Some y => if key y <? key x then Some y else Some x
      | None => Some x
      end
  end.

End Py.

(* ================================================================= *)
(** ** [datetime.time] and [datetime.date] *)

Record time := mk_time { hour : Z; minute : Z; second : Z }.

(** [time(h, m, s)]; [None] stands for the [ValueError] of a field out of
    range. (A field that does not fit a C int raises [OverflowError]
    instead; see [parse_time_string].) *)
Definition py_time (h m s : Z) : option time :=
  if (0 <=? h) && (h <=? 23) && (0 <=? m) && (m <=? 59) && (0 <=? s) && (s <=? 59)
  then Some (mk_time h m s) else None.

(** Python compares time values field by field. *)
Definition time_compare (a b : time) : comparison :=
  match hour a ?= hour b with
  | Eq => match minute a ?= minute b with
          | Eq => second a ?= second b
          | c => c
          end
  | c => c
  end.

Definition time_ltb (a b : time) : bool :=
  match time_compare a b with Lt => true | _ => false end.
Definition time_gtb (a b : time) : bool :=
  match time_compare a b with Gt => true | _ => false end.
Definition time_leb (a b : time) : bool := negb (time_gtb a b).
Definition time_geb (a b : time) : bool := negb (time_ltb a b).

Record date := mk_date { year : Z; month : Z; day : Z }.

Definition date_eqb (a b : date) : bool :=
  (year a =? year b) && (month a =? month b) && (day a =? day b).

(** *** The time window of the specification and its overlap test

    Both availability checks write the test inline as
    [req_start < res_end and req_end > res_start]. *)
Record Window := mk_window { w_start : time; w_end : time }.

Definition overlap (a b : Window) : bool :=
  time_ltb (w_start a) (w_end b) && time_gtb (w_end a) (w_start b).

(* ================================================================= *)
(** ** Parsing of dates and times *)

(** *** [datetime.strptime]

    [strptime] matches the regular expression of the format at the start of
    the string, tries the alternatives of a directive in the order they are
    written, and rejects what is left over. [None] stands for
    [ValueError]. *)
Module Strptime.

Definition digit (c : ascii) : option Z :=
  if Py.is_digit c then Some (Py.digit_val c) else None.

(** A two-digit number whose first digit is between [lo1] and [hi1] and
    whose second digit is between [lo2] and [hi2]. *)
Definition two (lo1 hi1 lo2 hi2 : Z) (s : string) : option (Z * string) :=
  match s with
  | String a (String b rest) =>
      match digit a, digit b with
      | Some x, Some y =>
          if (lo1 <=? x) && (x <=? hi1) && (lo2 <=? y) && (y <=? hi2)
          then Some (10 * x + y, rest) else None
      | _, _ => None
      end
  | _ => None
  end.

Definition one (lo hi : Z) (s : string) : option (Z * string) :=
  match s with
  | String a rest =>
      match digit a with
      | Some x => if (lo <=? x) && (x <=? hi) then Some (x, rest) else None
      | None => None
      end
  | EmptyString => None
  end.

Definition orelse {A} (x y : option A) : option A :=
  match x with Some _ => x | None => y end.

(** [%H]: [2[0-3]|[0-1]\d|\d]. *)
Definition dir_H (s : string) : option (Z * string) :=
  orelse (two 2 2 0 3 s) (orelse (two 0 1 0 9 s) (one 0 9 s)).

(** [%M]: [[0-5]\d|\d]. *)
Definition dir_M (s : string) : option (Z * string) :=
  orelse (two 0 5 0 9 s) (one 0 9 s).

(** [%S]: [6[0-1]|[0-5]\d|\d]. *)
Definition dir_S (s : string) : option (Z * string) :=
  orelse (two 6 6 0 1 s) (orelse (two 0 5 0 9 s) (one 0 9 s)).

(** [%m]: [1[0-2]|0[1-9]|[1-9]]. *)
Definition dir_m (s : string) : option (Z * string) :=
  orelse (two 1 1 0 2 s) (orelse (two 0 0 1 9 s) (one 1 9 s)).

(** [%d]: [3[01]|[12]\d|0[1-9]|[1-9]| [1-9]]. *)
Definition dir_d (s : string) : option (Z * string) :=
  orelse (two 3 3 0 1 s)
    (orelse (two 1 2 0 9 s)
       (orelse (two 0 0 1 9 s)
          (orelse (one 1 9 s)
             (match s with String " " rest => one 1 9 rest | _ => None end)))).

(** [%Y]: four digits. *)
Definition dir_Y (s : string) : option (Z * string) :=
  match s with
  | String a (String b (String c (String d rest))) =>
      match digit a, digit b, digit c, digit d with
      | Some x, Some y, Some z, Some w =>
          Some (1000 * x + 100 * y + 10 * z + w, rest)
      | _, _, _, _ => None
      end
  | _ => None
  end.

Definition lit (c : ascii) (s : string) : option string :=
  match s with
  | String c' rest => if Ascii.eqb c c' then Some rest else None
  | EmptyString => None
  end.

Definition is_leap (y : Z) : bool :=
  ((y mod 4 =? 0) && negb (y mod 100 =? 0)) || (y mod 400 =? 0).

Definition days_in_month (y m : Z) : Z :=
  if m =? 2 then (if is_leap y then 29 else 28)
  else if (m =? 4) || (m =? 6) || (m =? 9) || (m =? 11) then 30 else 31.

(** [date(y, m, d)]. *)
Definition py_date (y m d : Z) : option date :=
  if (1 <=? y) && (y <=? 9999) && (1 <=? m) && (m <=? 12)
     && (1 <=? d) && (d <=? days_in_month y m)
  then Some (mk_date y m d) else None.

(** [datetime.strptime(s, "%Y-%m-%d").date()]. *)
Definition ymd (s : string) : option date :=
  match dir_Y s with
  | Some (y, s1) =>
      match lit "-" s1 with
      | Some s2 =>
          match dir_m s2 with
          | Some (m, s3) =>
              match lit "-" s3 with
              | Some s4 =>
                  match dir_d s4 with
                  | Some (d, EmptyString) => py_date y m d
                  | _ => None
                  end
              | None => None
              end
          | None => None
          end
      | None => None
      end
  | None => None
  end.

(** [datetime.strptime(s, "%H:%M").time()]. *)
Definition hm (s : string) : option time :=
  match dir_H s with
  | Some (h, s1) =>
      match lit ":" s1 with
      | Some s2 =>
          match dir_M s2 with
          | Some (m, EmptyString) => py_time h m 0
          | _ => None
          end
      | None => None
      end
  | None => None
  end.

(** [datetime.strptime(s, "%H:%M:%S").time()]. *)
Definition hms (s : string) : option time :=
  match dir_H s with
  | Some (h, s1) =>
      match lit ":" s1 with
      | Some s2 =>
          match dir_M s2 with
          | Some (m, s3) =>
              match lit ":" s3 with
              | Some s4 =>
                  match dir_S s4 with
                  | Some (sec, EmptyString) => py_time h m sec
                  | _ => None
                  end
              | None => None
              end
          | None => None
          end
      | None => None
      end
  | None => None
  end.

End Strptime.

(** *** [parse_time_string] *)

Definition invalid_time_format (time_str err : string) : string :=
  "Invalid time format: " ++ time_str ++ ". Use HH:MM format. Error: " ++ err.

(** The body of [parse_time_string] for a string. The [try] block either
    returns or raises inside [int] or [time]; a [ValueError] is caught and
    turned into the "Invalid time format" result. An hour-only string whose
    number does not fit a C int makes [time] raise [OverflowError], which
    the function does not catch: the model gives the "Invalid time format"
    result there too, and what is stated of the failures of hour-only
    strings is stated for numbers within that range. *)
Definition parse_time_string (time_str : string) : bool * string * option time :=
  match time_str with
  | EmptyString => (false, "Time string cannot be empty", None)
  | _ =>
      if negb (Py.contains ":" time_str) then
        match Py.int time_str with
        | None => (false, invalid_time_format time_str (Py.int_error time_str), None)
        | Some hours =>
            match py_time hours 0 0 with
            | Some t => (true, "", Some t)
            | None =>
                (false, invalid_time_format time_str "hour must be in 0..23", None)
            end
        end
      else
        let time_parts := Py.split ":" time_str in
        let part0 := nth 0 time_parts EmptyString in
        match Py.int part0 with
        | None => (false, invalid_time_format time_str (Py.int_error part0), None)
        | Some hours =>
            let part1 := nth 1 time_parts EmptyString in
            match (if 1 <? Py.len time_parts then Py.int part1 else Some 0) with
            | None => (false, invalid_time_format time_str (Py.int_error part1), None)
            | Some minutes =>
                if (hours <? 0) || (hours >? 23) then
                  (false, "Invalid hours value: " ++ Py.str hours
                          ++ ". Must be between 0-23.", None)
                else if (minutes <? 0) || (minutes >? 59) then
                  (false, "Invalid minutes value: " ++ Py.str minutes
                          ++ ". Must be between 0-59.", None)
                else
                  match py_time hours minutes 0 with
                  | Some t => (true, "", Some t)
                  | None =>
                      (false, invalid_time_format time_str "hour must be in 0..23", None)
                  end
            end
        end
  end.

(** A nullable column holds [None] or a string; [not time_str] is true of
    both [None] and the empty string. *)
Definition parse_time_column (time_str : option string) : bool * string * option time :=
  match time_str with
  | None => (false, "Time string cannot be empty", None)
  | Some s => parse_time_string s
  end.

(** *** [calculate_end_time] *)

(** The [try] block of [calculate_end_time]; [None] stands for the
    [ValueError] or [IndexError] that sends control to the fallback. *)
Definition calculate_end_time_try (start_time : string) (duration_hours : Z)
  : option string :=
  let time_parts := Py.split ":" start_time in
  match Py.int (nth 0 time_parts EmptyString) with
  | None => None
  | Some hour =>
      match (if 1 <? Py.len time_parts
             then Py.int (nth 1 time_parts EmptyString) else Some 0) with
      | None => None
      | Some minute =>
          let end_hour := (hour + duration_hours) mod 24 in
          Some (Py.fmt_02d end_hour ++ ":" ++ Py.fmt_02d minute)
      end
  end.

(** [now] is the reading of [datetime.now()] the fallback would take. *)
Definition calculate_end_time (now : time) (start_time : string) (duration_hours : Z)
  : string :=
  match calculate_end_time_try start_time duration_hours with
  | Some r => r
  | None =>
      let end_hour := (hour now + duration_hours) mod 24 in
      Py.fmt_02d end_hour ++ ":" ++ Py.fmt_02d (minute now)
  end.

(* ================================================================= *)
(** ** The schema of [models.py] *)

Module Eater.
Record t := mk { id : Z; name : string; email : string }.
End Eater.

Module Endorsement.
Record t := mk { id : Z; endorsement_name : string }.
End Endorsement.

(** [accepts_reservations] is a nullable Boolean column; a NULL fails both
    the [not] of Python and the [== True] of a query, as [false] does. *)
Module Restaurant.
Record t := mk { id : Z; name : string; accepts_reservations : bool }.
End Restaurant.

Module RestaurantHours.
Record t := mk { id : Z; restaurant_id : Z; opening_time : time; closing_time : time }.
End RestaurantHours.

Module Table.
Record t := mk { id : Z; restaurant_id : Z; capacity : Z }.
End Table.

Module Reservation.
Record t := mk {
  id : Z;
  eater_id : Z;
  restaurant_id : Z;
  table_id : option Z;
  reservation_date : date;
  reservation_start_time : string;
  reservation_end_time : option string;
  party_size : Z;
  is_active : bool
}.

Definition set_is_active (b : bool) (r : t) : t :=
  mk (id r) (eater_id r) (restaurant_id r) (table_id r) (reservation_date r)
     (reservation_start_time r) (reservation_end_time r) (party_size r) b.

Definition eq_dec (a b : t) : {a = b} + {a <> b}.
Proof.
  repeat decide equality; try apply Z.eq_dec.
Defined.
End Reservation.

(** The database: one list of rows per table; an association table is a list
    of pairs of identifiers, in the order of its columns. *)
Record DB := mk_DB {
  eaters : list Eater.t;
  endorsements : list Endorsement.t;
  restaurants : list Restaurant.t;
  restaurant_hours : list RestaurantHours.t;
  tables : list Table.t;
  reservations : list Reservation.t;
  (** (reservation_id, eater_id) *)
  reservation_attendees : list (Z * Z);
  (** (eater_id, restriction_id) *)
  eater_dietary_restrictions : list (Z * Z);
  (** (restaurant_id, endorsement_id) *)
  restaurant_endorsements : list (Z * Z);
  (** (restriction_id, endorsement_id) *)
  restriction_endorsement_mappings : list (Z * Z)
}.

Definition with_reservations (db : DB) (rs : list Reservation.t) (ra : list (Z * Z)) : DB :=
  mk_DB (eaters db) (endorsements db) (restaurants db) (restaurant_hours db)
        (tables db) rs ra (eater_dietary_restrictions db)
        (restaurant_endorsements db) (restriction_endorsement_mappings db).

(** What a call reads from outside the database: the readings of the wall
    clock it may take, and the exception [db.session.commit()] raises, if
    any. *)
Record Env := mk_Env {
  (** read by [calculate_end_time] at step 6 of [create_reservation] *)
  now_end_time : time;
  (** read by [calculate_end_time] in [find_available_table] *)
  now_find_table : time;
  (** read by [calculate_end_time] in [check_table_availability] *)
  now_check_table : time;
  (** read by [calculate_end_time] in [create_reservation_object] *)
  now_object : time;
  commit_error : option string
}.

(** *** Queries by primary key: [Model.query.get(id)] *)

Definition Eater_get (db : DB) (i : Z) : option Eater.t :=
  find (fun e => Eater.id e =? i) (eaters db).

Definition Restaurant_get (db : DB) (i : Z) : option Restaurant.t :=
  find (fun r => Restaurant.id r =? i) (restaurants db).

Definition Reservation_get (db : DB) (i : Z) : option Reservation.t :=
  find (fun r => Reservation.id r =? i) (reservations db).

(** [restaurant.hours], a one-to-one relationship. *)
Definition Restaurant_hours (db : DB) (r : Restaurant.t) : option RestaurantHours.t :=
  find (fun h => RestaurantHours.restaurant_id h =? Restaurant.id r) (restaurant_hours db).

Definition option_Z_eqb (a : option Z) (b : Z) : bool :=
  match a with Some x => x =? b | None => false end.

Definition mem (x : Z) (xs : list Z) : bool := existsb (Z.eqb x) xs.

Definition mem_option (x : Z) (xs : list (option Z)) : bool :=
  existsb (fun y => option_Z_eqb y x) xs.

(* ================================================================= *)
(** ** [helpers/reservationHelpers.py] *)

Definition validate_restaurant (db : DB) (restaurant_id : Z)
  : bool * string * option Restaurant.t :=
  match Restaurant_get db restaurant_id with
  | None => (false, "Restaurant not found", None)
  | Some restaurant =>
      if negb (Restaurant.accepts_reservations restaurant)
      then (false, "Restaurant does not accept reservations", None)
      else (true, "", Some restaurant)
  end.

Definition validate_host (db : DB) (eater_id : Z) : bool * string * option Eater.t :=
  match Eater_get db eater_id with
  | None => (false, "Eater with ID " ++ Py.str eater_id ++ " not found", None)
  | Some eater => (true, "", Some eater)
  end.

(** The conflict message of [check_eater_availability]. *)
Definition conflict_message (db : DB) (reservation : Reservation.t) : string :=
  let restaurant_name :=
    match Restaurant_get db (Reservation.restaurant_id reservation) with
    | Some restaurant => Restaurant.name restaurant
    | None => "Restaurant ID " ++ Py.str (Reservation.restaurant_id reservation)
    end in
  "You already have a reservation at " ++ restaurant_name
  ++ " from " ++ Reservation.reservation_start_time reservation
  ++ " to " ++ match Reservation.reservation_end_time reservation with
               | Some e => e
               | None => "None"
               end
  ++ " on this date.".

(** The stored window of a reservation, when both of its times parse. *)
Definition stored_window (res : Reservation.t) : option Window :=
  match parse_time_string (Reservation.reservation_start_time res),
        parse_time_column (Reservation.reservation_end_time res) with
  | (true, _, Some res_start), (true, _, Some res_end) =>
      Some (mk_window res_start res_end)
  | _, _ => None
  end.

(** The loop of [check_eater_availability] over the reservations of the
    eater. *)
Fixpoint first_conflict (req : Window) (rs : list Reservation.t) : option Reservation.t :=
  match rs with
  | [] => None
  | reservation :: rs' =>
      match stored_window reservation with
      | None => first_conflict req rs'
      | Some w =>
          if overlap req w then Some reservation
          else first_conflict req rs'
      end
  end.

Definition host_reservations (db : DB) (eater_id : Z) (date_obj : date)
  : list Reservation.t :=
  filter (fun r => (Reservation.eater_id r =? eater_id)
                   && date_eqb (Reservation.reservation_date r) date_obj
                   && Reservation.is_active r)
         (reservations db).

(** The join of the reservations with [reservation_attendees] and the
    eaters; the query returns each reservation once. *)
Definition attending_reservations (db : DB) (eater_id : Z) (date_obj : date)
  : list Reservation.t :=
  filter (fun r =>
            existsb (fun row => (fst row =? Reservation.id r) && (snd row =? eater_id)
                                && existsb (fun e => Eater.id e =? eater_id) (eaters db))
                    (reservation_attendees db)
            && date_eqb (Reservation.reservation_date r) date_obj
            && Reservation.is_active r)
         (reservations db).

(** [list(set(host_reservations + attending_reservations))] keeps each row
    once ([nodup]). The order in which Python iterates over a set of objects
    is not specified; the model keeps the last occurrence of each row, in
    the order of the concatenation. *)
Definition all_eater_reservations (db : DB) (eater_id : Z) (date_obj : date)
  : list Reservation.t :=
  nodup Reservation.eq_dec
    (host_reservations db eater_id date_obj ++ attending_reservations db eater_id date_obj).

Definition check_eater_availability (db : DB) (eater_id : Z) (date_obj : date)
    (start_time end_time : string) : bool * string :=
  match parse_time_string start_time with
  | (true, _, Some req_start) =>
      match parse_time_string end_time with
      | (true, _, Some req_end) =>
          match first_conflict (mk_window req_start req_end)
                  (all_eater_reservations db eater_id date_obj) with
          | Some reservation => (false, conflict_message db reservation)
          | None => (true, "")
          end
      | (_, error_msg, _) => (false, error_msg)
      end
  | (_, error_msg, _) => (false, error_msg)
  end.

Fixpoint validate_attendees_loop (db : DB) (attendee_ids : list Z) (attendees : list Eater.t)
  : bool * string * list Eater.t :=
  match attendee_ids with
  | [] => (true, "", attendees)
  | attendee_id :: ids' =>
      match Eater_get db attendee_id with
      | None => (false, "Attendee with ID " ++ Py.str attendee_id ++ " not found", [])
      | Some attendee => validate_attendees_loop db ids' (attendees ++ [attendee])
      end
  end.

Definition validate_attendees (db : DB) (attendee_ids : list Z)
  : bool * string * list Eater.t :=
  validate_attendees_loop db attendee_ids [].

Definition validate_reservation_time (db : DB) (restaurant : Restaurant.t)
    (reservation_date reservation_start_time : string) : bool * string * option date :=
  match Strptime.ymd reservation_date with
  | None => (false, "Invalid date format. Use YYYY-MM-DD", None)
  | Some date_obj =>
      match Restaurant_hours db restaurant with
      | None => (false, "Restaurant hours not available", None)
      | Some restaurant_hours =>
          match parse_time_string reservation_start_time with
          | (true, _, Some reservation_time_obj) =>
              if time_gtb (RestaurantHours.opening_time restaurant_hours) reservation_time_obj
                 || time_ltb (RestaurantHours.closing_time restaurant_hours) reservation_time_obj
              then (false, "Restaurant is not open at " ++ reservation_start_time, None)
              else (true, "", Some date_obj)
          | (_, error_msg, _) => (false, error_msg, None)
          end
      end
  end.

(** [order_by(Table.capacity)]: a stable insertion sort. *)
Fixpoint insert_by_capacity (t : Table.t) (ts : list Table.t) : list Table.t :=
  match ts with
  | [] => [t]
  | u :: ts' =>
      if Table.capacity t <=? Table.capacity u then t :: ts
      else u :: insert_by_capacity t ts'
  end.

Fixpoint order_by_capacity (ts : list Table.t) : list Table.t :=
  match ts with
  | [] => []
  | t :: ts' => insert_by_capacity t (order_by_capacity ts')
  end.

Definition suitable_tables (db : DB) (restaurant_id party_size : Z) : list Table.t :=
  filter (fun t => (Table.restaurant_id t =? restaurant_id)
                   && (Table.capacity t >=? party_size))
         (tables db).

Definition day_reservations (db : DB) (restaurant_id : Z) (date_obj : date)
  : list Reservation.t :=
  filter (fun r => (Reservation.restaurant_id r =? restaurant_id)
                   && date_eqb (Reservation.reservation_date r) date_obj
                   && Reservation.is_active r)
         (reservations db).

(** The loop that collects [conflicting_reservations]. *)
Definition conflicting (req : Window) (res : Reservation.t) : bool :=
  match stored_window res with
  | None => false
  | Some w => overlap req w
  end.

(** [if not end_time: end_time = calculate_end_time(start_time)]: [None] and
    the empty string are replaced. *)
Definition default_end_time (now : time) (start_time : string) (end_time : option string)
  : string :=
  match end_time with
  | None | Some EmptyString => calculate_end_time now start_time 2
  | Some e => e
  end.

Definition check_table_availability (db : DB) (now : time) (restaurant_id party_size : Z)
    (date_obj : date) (start_time : string) (end_time : option string)
  : bool * string * option Table.t :=
  let end_time := default_end_time now start_time end_time in
  let suitable := order_by_capacity (suitable_tables db restaurant_id party_size) in
  match suitable with
  | [] => (false, "No tables available for that party size", None)
  | _ =>
      let day := day_reservations db restaurant_id date_obj in
      match parse_time_string start_time with
      | (true, _, Some req_start) =>
          match parse_time_string end_time with
          | (true, _, Some req_end) =>
              let conflicting_reservations :=
                filter (conflicting (mk_window req_start req_end)) day in
              let reserved_table_ids := map Reservation.table_id conflicting_reservations in
              let available_tables :=
                filter (fun t => negb (mem_option (Table.id t) reserved_table_ids)) suitable in
              match Py.min_by Table.capacity available_tables with
              | None =>
                  (false, "No tables available for that party size at the requested time",
                   None)
              | Some smallest_table => (true, "", Some smallest_table)
              end
          | (_, error_msg, _) => (false, error_msg, None)
          end
      | (_, error_msg, _) => (false, error_msg, None)
      end
  end.

Definition find_available_table (db : DB) (now now' : time) (restaurant_id party_size : Z)
    (date_obj : date) (reservation_start_time : string)
  : bool * string * option Table.t :=
  let end_time := calculate_end_time now reservation_start_time 2 in
  check_table_availability db now' restaurant_id party_size date_obj
    reservation_start_time (Some end_time).

(** [new_reservation.attendees.append(e)]: the relationship is a dynamic
    collection, which records its pending additions in an ordered set of
    objects, so that appending an eater again leaves it as it is. *)
Definition attendees_append (attendees : list Z) (e : Eater.t) : list Z :=
  if mem (Eater.id e) attendees then attendees else attendees ++ [Eater.id e].

(** The new row (its [id] is given by the database at the commit, [new_id]
    here) and the eaters of its [attendees] collection. The collection
    holds each eater once; the order in which the commit inserts its rows
    into [reservation_attendees] is not fixed by the unit of work. The
    model keeps the order of the appends, and what is stated of the rows
    written is which rows they are, not their order. *)
Definition create_reservation_object (now : time) (new_id eater_id restaurant_id table_id : Z)
    (date_obj : date) (reservation_start_time : string) (party_size : Z)
    (host : Eater.t) (attendees : list Eater.t) (reservation_end_time : option string)
  : Reservation.t * list Z :=
  let reservation_end_time :=
    default_end_time now reservation_start_time reservation_end_time in
  let new_reservation :=
    Reservation.mk new_id eater_id restaurant_id (Some table_id) date_obj
      reservation_start_time (Some reservation_end_time) party_size true in
  let with_host := attendees_append [] host in
  (new_reservation,
   fold_left (fun acc attendee =>
                if negb (Eater.id attendee =? Eater.id host)
                then attendees_append acc attendee else acc)
             attendees with_host).

(** Step 8 of [create_reservation]: the attendees other than the host, in
    the order of the request. *)
Fixpoint check_attendees (db : DB) (eater_id : Z) (date_obj : date)
    (start_time end_time : string) (attendees : list Eater.t) : bool * string :=
  match attendees with
  | [] => (true, "")
  | attendee :: rest =>
      if negb (Eater.id attendee =? eater_id) then
        match check_eater_availability db (Eater.id attendee) date_obj start_time end_time with
        | (true, _) => check_attendees db eater_id date_obj start_time end_time rest
        | (false, message) => (false, "Attendee " ++ Eater.name attendee ++ ": " ++ message)
        end
      else check_attendees db eater_id date_obj start_time end_time rest
  end.

(** The primary key the database gives to a new reservation: one more than
    the largest in the table. *)
Definition next_reservation_id (db : DB) : Z :=
  1 + fold_right Z.max 0 (map Reservation.id (reservations db)).

(** [host in attendees]: the session holds one object per primary key. *)
Definition host_in (host : Eater.t) (attendees : list Eater.t) : bool :=
  existsb (fun a => Eater.id a =? Eater.id host) attendees.

Definition party_size_of (host : Eater.t) (attendees : list Eater.t) (guests_count : Z) : Z :=
  let host_included := host_in host attendees in
  (Py.len attendees + (if host_included then 0 else 1)) + guests_count.

Definition create_reservation (env : Env) (eater_id restaurant_id : Z)
    (reservation_date reservation_start_time : string)
    (attendee_ids : option (list Z)) (guests_count : Z) (db : DB)
  : DB * (bool * string * option Reservation.t) :=
  (* Step 1 *)
  match validate_restaurant db restaurant_id with
  | (true, _, Some restaurant) =>
  (* Step 2 *)
  match validate_host db eater_id with
  | (true, _, Some host) =>
  (* Step 3 *)
  let attendee_ids := match attendee_ids with Some ids => ids | None => [] end in
  match validate_attendees db attendee_ids with
  | (true, _, attendees) =>
  (* Step 4 *)
  let party_size := party_size_of host attendees guests_count in
  (* Step 5 *)
  match validate_reservation_time db restaurant reservation_date reservation_start_time with
  | (true, _, Some date_obj) =>
  (* Step 6 *)
  let end_time := calculate_end_time (now_end_time env) reservation_start_time 2 in
  (* Step 7 *)
  match check_eater_availability db eater_id date_obj reservation_start_time end_time with
  | (true, _) =>
  (* Step 8 *)
  match check_attendees db eater_id date_obj reservation_start_time end_time attendees with
  | (true, _) =>
  (* Step 9 *)
  match find_available_table db (now_find_table env) (now_check_table env)
          restaurant_id party_size date_obj reservation_start_time with
  | (true, _, Some available_table) =>
  (* Step 10 *)
  let '(new_reservation, new_attendees) :=
    create_reservation_object (now_object env) (next_reservation_id db) eater_id
      restaurant_id (Table.id available_table) date_obj reservation_start_time
      party_size host attendees (Some end_time) in
  (* Save to database *)
  match commit_error env with
  | None =>
      (with_reservations db
         (reservations db ++ [new_reservation])
         (reservation_attendees db
          ++ map (fun e => (Reservation.id new_reservation, e)) new_attendees),
       (true, "Reservation created successfully", Some new_reservation))
  | Some e => (db, (false, "Error creating reservation: " ++ e, None))
  end
  | (_, message, _) => (db, (false, message, None))
  end
  | (_, message) => (db, (false, message, None))
  end
  | (_, message) => (db, (false, message, None))
  end
  | (_, message, _) => (db, (false, message, None))
  end
  | (_, message, _) => (db, (false, message, None))
  end
  | (_, message, _) => (db, (false, message, None))
  end
  | (_, message, _) => (db, (false, message, None))
  end.

(** [delete_reservation]: the soft delete updates the row, the hard delete
    removes it together with its rows of [reservation_attendees]. *)
Definition delete_reservation (env : Env) (reservation_id : Z) (soft_delete : bool) (db : DB)
  : DB * (bool * string) :=
  match Reservation_get db reservation_id with
  | None => (db, (false, "Reservation not found"))
  | Some reservation =>
      match commit_error env with
      | Some e => (db, (false, "Error deleting reservation: " ++ e))
      | None =>
          if soft_delete then
            (with_reservations db
               (map (fun r => if Reservation.id r =? Reservation.id reservation
                              then Reservation.set_is_active false r else r)
                    (reservations db))
               (reservation_attendees db),
             (true, "Reservation marked as deleted"))
          else
            (with_reservations db
               (filter (fun r => negb (Reservation.id r =? Reservation.id reservation))
                       (reservations db))
               (filter (fun row => negb (fst row =? Reservation.id reservation))
                       (reservation_attendees db)),
             (true, "Reservation permanently deleted"))
      end
  end.

(** *** [get_reservation_details]

    The dictionary the function returns is a record, the dictionary of an
    attendee the row of the eater (its keys are the columns [id], [name]
    and [email]). *)
Module Details.
Record t := mk {
  id : Z;
  host_id : Z;
  host_name : string;
  (** the keys [id] and [name] *)
  restaurant : Z * string;
  table_id : option Z;
  date : string;
  start_time : string;
  end_time : option string;
  party_size : Z;
  is_active : bool;
  created_at : option string;
  attendees : list Eater.t
}.

Definition set_is_active (b : bool) (d : t) : t :=
  mk (id d) (host_id d) (host_name d) (restaurant d) (table_id d) (date d)
     (start_time d) (end_time d) (party_size d) b (created_at d) (attendees d).
End Details.

(** [d.strftime("%Y-%m-%d")]. The year is written by the C library, which
    on Linux does not pad it: the year 999 is written 999. (Other platforms
    write 0999; what is stated of the string is stated for the years from
    1000 on, where they agree.) *)
Definition strftime_ymd (d : date) : string :=
  Py.str (year d) ++ "-" ++ Py.fmt_02d (month d) ++ "-" ++ Py.fmt_02d (day d).

(** [reservation.attendees]: the eaters joined with the rows of
    [reservation_attendees] of the reservation. *)
Definition Reservation_attendees (db : DB) (reservation : Reservation.t) : list Eater.t :=
  flat_map (fun e =>
              map (fun _ => e)
                  (filter (fun row => (fst row =? Reservation.id reservation)
                                      && (snd row =? Eater.id e))
                          (reservation_attendees db)))
           (eaters db).

(** [created_at] gives, for the identifier of a row, the column
    [created_at] of the row in ISO format, [None] for NULL: the column is
    set by the database at the insert and is not part of the rows of the
    model. The outer [None] of the result stands for the [AttributeError]
    of a reservation whose host or restaurant is not in the database. *)
Definition get_reservation_details (db : DB) (created_at : Z -> option string)
    (reservation_id : Z) (include_inactive : bool) : option (option Details.t) :=
  match Reservation_get db reservation_id with
  | None => Some None
  | Some reservation =>
      if negb include_inactive && negb (Reservation.is_active reservation) then Some None
      else
        match Eater_get db (Reservation.eater_id reservation),
              Restaurant_get db (Reservation.restaurant_id reservation) with
        | Some host, Some restaurant =>
            Some (Some (Details.mk
                          (Reservation.id reservation)
                          (Reservation.eater_id reservation)
                          (Eater.name host)
                          (Restaurant.id restaurant, Restaurant.name restaurant)
                          (Reservation.table_id reservation)
                          (strftime_ymd (Reservation.reservation_date reservation))
                          (Reservation.reservation_start_time reservation)
                          (Reservation.reservation_end_time reservation)
                          (Reservation.party_size reservation)
                          (Reservation.is_active reservation)
                          (created_at (Reservation.id reservation))
                          (Reservation_attendees db reservation)))
        | _, _ => None
        end
  end.

(* ================================================================= *)
(** ** [helpers/availabilityHelpers.py] *)

(** [set.add]. *)
Definition set_add (x : Z) (xs : list Z) : list Z :=
  if mem x xs then xs else xs ++ [x].

(** [eater.dietary_restrictions]: the identifiers of the restrictions of an
    eater. *)
Definition Eater_dietary_restrictions (db : DB) (eater : Eater.t) : list Z :=
  map snd (filter (fun row => fst row =? Eater.id eater) (eater_dietary_restrictions db)).

Definition aggregate_dietary_restrictions (db : DB) (eaters : list Eater.t) : list Z :=
  fold_left (fun restrictions eater =>
               fold_left (fun acc restriction => set_add restriction acc)
                         (Eater_dietary_restrictions db eater) restrictions)
            eaters [].

(** The join of the restaurants with their hours, filtered on the hours. *)
Definition open_at (db : DB) (res_time : time) (r : Restaurant.t) : bool :=
  existsb (fun h => (RestaurantHours.restaurant_id h =? Restaurant.id r)
                    && time_leb (RestaurantHours.opening_time h) res_time
                    && time_geb (RestaurantHours.closing_time h) res_time)
          (restaurant_hours db).

(** The query [matching_endorsements]: a join of the endorsements with the
    mapping rows, one result row for each pair that satisfies the join
    condition. *)
Definition matching_endorsement_ids (db : DB) (restrictions : list Z) : list Z :=
  flat_map (fun e =>
              map (fun _ => Endorsement.id e)
                  (filter (fun row => (snd row =? Endorsement.id e) && mem (fst row) restrictions)
                          (restriction_endorsement_mappings db)))
           (endorsements db).

(** The rows of [restaurant_endorsements] the subquery counts. *)
Definition counted_rows (db : DB) (matching : list Z) : list (Z * Z) :=
  filter (fun row => mem (snd row) matching) (restaurant_endorsements db).

Definition endorsement_count (db : DB) (matching : list Z) (restaurant_id : Z) : Z :=
  Py.len (filter (fun row => fst row =? restaurant_id) (counted_rows db matching)).

(** The subquery [restaurant_counts]: one row (restaurant_id,
    endorsement_count) for each group that satisfies the [having] clause. *)
Definition restaurant_counts (db : DB) (matching : list Z) : list (Z * Z) :=
  filter (fun g => snd g >=? Py.len matching)
         (map (fun rid => (rid, endorsement_count db matching rid))
              (nodup Z.eq_dec (map fst (counted_rows db matching)))).

Definition get_potential_restaurants (db : DB) (reservation_time : string)
    (restrictions : list Z) : list Restaurant.t :=
  match Strptime.orelse (Strptime.hm reservation_time) (Strptime.hms reservation_time) with
  | None => []
  | Some res_time =>
      match restrictions with
      | [] =>
          filter (fun r => Restaurant.accepts_reservations r && open_at db res_time r)
                 (restaurants db)
      | _ =>
          let matching := matching_endorsement_ids db restrictions in
          let counts := restaurant_counts db matching in
          filter (fun r => mem (Restaurant.id r) (map fst counts)
                           && Restaurant.accepts_reservations r
                           && open_at db res_time r)
                 (restaurants db)
      end
  end.

(** The comparisons of the stored time strings are made by the database,
    on the strings: byte by byte, a proper prefix first. *)
Definition is_time_available_for_reservation (db : DB) (restaurant : Restaurant.t)
    (date_obj : date) (start_time end_time : string) (num_of_eaters : Z) : bool :=
  let suitable :=
    filter (fun t => (Table.restaurant_id t =? Restaurant.id restaurant)
                     && (Table.capacity t >=? num_of_eaters))
           (tables db) in
  match suitable with
  | [] => false
  | _ =>
      let suitable_table_ids := map Table.id suitable in
      let conflicting_reservations :=
        filter (fun r =>
                  (Reservation.restaurant_id r =? Restaurant.id restaurant)
                  && match Reservation.table_id r with
                     | Some i => mem i suitable_table_ids
                     | None => false
                     end
                  && date_eqb (Reservation.reservation_date r) date_obj
                  && match Reservation.reservation_end_time r with
                     | Some e => String.ltb start_time e
                     | None => false
                     end
                  && String.ltb (Reservation.reservation_start_time r) end_time
                  && Reservation.is_active r)
               (reservations db) in
      let reserved_table_ids := map Reservation.table_id conflicting_reservations in
      let available_tables_count :=
        Py.len (filter (fun t => negb (mem_option (Table.id t) reserved_table_ids)) suitable) in
      available_tables_count >? 0
  end.

Definition restaurant_has_table_for_group (db : DB) (restaurant : Restaurant.t)
    (group_size : Z) : bool :=
  match filter (fun t => (Table.restaurant_id t =? Restaurant.id restaurant)
                         && (Table.capacity t >=? group_size))
               (tables db) with
  | [] => false
  | _ :: _ => true
  end.

(* ================================================================= *)
(** ** The search path: [find_available_restaurants] and what it calls *)

(** [datetime.timedelta], as its number of microseconds. *)
Definition timedelta := Z.

(** [timedelta(hours=h)]. *)
Definition timedelta_hours (h : Z) : timedelta := h * 3600 * 1000000.

Definition day_microseconds : Z := 86400 * 1000000.

(** [date.toordinal()]: the days since 0001-01-01, that day being 1. *)
Definition days_before_year (y : Z) : Z :=
  (y - 1) * 365 + (y - 1) / 4 - (y - 1) / 100 + (y - 1) / 400.

Definition days_before_month (y m : Z) : Z :=
  fold_right Z.add 0
    (map (fun k => Strptime.days_in_month y (Z.of_nat k)) (seq 1 (Z.to_nat (m - 1)))).

Definition toordinal (d : date) : Z :=
  days_before_year (year d) + days_before_month (year d) (month d) + day d.

(** [date.max.toordinal()], the ordinal of 9999-12-31. *)
Definition max_ordinal : Z := 3652059.

(** [(datetime.combine(date_obj, t) + duration).strftime("%H:%M")] for a
    time [t] with the microsecond [us]; [None] stands for the
    [OverflowError] of a result outside the years 1 to 9999, which no
    handler of the helpers catches. *)
Definition add_and_format (date_obj : date) (t : time) (us : Z) (duration : timedelta)
  : option string :=
  let total := ((hour t * 60 + minute t) * 60 + second t) * 1000000 + us + duration in
  let ordinal := toordinal date_obj + total / day_microseconds in
  let of_day := total mod day_microseconds in
  if (1 <=? ordinal) && (ordinal <=? max_ordinal) then
    Some (Py.fmt_02d (of_day / (3600 * 1000000)) ++ ":"
          ++ Py.fmt_02d ((of_day / (60 * 1000000)) mod 60))
  else None.

(** What a search reads from outside the database: [date.today()], and the
    time of day and the microsecond of [datetime.now()]. *)
Record SearchEnv := mk_SearchEnv {
  today : date;
  now_time : time;
  now_microsecond : Z
}.

(** [get_reservation_end_time]: the result, or [None] when the addition
    raises. *)
Definition get_reservation_end_time (env : SearchEnv) (reservation_time : string)
    (date_obj : date) (duration : timedelta) : option string :=
  match Strptime.hm reservation_time with
  | Some t => add_and_format date_obj t 0 duration
  | None =>
      match calculate_end_time_try reservation_time 2 with
      | Some r => Some r
      | None => add_and_format date_obj (now_time env) (now_microsecond env) duration
      end
  end.

Definition parse_reservation_date (env : SearchEnv) (reservation_date : option string)
  : date :=
  match reservation_date with
  | None | Some EmptyString => today env
  | Some s =>
      match Strptime.ymd s with
      | Some d => d
      | None => today env
      end
  end.

(** [find_available_restaurants]; [None] when [get_reservation_end_time]
    raises. *)
Definition find_available_restaurants (db : DB) (env : SearchEnv)
    (reservation_time : string) (eaters : list Eater.t)
    (reservation_date : option string) (duration : timedelta) (additional_guests : Z)
  : option (list Restaurant.t) :=
  let registered_eaters := Py.len eaters in
  let total_party_size := registered_eaters + additional_guests in
  let reservation_date := parse_reservation_date env reservation_date in
  let restrictions := aggregate_dietary_restrictions db eaters in
  let potential_restaurants := get_potential_restaurants db reservation_time restrictions in
  match get_reservation_end_time env reservation_time reservation_date duration with
  | None => None
  | Some end_time =>
      Some (filter (fun restaurant =>
                      restaurant_has_table_for_group db restaurant total_party_size
                      && is_time_available_for_reservation db restaurant reservation_date
                           reservation_time end_time total_party_size)
                   potential_restaurants)
  end.

(* ================================================================= *)
(** ** Sequences of operations *)

Inductive Op :=
| CreateReservation (env : Env) (eater_id restaurant_id : Z)
    (reservation_date reservation_start_time : string)
    (attendee_ids : option (list Z)) (guests_count : Z)
| DeleteReservation (env : Env) (reservation_id : Z) (soft_delete : bool).

Definition apply_op (db : DB) (op : Op) : DB :=
  match op with
  | CreateReservation env e r d t a g => fst (create_reservation env e r d t a g db)
  | DeleteReservation env i soft => fst (delete_reservation env i soft db)
  end.

Definition run (ops : list Op) (db : DB) : DB := fold_left apply_op ops db.

(* ================================================================= *)
(** ** A small database for concrete runs *)

Module Sample.

Definition t (h m : Z) : time := mk_time h m 0.

Definition db0 : DB :=
  mk_DB
    [Eater.mk 1 "Ana" "ana@example.org"; Eater.mk 2 "Ben" "ben@example.org";
     Eater.mk 3 "Cy" "cy@example.org"]
    [Endorsement.mk 10 "Vegan-Friendly"; Endorsement.mk 11 "Gluten Free Options"]
    [Restaurant.mk 1 "Lardo" true; Restaurant.mk 2 "Tartine" true;
     Restaurant.mk 3 "Closed Door" false]
    [RestaurantHours.mk 1 1 (t 8 0) (t 22 0); RestaurantHours.mk 2 2 (t 8 0) (t 23 59)]
    [Table.mk 1 1 6; Table.mk 2 1 2; Table.mk 3 1 4; Table.mk 4 2 4]
    [] []
    [(1, 1)]
    [(1, 10); (2, 10); (2, 11)]
    [(1, 10); (2, 11)].

Definition env_ok : Env := mk_Env (t 12 0) (t 12 0) (t 12 0) (t 12 0) None.
Definition env_fail : Env := mk_Env (t 12 0) (t 12 0) (t 12 0) (t 12 0) (Some "database is locked").

Definition may1 : date := mk_date 2025 5 1.

(** Two bookings of the table for two at Lardo, back to back, then a soft
    delete of a reservation that does not exist. *)
Definition two_bookings : list Op :=
  [CreateReservation env_ok 1 1 "2025-05-01" "18:00" (Some [2]) 0;
   CreateReservation env_ok 3 1 "2025-05-01" "20:00" None 1;
   DeleteReservation env_ok 7 true].

(** The database after Ana has booked the table for two at Lardo, 18:00 to
    20:00, with Ben. *)
(** A database in which the endorsement 10 is mapped to the restrictions 1
    and 2, and Lardo holds it. *)
Definition db_shared : DB :=
  mk_DB (eaters db0) (endorsements db0) (restaurants db0) (restaurant_hours db0)
        (tables db0) [] [] [] [(1, 10)] [(1, 10); (2, 10)].

(** Two bookings at Tartine, at 23:00 and at 23:30. *)
Definition late_bookings : list Op :=
  [CreateReservation env_ok 1 2 "2025-05-01" "23:00" None 0;
   CreateReservation env_ok 3 2 "2025-05-01" "23:30" None 0].

Definition booking1 : Reservation.t :=
  Reservation.mk 1 1 1 (Some 2) may1 "18:00" (Some "20:00") 2 true.

Definition db1 : DB := with_reservations db0 [booking1] [(1, 1); (1, 2)].

(** The same after the soft delete of that reservation. *)
Definition db2 : DB :=
  with_reservations db0 [Reservation.set_is_active false booking1] [(1, 1); (1, 2)].

End Sample.

(* ================================================================= *)
(** ** The vocabulary of the statements *)

(** The strict order of the clock, written out. *)
Definition time_lt (a b : time) : Prop :=
  hour a < hour b
  \/ (hour a = hour b
      /\ (minute a < minute b \/ (minute a = minute b /\ second a < second b))).

Definition digit_char (d : Z) : ascii := ascii_of_nat (48 + Z.to_nat d).

(** A two-character, zero-padded rendering of a number below 100. *)
Definition two_digits (n : Z) : string :=
  String (digit_char (n / 10)) (String (digit_char (n mod 10)) EmptyString).

(** The string [HH:MM] of a time of day. *)
Definition hhmm (h m : Z) : string := two_digits h ++ ":" ++ two_digits m.

(** *** Table allocation (section 4.4 of the specification) *)

(** The table belongs to the restaurant and seats the party. *)
Definition fits (db : DB) (restaurant_id party_size : Z) (t : Table.t) : Prop :=
  In t (tables db) /\ Table.restaurant_id t = restaurant_id
  /\ party_size <= Table.capacity t.

(** An active reservation of the restaurant on the date holds the table in
    a window that overlaps the requested one. *)
Definition table_conflict (db : DB) (restaurant_id : Z) (date_obj : date) (req : Window)
    (t : Table.t) : Prop :=
  exists r w,
    In r (reservations db)
    /\ Reservation.is_active r = true
    /\ Reservation.restaurant_id r = restaurant_id
    /\ Reservation.reservation_date r = date_obj
    /\ Reservation.table_id r = Some (Table.id t)
    /\ stored_window r = Some w
    /\ overlap req w = true.

Definition free_table (db : DB) (restaurant_id party_size : Z) (date_obj : date)
    (req : Window) (t : Table.t) : Prop :=
  fits db restaurant_id party_size t
  /\ ~ table_conflict db restaurant_id date_obj req t.

Definition no_table_size : string := "No tables available for that party size".
Definition no_capacity : string :=
  "No tables available for that party size at the requested time".

(** The tables the allocator chooses from once the request times parse. *)
Definition available_tables (db : DB) (restaurant_id party_size : Z) (date_obj : date)
    (req : Window) : list Table.t :=
  filter (fun t =>
            negb (mem_option (Table.id t)
                    (map Reservation.table_id
                       (filter (conflicting req)
                          (day_reservations db restaurant_id date_obj)))))
         (order_by_capacity (suitable_tables db restaurant_id party_size)).

(** *** Party size (step 4 of section 4.6) *)

(** The persons of a party: the host and the named attendees, each once. *)
Definition distinct_persons (eater_id : Z) (attendee_ids : list Z) : list Z :=
  nodup Z.eq_dec (eater_id :: attendee_ids).

(** The party size of the specification. *)
Definition spec_party_size (eater_id : Z) (attendee_ids : list Z) (guests_count : Z) : Z :=
  Py.len (distinct_persons eater_id attendee_ids) + guests_count.

(** *** Restriction matching (section 4.2 of the specification) *)

(** The restaurant has a row in the subquery [restaurant_counts]. *)
Definition passes_restriction_filter (db : DB) (restrictions : list Z) (restaurant_id : Z)
  : bool :=
  mem restaurant_id
      (map fst (restaurant_counts db (matching_endorsement_ids db restrictions))).

(** The endorsements of the mapping rows of the requested restrictions, one
    for each row. *)
Definition requested_endorsements (db : DB) (restrictions : list Z) : list Z :=
  map snd (filter (fun row => mem (fst row) restrictions)
                  (restriction_endorsement_mappings db)).

(** The set of the endorsements mapped to any requested restriction. *)
Definition mapped_endorsements (db : DB) (restrictions : list Z) : list Z :=
  nodup Z.eq_dec (requested_endorsements db restrictions).

Definition holds_endorsement (db : DB) (restaurant_id endorsement_id : Z) : bool :=
  existsb (fun row => (fst row =? restaurant_id) && (snd row =? endorsement_id))
          (restaurant_endorsements db).

(** The number of endorsements of the set that the restaurant holds. *)
Definition held_count (db : DB) (restrictions : list Z) (restaurant_id : Z) : Z :=
  Py.len (filter (holds_endorsement db restaurant_id) (mapped_endorsements db restrictions)).

(** The rule of the specification: at least as many held endorsements of
    the set as the set has members. *)
Definition spec_restriction_rule (db : DB) (restrictions : list Z) (restaurant_id : Z)
  : bool :=
  Py.len (mapped_endorsements db restrictions) <=? held_count db restrictions restaurant_id.

(** The keys of the schema that the endorsement tables rely on: endorsement
    identifiers are unique, a mapping row refers to an endorsement, and
    [restaurant_endorsements] has no repeated row. *)
Definition endorsement_tables_wf (db : DB) : Prop :=
  NoDup (map Endorsement.id (endorsements db))
  /\ (forall row, In row (restriction_endorsement_mappings db) ->
                  In (snd row) (map Endorsement.id (endorsements db)))
  /\ NoDup (restaurant_endorsements db).

(** *** Stored and requested time strings *)

(** A zero-padded [HH:MM] string of a time of day. *)
Definition is_hhmm (s : string) : Prop :=
  exists h m, 0 <= h < 24 /\ 0 <= m < 60 /\ s = hhmm h m.

Definition comparison_eqb (a b : comparison) : bool :=
  match a, b with
  | Eq, Eq | Lt, Lt | Gt, Gt => true
  | _, _ => false
  end.

(** *** The overlap test on the stored windows (sections 3 and 4.1 of the
    specification) *)

(** The person is the host of the reservation or one of its attendees. *)
Definition participates (db : DB) (p : Z) (r : Reservation.t) : Prop :=
  Reservation.eater_id r = p \/ In (Reservation.id r, p) (reservation_attendees db).

(** The instant lies in the half-open window. No instant lies in a window
    whose end is not after its start, as the stored window of a
    reservation that runs past midnight. *)
Definition within (w : Window) (x : time) : Prop :=
  ~ time_lt x (w_start w) /\ time_lt x (w_end w).

(** Both reservations have a stored window, the overlap test is false of
    the two windows, and no instant lies in both. *)
Definition windows_disjoint (r1 r2 : Reservation.t) : Prop :=
  exists w1 w2,
    stored_window r1 = Some w1 /\ stored_window r2 = Some w2
    /\ overlap w1 w2 = false
    /\ forall x, ~ (within w1 x /\ within w2 x).

Definition tables_pass_overlap_test (db : DB) : Prop :=
  forall r1 r2,
    In r1 (reservations db) -> In r2 (reservations db) ->
    Reservation.id r1 <> Reservation.id r2 ->
    Reservation.is_active r1 = true -> Reservation.is_active r2 = true ->
    Reservation.table_id r1 = Reservation.table_id r2 ->
    Reservation.reservation_date r1 = Reservation.reservation_date r2 ->
    windows_disjoint r1 r2.

Definition persons_pass_overlap_test (db : DB) : Prop :=
  forall p r1 r2,
    In r1 (reservations db) -> In r2 (reservations db) ->
    Reservation.id r1 <> Reservation.id r2 ->
    Reservation.is_active r1 = true -> Reservation.is_active r2 = true ->
    Reservation.reservation_date r1 = Reservation.reservation_date r2 ->
    participates db p r1 -> participates db p r2 ->
    windows_disjoint r1 r2.

(** The reservation store is empty. *)
Definition empty_store (db : DB) : Prop :=
  reservations db = [] /\ reservation_attendees db = [].

(** What the operations keep true of the store: stored times parse, a
    reservation holds a table of its restaurant, an attendee row belongs to
    a stored reservation, and the overlap test is false of the stored
    windows of two active reservations of a person on one date. *)
Record store_invariant (db : DB) : Prop := {
  inv_windows : forall r, In r (reservations db) -> exists w, stored_window r = Some w;
  inv_tables : forall r, In r (reservations db) ->
                 exists t, In t (tables db)
                           /\ Reservation.table_id r = Some (Table.id t)
                           /\ Table.restaurant_id t = Reservation.restaurant_id r;
  inv_attendees : forall i p, In (i, p) (reservation_attendees db) ->
                    exists r, In r (reservations db) /\ Reservation.id r = i;
  inv_person_booking : persons_pass_overlap_test db
}.

(** The tables that no operation on reservations writes. *)
Definition same_static (db db' : DB) : Prop :=
  eaters db' = eaters db
  /\ endorsements db' = endorsements db
  /\ restaurants db' = restaurants db
  /\ restaurant_hours db' = restaurant_hours db
  /\ tables db' = tables db
  /\ eater_dietary_restrictions db' = eater_dietary_restrictions db
  /\ restaurant_endorsements db' = restaurant_endorsements db
  /\ restriction_endorsement_mappings db' = restriction_endorsement_mappings db.

(** The hard delete of one reservation, and the removal of the inactive
    reservations, as operations on the store. *)
Definition without_inactive (db : DB) : DB :=
  with_reservations db (filter Reservation.is_active (reservations db))
    (reservation_attendees db).

(** *** The successful path of [create_reservation] *)

(** The results of the steps of [create_reservation] when all of them
    succeed. *)
Record booking_steps (env : Env) (eater_id restaurant_id : Z)
    (reservation_date reservation_start_time : string) (attendee_ids : list Z)
    (db : DB) (restaurant : Restaurant.t) (host : Eater.t) (attendees : list Eater.t)
    (date_obj : date) (party_size : Z) (table : Table.t) : Prop := {
  step_restaurant : exists m, validate_restaurant db restaurant_id = (true, m, Some restaurant);
  step_host : exists m, validate_host db eater_id = (true, m, Some host);
  step_attendees : exists m, validate_attendees db attendee_ids = (true, m, attendees);
  step_time : exists m,
      validate_reservation_time db restaurant reservation_date reservation_start_time
      = (true, m, Some date_obj);
  step_host_free : exists m,
      check_eater_availability db eater_id date_obj reservation_start_time
        (calculate_end_time (now_end_time env) reservation_start_time 2) = (true, m);
  step_attendees_free : exists m,
      check_attendees db eater_id date_obj reservation_start_time
        (calculate_end_time (now_end_time env) reservation_start_time 2) attendees
      = (true, m);
  step_table : exists m,
      find_available_table db (now_find_table env) (now_check_table env) restaurant_id
        party_size date_obj reservation_start_time = (true, m, Some table);
  step_commit : commit_error env = None
}.

(** The row and the attendee rows that a successful call adds. *)
Definition booked_reservation (env : Env) (eater_id restaurant_id : Z)
    (reservation_start_time : string) (db : DB) (host : Eater.t) (attendees : list Eater.t)
    (date_obj : date) (party_size : Z) (table : Table.t) : Reservation.t * list Z :=
  create_reservation_object (now_object env) (next_reservation_id db) eater_id
    restaurant_id (Table.id table) date_obj reservation_start_time party_size host attendees
    (Some (calculate_end_time (now_end_time env) reservation_start_time 2)).

Definition booked_db (db : DB) (booked : Reservation.t * list Z) : DB :=
  with_reservations db
    (reservations db ++ [fst booked])
    (reservation_attendees db ++ map (fun e => (Reservation.id (fst booked), e)) (snd booked)).

Definition ids_of (attendee_ids : option (list Z)) : list Z :=
  match attendee_ids with Some ids => ids | None => [] end.

(** The request window of a start time: two hours, the end hour modulo
    24. *)
Definition request_window (req_start : time) : Window :=
  mk_window req_start (mk_time ((hour req_start + 2) mod 24) (minute req_start) 0).

(** The store after the reservation [nr] was added to [db] with the
    attendees [atts] and then soft-deleted. *)
Definition soft_deleted_booking (db : DB) (nr : Reservation.t) (atts : list Z) : DB :=
  with_reservations db
    (map (fun r => if Reservation.id r =? Reservation.id nr
                   then Reservation.set_is_active false r else r)
         (reservations db ++ [nr]))
    (reservation_attendees db ++ map (fun e => (Reservation.id nr, e)) atts).

(* ================================================================= *)
(** *** What every reachable store satisfies *)

(** The keys of the schema and the references between the rows, and what
    [create_reservation] establishes of each reservation it stores. *)
Record store_wellformed (db : DB) : Prop := {
  wf_ids : NoDup (map Reservation.id (reservations db));
  wf_rows : NoDup (reservation_attendees db);
  wf_rows_ref : forall i p, In (i, p) (reservation_attendees db) ->
      (exists r, In r (reservations db) /\ Reservation.id r = i)
      /\ (exists e, In e (eaters db) /\ Eater.id e = p);
  wf_host : forall r, In r (reservations db) ->
      In (Reservation.id r, Reservation.eater_id r) (reservation_attendees db);
  wf_table : forall r, In r (reservations db) ->
      exists t, In t (tables db)
                /\ Reservation.table_id r = Some (Table.id t)
                /\ Table.restaurant_id t = Reservation.restaurant_id r
                /\ Reservation.party_size r <= Table.capacity t;
  wf_end : forall r, In r (reservations db) ->
      exists t, parse_time_string (Reservation.reservation_start_time r)
                = (true, EmptyString, Some t)
                /\ Reservation.reservation_end_time r
                   = Some (hhmm ((hour t + 2) mod 24) (minute t));
  wf_refs : forall r, In r (reservations db) ->
      (exists e, Eater_get db (Reservation.eater_id r) = Some e)
      /\ (exists x h t,
            Restaurant_get db (Reservation.restaurant_id r) = Some x
            /\ Restaurant.accepts_reservations x = true
            /\ Restaurant_hours db x = Some h
            /\ parse_time_string (Reservation.reservation_start_time r)
               = (true, EmptyString, Some t)
            /\ ~ time_lt t (RestaurantHours.opening_time h)
            /\ ~ time_lt (RestaurantHours.closing_time h) t)
}.

(* ================================================================= *)
(** *** The search path *)

(** An active reservation of the restaurant on the date holds the table,
    and the comparisons of the query of [is_time_available_for_reservation],
    on the strings, hold of its times and the requested ones. *)
Definition blocks (restaurant_id : Z) (date_obj : date) (start_time end_time : string)
    (t : Table.t) (r : Reservation.t) : Prop :=
  Reservation.is_active r = true
  /\ Reservation.restaurant_id r = restaurant_id
  /\ Reservation.reservation_date r = date_obj
  /\ Reservation.table_id r = Some (Table.id t)
  /\ exists e, Reservation.reservation_end_time r = Some e
               /\ String.ltb start_time e = true
               /\ String.ltb (Reservation.reservation_start_time r) end_time = true.

(** A table of the restaurant that seats the group and that no stored
    reservation blocks. *)
Definition open_table (db : DB) (restaurant : Restaurant.t) (date_obj : date)
    (start_time end_time : string) (num_of_eaters : Z) (t : Table.t) : Prop :=
  In t (tables db)
  /\ Table.restaurant_id t = Restaurant.id restaurant
  /\ num_of_eaters <= Table.capacity t
  /\ forall r, In r (reservations db) ->
               ~ blocks (Restaurant.id restaurant) date_obj start_time end_time t r.

(** One or two decimal digits, as [strptime] reads them, and their
    value. *)
Definition digits (two : bool) (x y : Z) : string :=
  if two then String (digit_char x) (String (digit_char y) EmptyString)
  else String (digit_char x) EmptyString.

Definition digits_value (two : bool) (x y : Z) : Z := if two then 10 * x + y else x.

(** The result of [start + duration] lies within the calendar. *)
Definition end_in_calendar (date_obj : date) (start : time) (hours : Z) : bool :=
  (1 <=? toordinal date_obj + (hour start + hours) / 24)
  && (toordinal date_obj + (hour start + hours) / 24 <=? max_ordinal).

(* ================================================================= *)
(** *** Windows on the time line of a date *)

Definition minute_of_day (t : time) : Z := 60 * hour t + minute t.

(** The window of a reservation in minutes from the midnight at which its
    date begins: an end that is not after the start is an end on the
    following day. *)
Definition span (w : Window) : Z * Z :=
  (minute_of_day (w_start w),
   if time_ltb (w_start w) (w_end w) then minute_of_day (w_end w)
   else minute_of_day (w_end w) + 1440).

(** Two half-open intervals of the time line have a minute in common. *)
Definition spans_overlap (a b : Z * Z) : Prop := fst a < snd b /\ fst b < snd a.

(** Eater 1 books Tartine at 23:00, and then again at 23:30. *)
Definition late_bookings_of_one_host : list Op :=
  [CreateReservation Sample.env_ok 1 2 "2025-05-01" "23:00" None 0;
   CreateReservation Sample.env_ok 1 2 "2025-05-01" "23:30" None 0].

(* ================================================================= *)
(** *** The strings and numbers of the statements about [parse_time_string] *)

(** Every character of the string is an ASCII character. *)
Fixpoint is_ascii (s : string) : bool :=
  match s with
  | EmptyString => true
  | String c s' => (nat_of_ascii c <? 128)%nat && is_ascii s'
  end.

(** The number fits a C int. *)
Definition fits_c_int (n : Z) : Prop := - 2147483648 <= n <= 2147483647.

(** * Lemmas and theorems *)

(* ================================================================= *)
(** ** Properties of the time values *)

Lemma time_compare_antisym (a b : time) :
  time_compare b a = CompOpp (time_compare a b).
Proof.
  unfold time_compare.
  rewrite (Z.compare_antisym (hour a) (hour b)).
  rewrite (Z.compare_antisym (minute a) (minute b)).
  rewrite (Z.compare_antisym (second a) (second b)).
  destruct (hour a ?= hour b); simpl; trivial.
  destruct (minute a ?= minute b); simpl; trivial.
Qed.

Lemma time_gtb_ltb (a b : time) : time_gtb a b = time_ltb b a.
Proof.
  unfold time_gtb, time_ltb. rewrite (time_compare_antisym a b).
  destruct (time_compare a b); reflexivity.
Qed.

Lemma time_ltb_lt (a b : time) : time_ltb a b = true <-> time_lt a b.
Proof.
  unfold time_ltb, time_compare, time_lt.
  destruct (Z.compare_spec (hour a) (hour b));
    destruct (Z.compare_spec (minute a) (minute b));
    destruct (Z.compare_spec (second a) (second b));
    split; intros; try discriminate; try reflexivity; lia.
Qed.

Lemma time_ltb_irrefl (a : time) : time_ltb a a = false.
Proof.
  unfold time_ltb, time_compare. now rewrite !Z.compare_refl.
Qed.

Lemma overlap_sym (a b : Window) : overlap a b = overlap b a.
Proof.
  unfold overlap. rewrite !time_gtb_ltb. apply andb_comm.
Qed.

(* ================================================================= *)
(** ** Properties of the Python primitives *)

Lemma split_no_sep (c : ascii) (s : string) :
  Py.contains c s = false -> Py.split c s = [s].
Proof.
  induction s as [|a s IH]; simpl; intros H; trivial.
  apply orb_false_iff in H. destruct H as [Ha Hs].
  rewrite Ascii.eqb_sym, Ha. now rewrite (IH Hs).
Qed.

Lemma Z_range_forallb (P : Z -> bool) (n : nat) :
  forallb P (map Z.of_nat (seq 0 n)) = true ->
  forall z, 0 <= z < Z.of_nat n -> P z = true.
Proof.
  intros H z Hz. rewrite forallb_forall in H. apply H.
  apply in_map_iff. exists (Z.to_nat z). split; [lia|].
  apply in_seq. lia.
Qed.

Lemma fmt_02d_two_digits (n : Z) : 0 <= n < 100 -> Py.fmt_02d n = two_digits n.
Proof.
  intros H.
  apply (Z_range_forallb (fun z => String.eqb (Py.fmt_02d z) (two_digits z)) 100) in H.
  - now apply String.eqb_eq.
  - vm_compute. reflexivity.
Qed.

Lemma parse_hhmm (h m : Z) :
  0 <= h < 24 -> 0 <= m < 60 ->
  parse_time_string (hhmm h m) = (true, "", Some (mk_time h m 0)).
Proof.
  intros Hh Hm.
  pose (P := fun h m : Z =>
    match parse_time_string (hhmm h m) with
    | (true, EmptyString, Some t) => (hour t =? h) && (minute t =? m) && (second t =? 0)
    | _ => false
    end).
  assert (HP : P h m = true).
  { apply (Z_range_forallb (fun h => forallb (P h) (map Z.of_nat (seq 0 60))) 24) in Hh.
    - apply (Z_range_forallb (P h) 60 Hh m Hm).
    - vm_compute. reflexivity. }
  unfold P in HP.
  destruct (parse_time_string (hhmm h m)) as [[[] [|? ?]] [[h' m' s']|]]; try discriminate.
  simpl in HP. apply andb_true_iff in HP as [HP H3]. apply andb_true_iff in HP as [H1 H2].
  apply Z.eqb_eq in H1, H2, H3. now subst.
Qed.

(** [parse_time_string] returns a time exactly when it reports success. *)
Lemma parse_time_string_shape (s : string) :
  (exists t, parse_time_string s = (true, "", Some t))
  \/ (exists msg, parse_time_string s = (false, msg, None)).
Proof.
  unfold parse_time_string. destruct s as [|c s]; [right; eauto|].
  destruct (negb (Py.contains ":" (String c s))).
  - destruct (Py.int (String c s)); [|right; eauto].
    destruct (py_time z 0 0); [left|right]; eauto.
  - destruct (Py.int _); [|right; eauto].
    destruct (if 1 <? Py.len _ then _ else _); [|right; eauto].
    destruct ((z <? 0) || (z >? 23)); [right; eauto|].
    destruct ((z0 <? 0) || (z0 >? 59)); [right; eauto|].
    destruct (py_time z z0 0); [left|right]; eauto.
Qed.

Lemma py_time_Some (h m s : Z) (t : time) :
  py_time h m s = Some t ->
  t = mk_time h m s /\ 0 <= h <= 23 /\ 0 <= m <= 59 /\ 0 <= s <= 59.
Proof.
  unfold py_time. intros H.
  destruct ((0 <=? h) && (h <=? 23) && (0 <=? m) && (m <=? 59) && (0 <=? s) && (s <=? 59)) eqn:E;
    [|discriminate].
  injection H as <-. repeat (apply andb_true_iff in E as [E ?]).
  repeat match goal with H : (_ <=? _) = true |- _ => apply Z.leb_le in H end.
  split; [reflexivity | lia].
Qed.

(** What a successful parse says about the pieces of the string that
    [calculate_end_time] reads again. *)
Lemma parse_time_string_ok (s : string) (msg : string) (t : time) :
  parse_time_string s = (true, msg, Some t) ->
  msg = ""
  /\ 0 <= hour t <= 23 /\ 0 <= minute t <= 59 /\ second t = 0
  /\ Py.int (nth 0 (Py.split ":" s) EmptyString) = Some (hour t)
  /\ (if 1 <? Py.len (Py.split ":" s)
      then Py.int (nth 1 (Py.split ":" s) EmptyString) else Some 0) = Some (minute t).
Proof.
  unfold parse_time_string. destruct s as [|c s]; [discriminate|].
  destruct (negb (Py.contains ":" (String c s))) eqn:Hc.
  - apply negb_true_iff in Hc. rewrite (split_no_sep _ _ Hc).
    destruct (Py.int (String c s)) as [hours|] eqn:Hi; [|discriminate].
    destruct (py_time hours 0 0) as [t'|] eqn:Ht; [|discriminate].
    intros H. injection H as <- <-.
    apply py_time_Some in Ht as (-> & ? & ? & ?). simpl. repeat split; trivial; lia.
  - destruct (Py.int (nth 0 _ _)) as [hours|] eqn:Hi; [|discriminate].
    destruct (if 1 <? Py.len _ then _ else _) as [minutes|] eqn:Hm; [|discriminate].
    destruct ((hours <? 0) || (hours >? 23)); [discriminate|].
    destruct ((minutes <? 0) || (minutes >? 59)); [discriminate|].
    destruct (py_time hours minutes 0) as [t'|] eqn:Ht; [|discriminate].
    intros H. injection H as <- <-.
    apply py_time_Some in Ht as (-> & ? & ? & ?). simpl. repeat split; trivial; lia.
Qed.

Lemma calculate_end_time_try_ok (s msg : string) (t : time) (duration_hours : Z) :
  parse_time_string s = (true, msg, Some t) ->
  calculate_end_time_try s duration_hours
  = Some (hhmm ((hour t + duration_hours) mod 24) (minute t)).
Proof.
  intros H. apply parse_time_string_ok in H as (_ & Hh & Hm & _ & H0 & H1).
  unfold calculate_end_time_try. rewrite H0, H1. unfold hhmm.
  rewrite !fmt_02d_two_digits; trivial; try lia.
  pose proof (Z.mod_pos_bound (hour t + duration_hours) 24). lia.
Qed.

Lemma calculate_end_time_ok (now : time) (s msg : string) (t : time) (duration_hours : Z) :
  parse_time_string s = (true, msg, Some t) ->
  calculate_end_time now s duration_hours
  = hhmm ((hour t + duration_hours) mod 24) (minute t).
Proof.
  intros H. unfold calculate_end_time.
  now rewrite (calculate_end_time_try_ok _ _ _ _ H).
Qed.

(** The end time of a validated start time parses again, to the hour
    advanced modulo 24 and the same minute. *)
Lemma parse_calculate_end_time (now : time) (s msg : string) (t : time) (duration_hours : Z) :
  parse_time_string s = (true, msg, Some t) ->
  parse_time_string (calculate_end_time now s duration_hours)
  = (true, "", Some (mk_time ((hour t + duration_hours) mod 24) (minute t) 0)).
Proof.
  intros H. rewrite (calculate_end_time_ok _ _ _ _ _ H).
  apply parse_time_string_ok in H as (_ & Hh & Hm & _).
  apply parse_hhmm; [|lia].
  apply Z.mod_pos_bound. lia.
Qed.

(* ================================================================= *)
(** ** Lists, sorting and minimum *)

Lemma date_eqb_eq (a b : date) : date_eqb a b = true <-> a = b.
Proof.
  unfold date_eqb. destruct a, b; simpl. rewrite !andb_true_iff, !Z.eqb_eq.
  split; [intros [[-> ->] ->]; reflexivity | intros H; injection H; auto].
Qed.

Lemma date_eqb_refl (a : date) : date_eqb a a = true.
Proof. now apply date_eqb_eq. Qed.

Lemma In_insert_by_capacity (t u : Table.t) (ts : list Table.t) :
  In u (insert_by_capacity t ts) <-> u = t \/ In u ts.
Proof.
  induction ts as [|v ts IH]; simpl.
  - intuition.
  - destruct (Table.capacity t <=? Table.capacity v); simpl; rewrite ?IH; intuition.
Qed.

Lemma In_order_by_capacity (u : Table.t) (ts : list Table.t) :
  In u (order_by_capacity ts) <-> In u ts.
Proof.
  induction ts as [|t ts IH]; simpl; [tauto|].
  rewrite In_insert_by_capacity, IH. intuition.
Qed.

Lemma min_by_None {A} (key : A -> Z) (xs : list A) :
  Py.min_by key xs = None <-> xs = [].
Proof.
  destruct xs as [|x xs]; simpl; [tauto|].
  split; [|discriminate].
  destruct (Py.min_by key xs); [destruct (key a <? key x)|]; discriminate.
Qed.

Lemma min_by_Some {A} (key : A -> Z) (xs : list A) (m : A) :
  Py.min_by key xs = Some m ->
  In m xs /\ forall y, In y xs -> key m <= key y.
Proof.
  revert m. induction xs as [|x xs IH]; simpl; intros m H; [discriminate|].
  destruct (Py.min_by key xs) as [y|] eqn:E.
  - destruct (IH y eq_refl) as [Hy Hmin].
    destruct (Z.ltb_spec (key y) (key x)); injection H as <-.
    + split; [auto|]. intros z [<-|Hz]; [lia|auto].
    + split; [auto|]. intros z [<-|Hz]; [lia|]. specialize (Hmin z Hz). lia.
  - injection H as <-. apply min_by_None in E. subst xs.
    split; [auto|]. intros z [<-|[]]. lia.
Qed.

Lemma mem_In (x : Z) (xs : list Z) : mem x xs = true <-> In x xs.
Proof.
  unfold mem. rewrite existsb_exists. split.
  - intros (y & Hy & E). apply Z.eqb_eq in E. now subst.
  - intros H. exists x. split; [trivial | apply Z.eqb_refl].
Qed.

Lemma mem_option_In (x : Z) (xs : list (option Z)) :
  mem_option x xs = true <-> In (Some x) xs.
Proof.
  unfold mem_option. rewrite existsb_exists. split.
  - intros ([y|] & Hy & E); simpl in E; [|discriminate].
    apply Z.eqb_eq in E. now subst.
  - intros H. exists (Some x). split; [trivial | apply Z.eqb_refl].
Qed.

Lemma In_suitable_tables (db : DB) (restaurant_id party_size : Z) (t : Table.t) :
  In t (suitable_tables db restaurant_id party_size) <-> fits db restaurant_id party_size t.
Proof.
  unfold suitable_tables, fits. rewrite filter_In, andb_true_iff, Z.eqb_eq, Z.geb_le.
  tauto.
Qed.

Lemma In_day_reservations (db : DB) (restaurant_id : Z) (date_obj : date) (r : Reservation.t) :
  In r (day_reservations db restaurant_id date_obj)
  <-> In r (reservations db)
      /\ Reservation.restaurant_id r = restaurant_id
      /\ Reservation.reservation_date r = date_obj
      /\ Reservation.is_active r = true.
Proof.
  unfold day_reservations.
  rewrite filter_In, !andb_true_iff, Z.eqb_eq, date_eqb_eq. tauto.
Qed.

(** A table is in the reserved set exactly when it has a conflict. *)
Lemma reserved_table_conflict (db : DB) (restaurant_id : Z) (date_obj : date) (req : Window)
    (t : Table.t) :
  mem_option (Table.id t)
    (map Reservation.table_id
         (filter (conflicting req) (day_reservations db restaurant_id date_obj))) = true
  <-> table_conflict db restaurant_id date_obj req t.
Proof.
  rewrite mem_option_In, in_map_iff. unfold table_conflict. split.
  - intros (r & Ht & Hr). apply filter_In in Hr as [Hr Hc].
    apply In_day_reservations in Hr as (? & ? & ? & ?).
    unfold conflicting in Hc. destruct (stored_window r) as [w|] eqn:Hw; [|discriminate].
    exists r, w. auto 10.
  - intros (r & w & ? & ? & ? & ? & ? & Hw & Ho). exists r. split; [trivial|].
    apply filter_In. split; [apply In_day_reservations; auto|].
    unfold conflicting. now rewrite Hw.
Qed.

(* ================================================================= *)
(** ** The table allocator *)

Lemma In_available_tables (db : DB) (restaurant_id party_size : Z) (date_obj : date)
    (req : Window) (t : Table.t) :
  In t (available_tables db restaurant_id party_size date_obj req)
  <-> free_table db restaurant_id party_size date_obj req t.
Proof.
  unfold available_tables, free_table.
  rewrite filter_In, In_order_by_capacity, In_suitable_tables, negb_true_iff.
  rewrite <- (reserved_table_conflict db restaurant_id date_obj req t).
  destruct (mem_option _ _); intuition congruence.
Qed.

Lemma check_table_availability_parsed (db : DB) (now : time) (restaurant_id party_size : Z)
    (date_obj : date) (start_time : string) (end_time : option string)
    (m1 m2 : string) (req_start req_end : time) :
  parse_time_string start_time = (true, m1, Some req_start) ->
  parse_time_string (default_end_time now start_time end_time) = (true, m2, Some req_end) ->
  check_table_availability db now restaurant_id party_size date_obj start_time end_time
  = match order_by_capacity (suitable_tables db restaurant_id party_size) with
    | [] => (false, no_table_size, None)
    | _ =>
        match Py.min_by Table.capacity
                (available_tables db restaurant_id party_size date_obj
                   (mk_window req_start req_end)) with
        | None => (false, no_capacity, None)
        | Some t => (true, "", Some t)
        end
    end.
Proof.
  intros H1 H2. unfold check_table_availability, available_tables.
  rewrite H1, H2. reflexivity.
Qed.




(* ================================================================= *)
(** ** The overlap test and the end time *)

(** C5. The overlap test holds exactly when each window starts before the
    other ends; it is symmetric; and two windows that share a boundary do
    not overlap, in either order. *)
Theorem overlap_predicate (A B : Window) :
  (overlap A B = true
   <-> time_lt (w_start A) (w_end B) /\ time_lt (w_start B) (w_end A))
  /\ overlap A B = overlap B A
  /\ (forall s m e : time,
        overlap (mk_window s m) (mk_window m e) = false
        /\ overlap (mk_window m e) (mk_window s m) = false).
Proof.
  split; [|split].
  - unfold overlap. rewrite andb_true_iff, time_gtb_ltb, !time_ltb_lt. tauto.
  - apply overlap_sym.
  - intros s m e.
    assert (H : overlap (mk_window s m) (mk_window m e) = false).
    { unfold overlap; simpl. rewrite time_gtb_ltb, time_ltb_irrefl. apply andb_false_r. }
    split; [exact H | now rewrite overlap_sym].
Qed.

(** C10. When [parse_time_string] accepts the start time, the [try] block
    of [calculate_end_time] returns, so that the fallback on the clock is
    not taken: whatever the clock reads, the result is the two-digit hour
    (start hour + duration) mod 24, a colon, and the two-digit minute of the
    start. *)
Theorem calculate_end_time_deterministic (start_time : string) (duration_hours : Z) :
  fst (fst (parse_time_string start_time)) = true ->
  exists t,
    parse_time_string start_time = (true, "", Some t)
    /\ calculate_end_time_try start_time duration_hours
       = Some (two_digits ((hour t + duration_hours) mod 24) ++ ":" ++ two_digits (minute t))
    /\ (forall now,
          calculate_end_time now start_time duration_hours
          = two_digits ((hour t + duration_hours) mod 24) ++ ":" ++ two_digits (minute t))
    /\ 0 <= (hour t + duration_hours) mod 24 < 24
    /\ 0 <= minute t < 60.
Proof.
  intros H.
  destruct (parse_time_string_shape start_time) as [[t Ht]|[msg Hf]];
    [|rewrite Hf in H; discriminate].
  exists t. split; [exact Ht|].
  split; [exact (calculate_end_time_try_ok _ _ _ _ Ht)|].
  split; [intros now; exact (calculate_end_time_ok now _ _ _ _ Ht)|].
  apply parse_time_string_ok in Ht as (_ & Hh & Hm & _).
  split; [apply Z.mod_pos_bound|]; lia.
Qed.

Lemma calculate_end_time_deterministic_witness :
  exists t,
    parse_time_string "23:30" = (true, "", Some t)
    /\ calculate_end_time_try "23:30" 2 = Some "01:30"
    /\ forall now, calculate_end_time now "23:30" 2 = "01:30".
Proof.
  destruct (calculate_end_time_deterministic "23:30" 2 eq_refl) as (t & Ht & Htry & Hnow & _).
  exists t. split; [exact Ht|].
  assert (E : t = mk_time 23 30 0) by (vm_compute in Ht; congruence).
  subst t. split; [exact Htry | exact Hnow].
Defined.

(* ================================================================= *)
(** ** Validation and party size *)

Lemma Eater_get_Some (db : DB) (i : Z) (e : Eater.t) :
  Eater_get db i = Some e -> Eater.id e = i /\ In e (eaters db).
Proof.
  unfold Eater_get. intros H. apply find_some in H as [H1 H2].
  apply Z.eqb_eq in H2. auto.
Qed.

Lemma validate_host_ok (db : DB) (eater_id : Z) (msg : string) (host : Eater.t) :
  validate_host db eater_id = (true, msg, Some host) ->
  Eater.id host = eater_id /\ In host (eaters db).
Proof.
  unfold validate_host. destruct (Eater_get db eater_id) as [e|] eqn:E; [|discriminate].
  intros H. injection H as _ <-. now apply Eater_get_Some.
Qed.

Lemma validate_attendees_loop_ok (db : DB) (ids : list Z) (acc atts : list Eater.t)
    (msg : string) :
  validate_attendees_loop db ids acc = (true, msg, atts) ->
  exists rest,
    atts = (acc ++ rest)%list /\ map Eater.id rest = ids
    /\ forall a, In a rest -> In a (eaters db).
Proof.
  revert acc. induction ids as [|i ids IH]; simpl; intros acc H.
  - injection H as _ <-. exists []. rewrite app_nil_r. simpl. intuition.
  - destruct (Eater_get db i) as [e|] eqn:E; [|discriminate].
    apply IH in H as (rest & -> & Hids & Hin).
    apply Eater_get_Some in E as [Hid He].
    exists (e :: rest). rewrite <- app_assoc. simpl. rewrite Hid, Hids.
    split; [reflexivity|]. split; [reflexivity|].
    intros a [<-|Ha]; auto.
Qed.

Lemma validate_attendees_ok (db : DB) (ids : list Z) (atts : list Eater.t) (msg : string) :
  validate_attendees db ids = (true, msg, atts) ->
  map Eater.id atts = ids /\ forall a, In a atts -> In a (eaters db).
Proof.
  intros H. apply validate_attendees_loop_ok in H as (rest & -> & ? & ?). auto.
Qed.

Lemma host_in_ids (host : Eater.t) (attendees : list Eater.t) :
  host_in host attendees = mem (Eater.id host) (map Eater.id attendees).
Proof.
  unfold host_in, mem. induction attendees as [|a l IH]; simpl; [reflexivity|].
  now rewrite IH, Z.eqb_sym.
Qed.

Lemma nodup_cons_length (x : Z) (xs : list Z) :
  NoDup xs ->
  Py.len (nodup Z.eq_dec (x :: xs)) = Py.len xs + (if mem x xs then 0 else 1).
Proof.
  intros H. unfold Py.len. simpl.
  destruct (in_dec Z.eq_dec x xs) as [Hin|Hout].
  - apply mem_In in Hin. rewrite Hin, (nodup_fixed_point Z.eq_dec H). lia.
  - destruct (mem x xs) eqn:E; [apply mem_In in E; contradiction|].
    simpl. rewrite (nodup_fixed_point Z.eq_dec H). lia.
Qed.

(** C6, as the code computes it. For a call that reaches step 4 the party
    size is the number of attendee identifiers as listed, plus one when the
    identifier of the host is not among them, plus the guest count. When no
    attendee identifier is listed twice this is the number of distinct
    persons among the host and the attendees plus the guest count: the
    host is counted once, listed or not. *)
Theorem party_size_computation (db : DB) (eater_id : Z) (attendee_ids : list Z)
    (guests_count : Z) (host : Eater.t) (attendees : list Eater.t) :
  validate_host db eater_id = (true, "", Some host) ->
  validate_attendees db attendee_ids = (true, "", attendees) ->
  party_size_of host attendees guests_count
  = Py.len attendee_ids + (if mem eater_id attendee_ids then 0 else 1) + guests_count
  /\ (NoDup attendee_ids ->
      party_size_of host attendees guests_count
      = spec_party_size eater_id attendee_ids guests_count).
Proof.
  intros Hh Ha.
  apply validate_host_ok in Hh as [Hid _].
  apply validate_attendees_ok in Ha as [Hids _].
  assert (E : party_size_of host attendees guests_count
              = Py.len attendee_ids + (if mem eater_id attendee_ids then 0 else 1)
                + guests_count).
  { unfold party_size_of. rewrite host_in_ids, Hid, Hids.
    f_equal. f_equal. unfold Py.len. now rewrite <- Hids, length_map. }
  split; [exact E|].
  intros Hnd. rewrite E. unfold spec_party_size, distinct_persons.
  now rewrite (nodup_cons_length _ _ Hnd).
Qed.

Lemma party_size_computation_witness :
  party_size_of (Eater.mk 1 "Ana" "ana@example.org")
    [Eater.mk 1 "Ana" "ana@example.org"; Eater.mk 2 "Ben" "ben@example.org";
     Eater.mk 3 "Cy" "cy@example.org"] 2
  = spec_party_size 1 [1; 2; 3] 2
  /\ spec_party_size 1 [1; 2; 3] 2 = 5.
Proof.
  split; [|reflexivity].
  apply (party_size_computation Sample.db0 1 [1; 2; 3] 2); try reflexivity.
  repeat constructor; simpl; intuition discriminate.
Defined.

(** C6 as stated fails: with the attendee identifier 2 listed twice the
    party of host 1 is given size 3, for 2 distinct persons; the reservation
    is stored with that size. *)
Lemma party_size_counterexample :
  ~ (forall (db : DB) (eater_id : Z) (attendee_ids : list Z) (guests_count : Z)
            (host : Eater.t) (attendees : list Eater.t),
       validate_host db eater_id = (true, "", Some host) ->
       validate_attendees db attendee_ids = (true, "", attendees) ->
       party_size_of host attendees guests_count
       = spec_party_size eater_id attendee_ids guests_count)
  /\ (exists db' r,
        create_reservation Sample.env_ok 1 1 "2025-05-01" "18:00" (Some [2; 2]) 0 Sample.db0
        = (db', (true, "Reservation created successfully", Some r))
        /\ Reservation.party_size r = 3
        /\ spec_party_size 1 [2; 2] 0 = 2).
Proof.
  split.
  - intros H.
    specialize (H Sample.db0 1 [2; 2] 0 (Eater.mk 1 "Ana" "ana@example.org")
                  [Eater.mk 2 "Ben" "ben@example.org"; Eater.mk 2 "Ben" "ben@example.org"]
                  eq_refl eq_refl).
    vm_compute in H. discriminate.
  - eexists _, _. vm_compute. repeat split.
Qed.

(* ================================================================= *)
(** ** Failure leaves the database as it was *)

Ltac destruct_matches :=
  repeat match goal with
         | |- context [match ?x with _ => _ end] => destruct x eqn:?
         end.

Lemma create_reservation_failure (env : Env) (eater_id restaurant_id : Z)
    (reservation_date reservation_start_time : string)
    (attendee_ids : option (list Z)) (guests_count : Z) (db : DB) :
  fst (fst (snd (create_reservation env eater_id restaurant_id reservation_date
                   reservation_start_time attendee_ids guests_count db))) = false ->
  fst (create_reservation env eater_id restaurant_id reservation_date
         reservation_start_time attendee_ids guests_count db) = db.
Proof.
  unfold create_reservation. destruct_matches; simpl; intros H;
    first [reflexivity | discriminate].
Qed.

(** C3. When [create_reservation] reports failure, for whatever reason, the
    database it leaves is the one it was given: the reservations and the
    attendee associations are unchanged, and no reservation is returned. *)
Theorem create_reservation_atomic (env : Env) (eater_id restaurant_id : Z)
    (reservation_date reservation_start_time : string)
    (attendee_ids : option (list Z)) (guests_count : Z) (db db' : DB)
    (message : string) (reservation : option Reservation.t) :
  create_reservation env eater_id restaurant_id reservation_date
    reservation_start_time attendee_ids guests_count db
  = (db', (false, message, reservation)) ->
  db' = db
  /\ reservations db' = reservations db
  /\ reservation_attendees db' = reservation_attendees db.
Proof.
  intros H.
  pose proof (create_reservation_failure env eater_id restaurant_id reservation_date
                reservation_start_time attendee_ids guests_count db) as F.
  rewrite H in F. simpl in F. specialize (F eq_refl). subst db'. auto.
Qed.

Lemma create_reservation_atomic_witness :
  fst (create_reservation Sample.env_fail 1 1 "2025-05-01" "18:00" (Some [2]) 1 Sample.db0)
  = Sample.db0.
Proof.
  exact (proj1 (create_reservation_atomic Sample.env_fail 1 1 "2025-05-01" "18:00"
                  (Some [2]) 1 Sample.db0 Sample.db0
                  "Error creating reservation: database is locked" None eq_refl)).
Defined.

(* ================================================================= *)
(** ** The restriction filter *)

Lemma len_nonneg {A} (xs : list A) : 0 <= Py.len xs.
Proof. unfold Py.len. lia. Qed.

Lemma len_pos_In {A} (xs : list A) : 1 <= Py.len xs <-> exists x, In x xs.
Proof.
  unfold Py.len. destruct xs as [|x xs]; simpl.
  - split; [lia | intros [? []]].
  - split; [eauto | lia].
Qed.

(** What the subquery computes, on any tables: the restaurant has a counted
    row, and at least as many of them as the join returned rows. *)
Lemma passes_restriction_filter_counts (db : DB) (restrictions : list Z) (rid : Z) :
  passes_restriction_filter db restrictions rid = true
  <-> 1 <= endorsement_count db (matching_endorsement_ids db restrictions) rid
      /\ Py.len (matching_endorsement_ids db restrictions)
         <= endorsement_count db (matching_endorsement_ids db restrictions) rid.
Proof.
  unfold passes_restriction_filter, restaurant_counts.
  set (matching := matching_endorsement_ids db restrictions).
  rewrite mem_In, in_map_iff. split.
  - intros ([i c] & Hi & Hin). simpl in Hi. subst i.
    apply filter_In in Hin as [Hin Hc]. simpl in Hc. apply Z.geb_le in Hc.
    apply in_map_iff in Hin as (i & E & Hi). injection E as -> <-.
    split; [|exact Hc].
    apply nodup_In, in_map_iff in Hi as (row & Hrow & Hin).
    unfold endorsement_count. apply len_pos_In. exists row.
    apply filter_In. split; [trivial | now apply Z.eqb_eq].
  - intros [H1 H2]. exists (rid, endorsement_count db matching rid). split; [reflexivity|].
    apply filter_In. split; [|now apply Z.geb_le].
    apply in_map_iff. exists rid. split; [reflexivity|].
    apply nodup_In, in_map_iff.
    unfold endorsement_count in H1. apply len_pos_In in H1 as [row Hrow].
    apply filter_In in Hrow as [Hin E]. apply Z.eqb_eq in E. eauto.
Qed.

Lemma In_matching_endorsement_ids (db : DB) (restrictions : list Z) (e : Z) :
  In e (matching_endorsement_ids db restrictions)
  <-> In e (map Endorsement.id (endorsements db))
      /\ In e (requested_endorsements db restrictions).
Proof.
  unfold matching_endorsement_ids, requested_endorsements.
  rewrite in_flat_map, !in_map_iff. split.
  - intros (x & Hx & Hin). apply in_map_iff in Hin as (row & <- & Hrow).
    apply filter_In in Hrow as [Hrow Hc]. apply andb_true_iff in Hc as [H1 H2].
    apply Z.eqb_eq in H1. split; [eauto|].
    exists row. split; [trivial|]. apply filter_In. auto.
  - intros [(x & <- & Hx) (row & E & Hrow)]. apply filter_In in Hrow as [Hrow Hc].
    exists x. split; [trivial|]. apply in_map_iff. exists row. split; [reflexivity|].
    apply filter_In. split; [trivial|]. rewrite E, Z.eqb_refl. exact Hc.
Qed.

(** When no endorsement is requested twice the join returns each of them
    once. *)
Lemma NoDup_matching_endorsement_ids (db : DB) (restrictions : list Z) :
  NoDup (map Endorsement.id (endorsements db)) ->
  NoDup (requested_endorsements db restrictions) ->
  NoDup (matching_endorsement_ids db restrictions).
Proof.
  unfold matching_endorsement_ids, requested_endorsements.
  set (rows := restriction_endorsement_mappings db).
  intros Hids Hreq.
  induction (endorsements db) as [|e es IH]; simpl; [constructor|].
  inversion Hids as [|? ? He Hes]; subst.
  apply NoDup_app; [| now apply IH |].
  - assert (F : forall l : list (Z * Z),
               NoDup (map snd (filter (fun row => mem (fst row) restrictions) l)) ->
               NoDup (map (fun _ : Z * Z => Endorsement.id e)
                        (filter (fun row => (snd row =? Endorsement.id e)
                                            && mem (fst row) restrictions) l))).
    { induction l as [|row l IHl]; simpl; intros Hl; [constructor|].
      destruct (mem (fst row) restrictions) eqn:Em; simpl in Hl.
      - inversion Hl as [|? ? Hrow Hl']; subst.
        destruct (snd row =? Endorsement.id e) eqn:Es; simpl; [|auto].
        constructor; [|auto].
        intros Hin. apply Hrow. apply in_map_iff in Hin as (y & _ & Hy).
        apply filter_In in Hy as [Hy Hc]. apply andb_true_iff in Hc as [H1 H2].
        apply Z.eqb_eq in H1, Es. apply in_map_iff. exists y. split; [congruence|].
        apply filter_In. auto.
      - rewrite andb_false_r. auto. }
    now apply F.
  - intros x Hx Hx'. apply in_map_iff in Hx as (row & <- & _).
    apply in_flat_map in Hx' as (e' & He' & Hin).
    apply in_map_iff in Hin as (row' & E & _).
    apply He. rewrite <- E. now apply in_map.
Qed.

Lemma NoDup_map_snd_filter_fst (rid : Z) (l : list (Z * Z)) :
  NoDup l -> NoDup (map snd (filter (fun row => fst row =? rid) l)).
Proof.
  induction l as [|[a b] l IH]; simpl; intros H; [constructor|].
  inversion H as [|? ? Hx Hl]; subst.
  destruct (Z.eqb_spec a rid) as [->|]; simpl; [|auto].
  constructor; [|auto].
  intros Hin. apply Hx. apply in_map_iff in Hin as ([a' b'] & E & Hy).
  apply filter_In in Hy as [Hy Ha]. simpl in *. apply Z.eqb_eq in Ha. now subst.
Qed.

Lemma holds_endorsement_In (db : DB) (rid e : Z) :
  holds_endorsement db rid e = true <-> In (rid, e) (restaurant_endorsements db).
Proof.
  unfold holds_endorsement. rewrite existsb_exists. split.
  - intros ([a b] & Hin & Hc). simpl in Hc. apply andb_true_iff in Hc as [H1 H2].
    apply Z.eqb_eq in H1, H2. now subst.
  - intros H. exists (rid, e). simpl. now rewrite !Z.eqb_refl.
Qed.

Lemma len_Permutation {A} (l l' : list A) : Permutation l l' -> Py.len l = Py.len l'.
Proof. intros H. unfold Py.len. now rewrite (Permutation_length H). Qed.

(** On well-formed tables, and when no endorsement is mapped to two of the
    requested restrictions, the two numbers the subquery compares are the
    ones of the specification. *)
Lemma restriction_counts_agree (db : DB) (restrictions : list Z) (rid : Z) :
  endorsement_tables_wf db ->
  NoDup (requested_endorsements db restrictions) ->
  Py.len (matching_endorsement_ids db restrictions)
  = Py.len (mapped_endorsements db restrictions)
  /\ endorsement_count db (matching_endorsement_ids db restrictions) rid
     = held_count db restrictions rid.
Proof.
  intros (Hids & Hfk & Hre) Hreq.
  assert (Hset : forall e, In e (matching_endorsement_ids db restrictions)
                           <-> In e (mapped_endorsements db restrictions)).
  { intros e. unfold mapped_endorsements.
    rewrite In_matching_endorsement_ids, nodup_In. split; [tauto|].
    intros H. split; [|exact H].
    unfold requested_endorsements in H. apply in_map_iff in H as (row & <- & Hrow).
    apply filter_In in Hrow as [Hrow _]. auto. }
  assert (HndM : NoDup (mapped_endorsements db restrictions)) by apply NoDup_nodup.
  pose proof (NoDup_matching_endorsement_ids db restrictions Hids Hreq) as Hnd.
  split.
  - apply len_Permutation, NoDup_Permutation; trivial.
  - unfold endorsement_count, held_count, counted_rows.
    set (matching := matching_endorsement_ids db restrictions) in *.
    set (M := mapped_endorsements db restrictions) in *.
    transitivity (Py.len (map snd (filter (fun row => fst row =? rid)
                    (filter (fun row => mem (snd row) matching)
                            (restaurant_endorsements db))))).
    { unfold Py.len. now rewrite length_map. }
    apply len_Permutation, NoDup_Permutation.
    + apply NoDup_map_snd_filter_fst, NoDup_filter, Hre.
    + apply NoDup_filter, HndM.
    + intros e. rewrite in_map_iff, filter_In, holds_endorsement_In, <- Hset. split.
      * intros ([a b] & E & Hin). simpl in E. subst b.
        apply filter_In in Hin as [Hin Ha]. apply filter_In in Hin as [Hin Hm].
        simpl in *. apply Z.eqb_eq in Ha. subst a. apply mem_In in Hm. auto.
      * intros [Hm Hin]. exists (rid, e). split; [reflexivity|].
        apply filter_In. split; [|apply Z.eqb_refl].
        apply filter_In. split; [trivial | now apply mem_In].
Qed.

Lemma In_get_potential_restaurants (db : DB) (reservation_time : string)
    (restrictions : list Z) (res_time : time) (r : Restaurant.t) :
  Strptime.orelse (Strptime.hm reservation_time) (Strptime.hms reservation_time)
  = Some res_time ->
  In r (get_potential_restaurants db reservation_time restrictions)
  <-> In r (restaurants db)
      /\ Restaurant.accepts_reservations r = true
      /\ open_at db res_time r = true
      /\ (restrictions = []
          \/ passes_restriction_filter db restrictions (Restaurant.id r) = true).
Proof.
  intros Ht. unfold get_potential_restaurants. rewrite Ht.
  destruct restrictions as [|x xs].
  - rewrite filter_In, andb_true_iff. tauto.
  - rewrite filter_In, !andb_true_iff. unfold passes_restriction_filter.
    split; [intros (? & (? & ?) & ?); auto 6|].
    intros (? & ? & ? & [H|H]); [discriminate | auto].
Qed.

(** C7, as the code filters. With no restriction every restaurant that
    accepts reservations and is open passes. With restrictions, on
    well-formed tables and when no endorsement is mapped to two of the
    requested restrictions, a restaurant passes exactly when it holds at
    least one endorsement of the set mapped to the requested restrictions
    and at least as many of them as the set has members. *)
Theorem restriction_matching_rule (db : DB) (reservation_time : string)
    (restrictions : list Z) (res_time : time) (r : Restaurant.t) :
  Strptime.orelse (Strptime.hm reservation_time) (Strptime.hms reservation_time)
  = Some res_time ->
  (restrictions = [] ->
   (In r (get_potential_restaurants db reservation_time restrictions)
    <-> In r (restaurants db)
        /\ Restaurant.accepts_reservations r = true
        /\ open_at db res_time r = true))
  /\ (restrictions <> [] ->
      endorsement_tables_wf db ->
      NoDup (requested_endorsements db restrictions) ->
      (In r (get_potential_restaurants db reservation_time restrictions)
       <-> In r (restaurants db)
           /\ Restaurant.accepts_reservations r = true
           /\ open_at db res_time r = true
           /\ 1 <= held_count db restrictions (Restaurant.id r)
           /\ Py.len (mapped_endorsements db restrictions)
              <= held_count db restrictions (Restaurant.id r))).
Proof.
  intros Ht.
  pose proof (In_get_potential_restaurants db reservation_time restrictions res_time r Ht)
    as H.
  split.
  - intros E. rewrite H. split; [tauto|]. intros (? & ? & ?). auto.
  - intros Hne Hwf Hreq. rewrite H, passes_restriction_filter_counts.
    destruct (restriction_counts_agree db restrictions (Restaurant.id r) Hwf Hreq)
      as [-> ->].
    split; [|tauto]. intros (? & ? & ? & [E|E]); [contradiction | tauto].
Qed.

Lemma restriction_matching_rule_witness :
  In (Restaurant.mk 2 "Tartine" true)
     (get_potential_restaurants Sample.db0 "18:00" [1; 2])
  /\ In (Restaurant.mk 1 "Lardo" true)
        (get_potential_restaurants Sample.db0 "18:00" []).
Proof.
  destruct (restriction_matching_rule Sample.db0 "18:00" [1; 2] (Sample.t 18 0)
              (Restaurant.mk 2 "Tartine" true) eq_refl) as [_ H2].
  destruct (restriction_matching_rule Sample.db0 "18:00" [] (Sample.t 18 0)
              (Restaurant.mk 1 "Lardo" true) eq_refl) as [H1 _].
  split.
  - apply H2.
    + discriminate.
    + unfold endorsement_tables_wf. simpl. repeat split.
      * repeat constructor; simpl; intuition discriminate.
      * intros row [<-|[<-|[]]]; simpl; auto.
      * repeat constructor; simpl; intuition discriminate.
    + vm_compute. repeat constructor; simpl; intuition discriminate.
    + vm_compute. repeat split; auto; discriminate.
  - apply H1; [reflexivity|]. vm_compute. auto.
Defined.

(** C7 as stated fails: restriction 7 has no mapped endorsement, so that the
    set is empty and the rule of the specification admits every restaurant,
    but the filter admits none. *)
Lemma restriction_rule_counterexample :
  ~ (forall (db : DB) (restrictions : list Z) (restaurant_id : Z),
       restrictions <> [] ->
       (passes_restriction_filter db restrictions restaurant_id = true
        <-> spec_restriction_rule db restrictions restaurant_id = true))
  /\ spec_restriction_rule Sample.db0 [7] 1 = true
  /\ In (Restaurant.mk 1 "Lardo" true) (get_potential_restaurants Sample.db0 "18:00" [])
  /\ get_potential_restaurants Sample.db0 "18:00" [7] = [].
Proof.
  split; [|vm_compute; auto].
  intros H. specialize (H Sample.db0 [7] 1).
  destruct H as [_ H]; [discriminate|].
  specialize (H eq_refl). vm_compute in H. discriminate.
Qed.

(* ================================================================= *)
(** ** Comparing [HH:MM] strings and comparing times *)

Lemma comparison_eqb_eq (a b : comparison) : comparison_eqb a b = true -> a = b.
Proof. destruct a, b; simpl; intros; congruence. Qed.

Lemma two_digits_compare (h h' : Z) :
  0 <= h < 100 -> 0 <= h' < 100 ->
  match Ascii.compare (digit_char (h / 10)) (digit_char (h' / 10)) with
  | Eq => Ascii.compare (digit_char (h mod 10)) (digit_char (h' mod 10))
  | c => c
  end = (h ?= h').
Proof.
  intros Hh Hh'.
  pose (P := fun h h' : Z =>
    comparison_eqb
      (match Ascii.compare (digit_char (h / 10)) (digit_char (h' / 10)) with
       | Eq => Ascii.compare (digit_char (h mod 10)) (digit_char (h' mod 10))
       | c => c
       end) (h ?= h')).
  apply comparison_eqb_eq. change (P h h' = true).
  apply (Z_range_forallb (fun h => forallb (P h) (map Z.of_nat (seq 0 100))) 100) in Hh.
  - apply (Z_range_forallb (P h) 100 Hh h' Hh').
  - vm_compute. reflexivity.
Qed.

Lemma compare_two_digits_prefix (h h' : Z) (s s' : string) :
  0 <= h < 100 -> 0 <= h' < 100 ->
  String.compare (two_digits h ++ s) (two_digits h' ++ s')
  = match h ?= h' with Eq => String.compare s s' | c => c end.
Proof.
  intros Hh Hh'. rewrite <- (two_digits_compare h h' Hh Hh').
  unfold two_digits. cbn [String.compare String.append].
  destruct (Ascii.compare (digit_char (h / 10)) (digit_char (h' / 10))); trivial.
Qed.

Lemma hhmm_compare (h m h' m' : Z) :
  0 <= h < 24 -> 0 <= m < 60 -> 0 <= h' < 24 -> 0 <= m' < 60 ->
  String.compare (hhmm h m) (hhmm h' m')
  = time_compare (mk_time h m 0) (mk_time h' m' 0).
Proof.
  intros Hh Hm Hh' Hm'. unfold hhmm, time_compare. cbn [hour minute second].
  rewrite compare_two_digits_prefix by lia.
  destruct (h ?= h'); trivial.
  change (String.compare (":" ++ two_digits m) (":" ++ two_digits m'))
    with (String.compare (two_digits m ++ "") (two_digits m' ++ "")).
  rewrite compare_two_digits_prefix by lia.
  destruct (m ?= m'); trivial.
Qed.

Lemma hhmm_ltb (h m h' m' : Z) :
  0 <= h < 24 -> 0 <= m < 60 -> 0 <= h' < 24 -> 0 <= m' < 60 ->
  String.ltb (hhmm h m) (hhmm h' m') = time_ltb (mk_time h m 0) (mk_time h' m' 0).
Proof.
  intros. unfold String.ltb, time_ltb. now rewrite hhmm_compare.
Qed.

Lemma hhmm_not_empty (h m : Z) : hhmm h m <> EmptyString.
Proof. unfold hhmm, two_digits. cbn [String.append]. discriminate. Qed.

Lemma stored_window_hhmm (r : Reservation.t) (h m h' m' : Z) :
  0 <= h < 24 -> 0 <= m < 60 -> 0 <= h' < 24 -> 0 <= m' < 60 ->
  Reservation.reservation_start_time r = hhmm h m ->
  Reservation.reservation_end_time r = Some (hhmm h' m') ->
  stored_window r = Some (mk_window (mk_time h m 0) (mk_time h' m' 0)).
Proof.
  intros Hh Hm Hh' Hm' Es Ee. unfold stored_window, parse_time_column.
  now rewrite Es, Ee, !parse_hhmm.
Qed.

(** On [HH:MM] strings the comparisons of the query are the comparisons of
    the parsed times. *)
Lemma query_conflict_agrees (r : Reservation.t) (start_time end_time : string)
    (req_start req_end : time) :
  is_hhmm start_time -> is_hhmm end_time ->
  is_hhmm (Reservation.reservation_start_time r) ->
  (exists e, Reservation.reservation_end_time r = Some e /\ is_hhmm e) ->
  parse_time_string start_time = (true, "", Some req_start) ->
  parse_time_string end_time = (true, "", Some req_end) ->
  (match Reservation.reservation_end_time r with
   | Some e => String.ltb start_time e
   | None => false
   end) && String.ltb (Reservation.reservation_start_time r) end_time
  = conflicting (mk_window req_start req_end) r.
Proof.
  intros (h1 & m1 & ? & ? & ->) (h2 & m2 & ? & ? & ->) (h3 & m3 & ? & ? & E3)
         (e & E4 & h4 & m4 & ? & ? & ->) Ps Pe.
  rewrite parse_hhmm in Ps, Pe by trivial.
  injection Ps as <-. injection Pe as <-.
  unfold conflicting. rewrite (stored_window_hhmm r h3 m3 h4 m4) by trivial.
  rewrite E3, E4. unfold overlap. cbn [w_start w_end].
  now rewrite time_gtb_ltb, !hhmm_ltb.
Qed.

Lemma filter_nonempty {A} (p : A -> bool) (l : list A) :
  (Py.len (filter p l) >? 0) = true <-> exists x, In x l /\ p x = true.
Proof.
  rewrite Z.gtb_ltb, Z.ltb_lt.
  assert (E : 0 < Py.len (filter p l) <-> 1 <= Py.len (filter p l)) by lia.
  rewrite E, len_pos_In. split; intros [x H]; exists x; now apply filter_In.
Qed.

(** C9. On zero-padded [HH:MM] strings, in the request and in every stored
    reservation, the existence check of the search is true exactly when the
    allocator of the booking path finds a table. *)
Theorem search_agrees_with_booking (db : DB) (now : time) (restaurant : Restaurant.t)
    (date_obj : date) (start_time end_time : string) (num_of_eaters : Z) :
  is_hhmm start_time -> is_hhmm end_time ->
  (forall r, In r (reservations db) ->
             is_hhmm (Reservation.reservation_start_time r)
             /\ exists e, Reservation.reservation_end_time r = Some e /\ is_hhmm e) ->
  is_time_available_for_reservation db restaurant date_obj start_time end_time
    num_of_eaters = true
  <-> exists t,
        check_table_availability db now (Restaurant.id restaurant) num_of_eaters
          date_obj start_time (Some end_time) = (true, "", Some t).
Proof.
  intros Hs He Hall.
  assert (Ps : exists req_start, parse_time_string start_time = (true, "", Some req_start)).
  { destruct Hs as (h & m & ? & ? & ->). rewrite parse_hhmm by trivial. eauto. }
  assert (Pe : exists req_end, parse_time_string end_time = (true, "", Some req_end)).
  { destruct He as (h & m & ? & ? & ->). rewrite parse_hhmm by trivial. eauto. }
  destruct Ps as [req_start Ps], Pe as [req_end Pe].
  assert (Ed : default_end_time now start_time (Some end_time) = end_time).
  { destruct He as (h & m & _ & _ & ->). reflexivity. }
  rewrite (check_table_availability_parsed db now (Restaurant.id restaurant) num_of_eaters
             date_obj start_time (Some end_time) "" "" req_start req_end Ps)
    by (rewrite Ed; exact Pe).
  set (rid := Restaurant.id restaurant).
  set (req := mk_window req_start req_end).
  unfold is_time_available_for_reservation.
  change (filter (fun t => (Table.restaurant_id t =? Restaurant.id restaurant)
                           && (Table.capacity t >=? num_of_eaters)) (tables db))
    with (suitable_tables db rid num_of_eaters).
  set (S := suitable_tables db rid num_of_eaters).
  set (query := fun r : Reservation.t =>
         (Reservation.restaurant_id r =? Restaurant.id restaurant)
         && match Reservation.table_id r with
            | Some i => mem i (map Table.id S)
            | None => false
            end
         && date_eqb (Reservation.reservation_date r) date_obj
         && match Reservation.reservation_end_time r with
            | Some e => String.ltb start_time e
            | None => false
            end
         && String.ltb (Reservation.reservation_start_time r) end_time
         && Reservation.is_active r).
  assert (Hres : forall t, In t S ->
            (mem_option (Table.id t) (map Reservation.table_id (filter query (reservations db)))
             = true
             <-> table_conflict db rid date_obj req t)).
  { intros t Ht. rewrite mem_option_In, in_map_iff. unfold table_conflict. split.
    - intros (r & Et & Hr). apply filter_In in Hr as [Hr Hq].
      destruct (Hall r Hr) as [H1 H2].
      unfold query in Hq. rewrite <- !andb_assoc in Hq.
      apply andb_true_iff in Hq as [Q1 Hq]. apply andb_true_iff in Hq as [_ Hq].
      apply andb_true_iff in Hq as [Q3 Hq].
      rewrite andb_assoc in Hq. apply andb_true_iff in Hq as [Q4 Q5].
      rewrite (query_conflict_agrees r start_time end_time req_start req_end
                 Hs He H1 H2 Ps Pe) in Q4.
      unfold conflicting in Q4. destruct (stored_window r) as [w|] eqn:Ew; [|discriminate].
      apply Z.eqb_eq in Q1. apply date_eqb_eq in Q3.
      exists r, w. auto 10.
    - intros (r & w & Hr & Ha & Hrid & Hd & Et & Ew & Ho).
      exists r. split; [exact Et|]. apply filter_In. split; [exact Hr|].
      destruct (Hall r Hr) as [H1 H2].
      pose proof (query_conflict_agrees r start_time end_time req_start req_end
                    Hs He H1 H2 Ps Pe) as Q.
      unfold conflicting in Q. rewrite Ew in Q. fold req in Q. rewrite Ho in Q.
      unfold query. rewrite Et, Ha, Hd, date_eqb_refl, Hrid, Z.eqb_refl.
      rewrite <- !andb_assoc, andb_true_r. simpl. rewrite Q, andb_true_r.
      apply mem_In. now apply in_map. }
  assert (Em : forall p : Table.t -> bool,
            match S with [] => false | _ :: _ => Py.len (filter p S) >? 0 end
            = (Py.len (filter p S) >? 0)) by (intros p; destruct S; reflexivity).
  rewrite Em, filter_nonempty. clear Em. split.
  - intros (t & Ht & Hn). apply negb_true_iff in Hn.
    assert (Hf : free_table db rid num_of_eaters date_obj req t).
    { split; [now apply In_suitable_tables|].
      intros Hc. apply (Hres t Ht) in Hc. congruence. }
    apply In_available_tables in Hf.
    destruct (order_by_capacity S) as [|u us] eqn:EO.
    { apply In_order_by_capacity in Ht. rewrite EO in Ht. destruct Ht. }
    destruct (Py.min_by Table.capacity _) as [m|] eqn:Em; [exists m; reflexivity|].
    apply min_by_None in Em. rewrite Em in Hf. destruct Hf.
  - intros [t Ht].
    destruct (order_by_capacity S) as [|u us]; [discriminate|].
    destruct (Py.min_by Table.capacity _) as [m|] eqn:Em; [|discriminate].
    apply min_by_Some in Em as [Hm _]. apply In_available_tables in Hm as [Hf Hc].
    apply In_suitable_tables in Hf. exists m. split; [exact Hf|].
    apply negb_true_iff. destruct (mem_option _ _) eqn:E; [|reflexivity].
    apply (Hres m Hf) in E. contradiction.
Qed.

Example sample_db1 :
  fst (create_reservation Sample.env_ok 1 1 "2025-05-01" "18:00" (Some [2]) 0 Sample.db0)
  = Sample.db1.
Proof. vm_compute. reflexivity. Qed.

Lemma search_agrees_with_booking_witness :
  is_time_available_for_reservation Sample.db1 (Restaurant.mk 1 "Lardo" true) Sample.may1
    "19:00" "21:00" 2 = true.
Proof.
  apply (search_agrees_with_booking Sample.db1 (Sample.t 12 0) (Restaurant.mk 1 "Lardo" true)
           Sample.may1 "19:00" "21:00" 2).
  - exists 19, 0. repeat split; lia.
  - exists 21, 0. repeat split; lia.
  - intros r [<-|[]]. split.
    + exists 18, 0. repeat split; lia.
    + exists "20:00". split; [reflexivity|]. exists 20, 0. repeat split; lia.
  - eexists. vm_compute. reflexivity.
Defined.

(* ================================================================= *)
(** ** The conflict checker *)

Lemma first_conflict_None (req : Window) (rs : list Reservation.t) :
  first_conflict req rs = None <-> forall r, In r rs -> conflicting req r = false.
Proof.
  unfold conflicting. induction rs as [|x rs IH]; simpl.
  - split; [intros _ r [] | reflexivity].
  - destruct (stored_window x) as [w|] eqn:Ew.
    + destruct (overlap req w) eqn:Eo.
      * split; [discriminate|]. intros H. specialize (H x (or_introl eq_refl)).
        rewrite Ew in H. congruence.
      * rewrite IH. split.
        -- intros H r [<-|Hr]; [now rewrite Ew | auto].
        -- intros H r Hr. auto.
    + rewrite IH. split.
      * intros H r [<-|Hr]; [now rewrite Ew | auto].
      * intros H r Hr. auto.
Qed.

Lemma first_conflict_Some (req : Window) (rs : list Reservation.t) (r : Reservation.t) :
  first_conflict req rs = Some r -> In r rs /\ conflicting req r = true.
Proof.
  unfold conflicting. induction rs as [|x rs IH]; simpl; [discriminate|].
  destruct (stored_window x) as [w|] eqn:Ew.
  - destruct (overlap req w) eqn:Eo.
    + intros H. injection H as <-. rewrite Ew. auto.
    + intros H. destruct (IH H). auto.
  - intros H. destruct (IH H). auto.
Qed.

(** The reservations [check_eater_availability] looks at. *)
Lemma In_eater_reservations (db : DB) (p : Z) (date_obj : date) (r : Reservation.t) :
  In r (all_eater_reservations db p date_obj)
  <-> In r (reservations db)
      /\ Reservation.reservation_date r = date_obj
      /\ Reservation.is_active r = true
      /\ (Reservation.eater_id r = p
          \/ (In (Reservation.id r, p) (reservation_attendees db)
              /\ exists e, In e (eaters db) /\ Eater.id e = p)).
Proof.
  unfold all_eater_reservations.
  rewrite nodup_In, in_app_iff. unfold host_reservations, attending_reservations.
  rewrite !filter_In, !andb_true_iff, Z.eqb_eq, date_eqb_eq, existsb_exists.
  split.
  - intros [(? & (? & ?) & ?)|(? & ((row & Hrow & Hc) & ?) & ?)]; [auto 10|].
    apply andb_true_iff in Hc as [Hc He]. apply andb_true_iff in Hc as [Hf Hs].
    apply Z.eqb_eq in Hf, Hs. apply existsb_exists in He as (e & He & Hid).
    apply Z.eqb_eq in Hid. destruct row as [i q]. simpl in *. subst.
    repeat split; trivial. right. eauto.
  - intros (? & ? & ? & [?|(Hrow & e & He & Hid)]); [auto 10|].
    right. repeat split; trivial. exists (Reservation.id r, p). split; [trivial|].
    simpl. rewrite !Z.eqb_refl. simpl. apply existsb_exists. exists e.
    split; [trivial | now apply Z.eqb_eq].
Qed.

Lemma check_eater_availability_parsed (db : DB) (p : Z) (date_obj : date)
    (start_time end_time m1 m2 : string) (req_start req_end : time) :
  parse_time_string start_time = (true, m1, Some req_start) ->
  parse_time_string end_time = (true, m2, Some req_end) ->
  check_eater_availability db p date_obj start_time end_time
  = match first_conflict (mk_window req_start req_end)
            (all_eater_reservations db p date_obj) with
    | Some reservation => (false, conflict_message db reservation)
    | None => (true, "")
    end.
Proof.
  intros H1 H2. unfold check_eater_availability. now rewrite H1, H2.
Qed.

(** A person who passes the check has no conflicting active reservation on
    the date. *)
Lemma check_eater_availability_free (db : DB) (p : Z) (date_obj : date)
    (start_time end_time m1 m2 m : string) (req_start req_end : time) (r : Reservation.t) :
  parse_time_string start_time = (true, m1, Some req_start) ->
  parse_time_string end_time = (true, m2, Some req_end) ->
  check_eater_availability db p date_obj start_time end_time = (true, m) ->
  In r (reservations db) ->
  Reservation.reservation_date r = date_obj ->
  Reservation.is_active r = true ->
  (Reservation.eater_id r = p
   \/ (In (Reservation.id r, p) (reservation_attendees db)
       /\ exists e, In e (eaters db) /\ Eater.id e = p)) ->
  conflicting (mk_window req_start req_end) r = false.
Proof.
  intros H1 H2 Hc Hr Hd Ha Hp.
  rewrite (check_eater_availability_parsed _ _ _ _ _ _ _ _ _ H1 H2) in Hc.
  destruct (first_conflict _ _) as [x|] eqn:E; [discriminate|].
  rewrite first_conflict_None in E. apply E. apply In_eater_reservations. auto.
Qed.

(** A person with a conflicting active reservation on the date fails the
    check, with the message of one such reservation. *)
Lemma check_eater_availability_conflict (db : DB) (p : Z) (date_obj : date)
    (start_time end_time m1 m2 : string) (req_start req_end : time) (r : Reservation.t) :
  parse_time_string start_time = (true, m1, Some req_start) ->
  parse_time_string end_time = (true, m2, Some req_end) ->
  In r (reservations db) ->
  Reservation.reservation_date r = date_obj ->
  Reservation.is_active r = true ->
  (Reservation.eater_id r = p
   \/ (In (Reservation.id r, p) (reservation_attendees db)
       /\ exists e, In e (eaters db) /\ Eater.id e = p)) ->
  conflicting (mk_window req_start req_end) r = true ->
  exists r',
    In r' (reservations db)
    /\ Reservation.reservation_date r' = date_obj
    /\ Reservation.is_active r' = true
    /\ participates db p r'
    /\ conflicting (mk_window req_start req_end) r' = true
    /\ check_eater_availability db p date_obj start_time end_time
       = (false, conflict_message db r').
Proof.
  intros H1 H2 Hr Hd Ha Hp Hc.
  rewrite (check_eater_availability_parsed _ _ _ _ _ _ _ _ _ H1 H2).
  destruct (first_conflict _ _) as [x|] eqn:E.
  - apply first_conflict_Some in E as [Hx Hcx].
    apply In_eater_reservations in Hx as (? & ? & ? & Hpx).
    exists x. repeat split; trivial. unfold participates. tauto.
  - rewrite first_conflict_None in E. rewrite E in Hc; [discriminate|].
    apply In_eater_reservations. auto.
Qed.

(* ================================================================= *)
(** ** The successful path of [create_reservation] *)

Lemma create_reservation_inv (env : Env) (eater_id restaurant_id : Z)
    (reservation_date reservation_start_time : string)
    (attendee_ids : option (list Z)) (guests_count : Z) (db db' : DB)
    (message : string) (reservation : option Reservation.t) :
  create_reservation env eater_id restaurant_id reservation_date
    reservation_start_time attendee_ids guests_count db
  = (db', (true, message, reservation)) ->
  exists restaurant host attendees date_obj table,
    booking_steps env eater_id restaurant_id reservation_date reservation_start_time
      (ids_of attendee_ids) db restaurant host attendees date_obj
      (party_size_of host attendees guests_count) table
    /\ let booked :=
         booked_reservation env eater_id restaurant_id reservation_start_time db host
           attendees date_obj (party_size_of host attendees guests_count) table in
       db' = booked_db db booked
       /\ reservation = Some (fst booked)
       /\ message = "Reservation created successfully".
Proof.
  unfold create_reservation. fold (ids_of attendee_ids).
  destruct (validate_restaurant db restaurant_id) as [[[] m1] [restaurant|]] eqn:E1;
    try discriminate.
  destruct (validate_host db eater_id) as [[[] m2] [host|]] eqn:E2; try discriminate.
  destruct (validate_attendees db (ids_of attendee_ids)) as [[[] m3] attendees] eqn:E3;
    try discriminate.
  destruct (validate_reservation_time db restaurant reservation_date reservation_start_time)
    as [[[] m4] [date_obj|]] eqn:E4; try discriminate.
  destruct (check_eater_availability db eater_id date_obj reservation_start_time _)
    as [[] m5] eqn:E5; try discriminate.
  destruct (check_attendees db eater_id date_obj reservation_start_time _ attendees)
    as [[] m6] eqn:E6; try discriminate.
  destruct (find_available_table db _ _ restaurant_id _ date_obj reservation_start_time)
    as [[[] m7] [table|]] eqn:E7; try discriminate.
  destruct (create_reservation_object _ _ _ _ _ _ _ _ _ _ _) as [nr atts] eqn:E8.
  destruct (commit_error env) as [e|] eqn:E9; [discriminate|].
  intros H. injection H as <- <- <-.
  exists restaurant, host, attendees, date_obj, table.
  split; [constructor; eauto|].
  unfold booked_reservation, booked_db. rewrite E8. simpl. auto.
Qed.

Lemma create_reservation_succeeds (env : Env) (eater_id restaurant_id : Z)
    (reservation_date reservation_start_time : string)
    (attendee_ids : option (list Z)) (guests_count : Z) (db : DB)
    (restaurant : Restaurant.t) (host : Eater.t) (attendees : list Eater.t)
    (date_obj : date) (table : Table.t) :
  booking_steps env eater_id restaurant_id reservation_date reservation_start_time
    (ids_of attendee_ids) db restaurant host attendees date_obj
    (party_size_of host attendees guests_count) table ->
  let booked :=
    booked_reservation env eater_id restaurant_id reservation_start_time db host
      attendees date_obj (party_size_of host attendees guests_count) table in
  create_reservation env eater_id restaurant_id reservation_date
    reservation_start_time attendee_ids guests_count db
  = (booked_db db booked, (true, "Reservation created successfully", Some (fst booked))).
Proof.
  intros [[m1 E1] [m2 E2] [m3 E3] [m4 E4] [m5 E5] [m6 E6] [m7 E7] E9].
  unfold create_reservation. fold (ids_of attendee_ids).
  rewrite E1, E2, E3, E4, E5, E6, E7.
  unfold booked_reservation, booked_db.
  destruct (create_reservation_object _ _ _ _ _ _ _ _ _ _ _) as [nr atts].
  rewrite E9. reflexivity.
Qed.

Lemma validate_reservation_time_ok (db : DB) (restaurant : Restaurant.t)
    (reservation_date reservation_start_time m : string) (date_obj : date) :
  validate_reservation_time db restaurant reservation_date reservation_start_time
  = (true, m, Some date_obj) ->
  Strptime.ymd reservation_date = Some date_obj
  /\ exists req_start, parse_time_string reservation_start_time = (true, "", Some req_start).
Proof.
  unfold validate_reservation_time.
  destruct (Strptime.ymd reservation_date) as [d|]; [|discriminate].
  destruct (Restaurant_hours db restaurant) as [h|]; [|discriminate].
  destruct (parse_time_string_shape reservation_start_time) as [[t Ht]|[msg Hf]].
  - rewrite Ht. destruct (_ || _); [discriminate|].
    intros H. injection H as _ <-. eauto.
  - rewrite Hf. discriminate.
Qed.

(** The members of the [attendees] collection of a new reservation: the
    host and the listed attendees. *)
Lemma In_new_attendees (now : time) (new_id eater_id restaurant_id table_id : Z)
    (date_obj : date) (start_time : string) (party_size : Z) (host : Eater.t)
    (attendees : list Eater.t) (end_time : option string) (x : Z) :
  In x (snd (create_reservation_object now new_id eater_id restaurant_id table_id date_obj
               start_time party_size host attendees end_time))
  <-> x = Eater.id host \/ In x (map Eater.id attendees).
Proof.
  unfold create_reservation_object. cbn [snd].
  assert (G : forall acc,
             In x (fold_left (fun acc attendee =>
                                if negb (Eater.id attendee =? Eater.id host)
                                then attendees_append acc attendee else acc)
                             attendees acc)
             <-> In x acc
                 \/ (In x (map Eater.id attendees) /\ x <> Eater.id host)).
  { induction attendees as [|a l IH]; intros acc; simpl; [tauto|].
    rewrite IH. destruct (Z.eqb_spec (Eater.id a) (Eater.id host)) as [E|E]; simpl.
    - split; [tauto|]. intros [H|[[H|H] Hx]]; auto. congruence.
    - unfold attendees_append. destruct (mem (Eater.id a) acc) eqn:Em.
      + apply mem_In in Em. split; [tauto|].
        intros [H|[[H|H] Hx]]; auto. subst. auto.
      + rewrite in_app_iff. simpl. split.
        * intros [[H|[H|[]]]|[H Hx]]; auto. right. split; [auto | congruence].
        * intros [H|[[H|H] Hx]]; auto. }
  rewrite G. unfold attendees_append. simpl.
  destruct (Z.eq_dec x (Eater.id host)) as [->|N]; [tauto|]. split.
  - intros [[H|[]]|[H _]]; [left; symmetry; exact H | right; exact H].
  - intros [H|H]; [contradiction | auto].
Qed.

Lemma default_end_time_hhmm (now : time) (start_time : string) (h m : Z) :
  default_end_time now start_time (Some (hhmm h m)) = hhmm h m.
Proof. reflexivity. Qed.

Lemma check_attendees_ok (db : DB) (eater_id : Z) (date_obj : date)
    (start_time end_time m : string) (attendees : list Eater.t) :
  check_attendees db eater_id date_obj start_time end_time attendees = (true, m) ->
  forall a, In a attendees -> Eater.id a <> eater_id ->
            exists m', check_eater_availability db (Eater.id a) date_obj start_time end_time
                       = (true, m').
Proof.
  induction attendees as [|x l IH]; simpl; intros H a Ha Hne; [destruct Ha|].
  destruct (Z.eqb_spec (Eater.id x) eater_id) as [E|E]; simpl in H.
  - destruct Ha as [<-|Ha]; [contradiction | eauto].
  - destruct (check_eater_availability db (Eater.id x) date_obj start_time end_time)
      as [[] m'] eqn:Ec; [|discriminate].
    destruct Ha as [<-|Ha]; eauto.
Qed.

(** What the steps of a successful call establish. *)
Lemma booking_facts (env : Env) (eater_id restaurant_id : Z)
    (reservation_date reservation_start_time : string) (attendee_ids : list Z)
    (db : DB) (restaurant : Restaurant.t) (host : Eater.t) (attendees : list Eater.t)
    (date_obj : date) (party_size : Z) (table : Table.t) :
  booking_steps env eater_id restaurant_id reservation_date reservation_start_time
    attendee_ids db restaurant host attendees date_obj party_size table ->
  let booked :=
    booked_reservation env eater_id restaurant_id reservation_start_time db host
      attendees date_obj party_size table in
  exists req_start,
    parse_time_string reservation_start_time = (true, "", Some req_start)
    /\ fst booked
       = Reservation.mk (next_reservation_id db) eater_id restaurant_id
           (Some (Table.id table)) date_obj reservation_start_time
           (Some (hhmm ((hour req_start + 2) mod 24) (minute req_start))) party_size true
    /\ stored_window (fst booked) = Some (request_window req_start)
    /\ free_table db restaurant_id party_size date_obj (request_window req_start) table
    /\ (forall x, In x (snd booked) <-> x = eater_id \/ In x attendee_ids)
    /\ (forall p, p = eater_id \/ In p attendee_ids ->
                  exists e, In e (eaters db) /\ Eater.id e = p)
    /\ (forall p r,
          p = eater_id \/ In p attendee_ids ->
          In r (reservations db) ->
          Reservation.reservation_date r = date_obj ->
          Reservation.is_active r = true ->
          participates db p r ->
          conflicting (request_window req_start) r = false).
Proof.
  intros [[m1 E1] [m2 E2] [m3 E3] [m4 E4] [m5 E5] [m6 E6] [m7 E7] E9] booked.
  apply validate_reservation_time_ok in E4 as [Ed [req_start Ps]].
  apply validate_host_ok in E2 as [Hid Hhost].
  apply validate_attendees_ok in E3 as [Hids Hatt].
  pose proof (calculate_end_time_ok (now_end_time env) _ _ _ 2 Ps) as Eend.
  pose proof (parse_calculate_end_time (now_end_time env) _ _ _ 2 Ps) as Pe.
  assert (Hrange : 0 <= (hour req_start + 2) mod 24 < 24 /\ 0 <= minute req_start < 60).
  { apply parse_time_string_ok in Ps as (_ & ? & ? & _).
    split; [apply Z.mod_pos_bound|]; lia. }
  assert (Ebooked : fst booked
     = Reservation.mk (next_reservation_id db) eater_id restaurant_id
         (Some (Table.id table)) date_obj reservation_start_time
         (Some (hhmm ((hour req_start + 2) mod 24) (minute req_start))) party_size true).
  { unfold booked, booked_reservation, create_reservation_object. cbn [fst].
    now rewrite Eend, default_end_time_hhmm. }
  assert (Hexists : forall p, p = eater_id \/ In p attendee_ids ->
                              exists e, In e (eaters db) /\ Eater.id e = p).
  { intros p [->|Hp]; [eauto|].
    rewrite <- Hids in Hp. apply in_map_iff in Hp as (a & <- & Ha). eauto. }
  exists req_start. split; [exact Ps|]. split; [exact Ebooked|].
  split; [|split; [|split; [|split; [exact Hexists|]]]].
  - rewrite Ebooked. unfold stored_window, parse_time_column.
    cbn [Reservation.reservation_start_time Reservation.reservation_end_time].
    rewrite Ps, parse_hhmm by tauto. reflexivity.
  - unfold find_available_table in E7.
    rewrite (calculate_end_time_ok (now_find_table env) _ _ _ 2 Ps) in E7.
    rewrite (check_table_availability_parsed db _ restaurant_id party_size date_obj
               reservation_start_time _ "" ""
               req_start (mk_time ((hour req_start + 2) mod 24) (minute req_start) 0) Ps)
      in E7 by (rewrite default_end_time_hhmm; apply parse_hhmm; tauto).
    destruct (order_by_capacity _) as [|u us]; [discriminate|].
    destruct (Py.min_by _ _) as [tb|] eqn:Em; [|discriminate].
    injection E7 as _ <-. apply min_by_Some in Em as [Hin _].
    now apply In_available_tables.
  - intros x. unfold booked, booked_reservation. rewrite In_new_attendees, Hid, Hids.
    tauto.
  - intros p r Hp Hr Hd Ha Hpart.
    assert (Hp' : Reservation.eater_id r = p
                  \/ (In (Reservation.id r, p) (reservation_attendees db)
                      /\ exists e, In e (eaters db) /\ Eater.id e = p)).
    { destruct Hpart; [auto|]. right. split; [trivial|]. now apply Hexists. }
    destruct (Z.eq_dec p eater_id) as [->|Hne].
    + exact (check_eater_availability_free db eater_id date_obj _ _ _ _ _ _ _ r
               Ps Pe E5 Hr Hd Ha Hp').
    + destruct Hp as [->|Hp]; [contradiction|].
      rewrite <- Hids in Hp. apply in_map_iff in Hp as (a & Ea & Hain).
      subst p.
      destruct (check_attendees_ok _ _ _ _ _ _ _ E6 a Hain Hne) as [m' Ec].
      exact (check_eater_availability_free db (Eater.id a) date_obj _ _ _ _ _ _ _ r
               Ps Pe Ec Hr Hd Ha Hp').
Qed.

(* ================================================================= *)
(** ** The operations keep the invariant of the store *)

Lemma fold_max_ge (l : list Z) (x : Z) : In x l -> x <= fold_right Z.max 0 l.
Proof.
  induction l as [|y l IH]; simpl; intros H; [destruct H|].
  destruct H as [<-|H]; [lia|]. specialize (IH H). lia.
Qed.

Lemma next_reservation_id_fresh (db : DB) (r : Reservation.t) :
  In r (reservations db) -> Reservation.id r < next_reservation_id db.
Proof.
  intros H. unfold next_reservation_id.
  pose proof (fold_max_ge (map Reservation.id (reservations db)) (Reservation.id r)
                (in_map _ _ _ H)). lia.
Qed.

Lemma NoDup_map_inj {A} (f : A -> Z) (l : list A) (x y : A) :
  NoDup (map f l) -> In x l -> In y l -> f x = f y -> x = y.
Proof.
  induction l as [|z l IH]; simpl; intros Hnd Hx Hy E; [destruct Hx|].
  inversion Hnd as [|? ? Hz Hl]; subst.
  destruct Hx as [->|Hx], Hy as [->|Hy]; trivial.
  - exfalso. apply Hz. rewrite E. now apply in_map.
  - exfalso. apply Hz. rewrite <- E. now apply in_map.
  - auto.
Qed.

Lemma time_le_lt_trans (a x b : time) : ~ time_lt x a -> time_lt x b -> time_lt a b.
Proof.
  unfold time_lt. destruct a, x, b; simpl. lia.
Qed.

Lemma overlap_false_no_instant (w1 w2 : Window) :
  overlap w1 w2 = false -> forall x, ~ (within w1 x /\ within w2 x).
Proof.
  intros H x [[S1 E1] [S2 E2]].
  assert (O : overlap w1 w2 = true).
  { unfold overlap. rewrite time_gtb_ltb. apply andb_true_iff.
    split; apply time_ltb_lt; eapply time_le_lt_trans; eauto. }
  congruence.
Qed.

Lemma windows_disjoint_intro (r1 r2 : Reservation.t) (w1 w2 : Window) :
  stored_window r1 = Some w1 -> stored_window r2 = Some w2 -> overlap w1 w2 = false ->
  windows_disjoint r1 r2.
Proof.
  intros H1 H2 H. exists w1, w2. repeat split; trivial.
  now apply overlap_false_no_instant.
Qed.

Lemma windows_disjoint_sym (r1 r2 : Reservation.t) :
  windows_disjoint r1 r2 -> windows_disjoint r2 r1.
Proof.
  intros (w1 & w2 & ? & ? & H & _). apply (windows_disjoint_intro r2 r1 w2 w1); trivial.
  now rewrite overlap_sym.
Qed.

Lemma same_static_refl (db : DB) : same_static db db.
Proof. unfold same_static. auto 10. Qed.

Lemma same_static_with_reservations (db : DB) (rs : list Reservation.t) (ra : list (Z * Z)) :
  same_static db (with_reservations db rs ra).
Proof. unfold same_static. simpl. auto 10. Qed.

Lemma same_static_trans (a b c : DB) : same_static a b -> same_static b c -> same_static a c.
Proof.
  unfold same_static. intros (?&?&?&?&?&?&?&?) (?&?&?&?&?&?&?&?).
  repeat split; congruence.
Qed.

(** The store after a successful booking. *)
Lemma booked_db_invariant (env : Env) (eater_id restaurant_id : Z)
    (reservation_date reservation_start_time : string) (attendee_ids : list Z)
    (db : DB) (restaurant : Restaurant.t) (host : Eater.t) (attendees : list Eater.t)
    (date_obj : date) (party_size : Z) (table : Table.t) :
  booking_steps env eater_id restaurant_id reservation_date reservation_start_time
    attendee_ids db restaurant host attendees date_obj party_size table ->
  store_invariant db ->
  store_invariant
    (booked_db db
       (booked_reservation env eater_id restaurant_id reservation_start_time db host
          attendees date_obj party_size table))
  /\ (NoDup (map Table.id (tables db)) ->
      tables_pass_overlap_test db ->
      tables_pass_overlap_test
        (booked_db db
           (booked_reservation env eater_id restaurant_id reservation_start_time db host
              attendees date_obj party_size table))).
Proof.
  intros Hsteps [Iw It Ia Ipb].
  destruct (booking_facts _ _ _ _ _ _ _ _ _ _ _ _ _ Hsteps)
    as (req_start & Ps & Enr & Hwin & Hfree & Hatt & Hex & Hnoconf).
  set (booked := booked_reservation env eater_id restaurant_id reservation_start_time db
                   host attendees date_obj party_size table) in *.
  set (nr := fst booked) in *.
  assert (Hid : Reservation.id nr = next_reservation_id db) by now rewrite Enr.
  assert (Hfresh : forall r, In r (reservations db) -> Reservation.id r <> Reservation.id nr).
  { intros r Hr. pose proof (next_reservation_id_fresh db r Hr). lia. }
  assert (Hres : forall r, In r (reservations (booked_db db booked))
                           <-> In r (reservations db) \/ r = nr).
  { intros r. unfold booked_db. simpl. rewrite in_app_iff. simpl. intuition. }
  assert (Hrows : forall i p, In (i, p) (reservation_attendees (booked_db db booked))
                              <-> In (i, p) (reservation_attendees db)
                                  \/ (i = Reservation.id nr
                                      /\ (p = eater_id \/ In p attendee_ids))).
  { intros i p. unfold booked_db. simpl. rewrite in_app_iff, in_map_iff.
    split.
    - intros [H|(x & E & Hx)]; [auto|]. injection E as <- <-. right.
      split; [reflexivity | now apply Hatt].
    - intros [H|[-> Hp]]; [auto|]. right. exists p. split; [reflexivity | now apply Hatt]. }
  (* participation in an old reservation is not changed by the new rows *)
  assert (Hold : forall p r, In r (reservations db) ->
                             participates (booked_db db booked) p r -> participates db p r).
  { intros p r Hr [H|H]; [now left|]. apply Hrows in H as [H|[E _]]; [now right|].
    destruct (Hfresh r Hr E). }
  (* the participants of the new reservation are those of the request *)
  assert (Hnew : forall p, participates (booked_db db booked) p nr ->
                           p = eater_id \/ In p attendee_ids).
  { intros p [H|H]; [left; rewrite Enr in H; simpl in H; congruence|].
    apply Hrows in H as [H|[_ H]]; [|exact H].
    destruct (Ia _ _ H) as (r & Hr & E). destruct (Hfresh r Hr E). }
  assert (Hdate : Reservation.reservation_date nr = date_obj) by now rewrite Enr.
  assert (Htable : Reservation.table_id nr = Some (Table.id table)) by now rewrite Enr.
  assert (Hrest : Reservation.restaurant_id nr = restaurant_id) by now rewrite Enr.
  (* the new reservation against an old one on the same table *)
  assert (Htb : NoDup (map Table.id (tables db)) ->
                forall r, In r (reservations db) ->
                          Reservation.is_active r = true ->
                          Reservation.table_id nr = Reservation.table_id r ->
                          Reservation.reservation_date nr = Reservation.reservation_date r ->
                          windows_disjoint nr r).
  { intros Hnd r Hr Ha Et Ed.
    destruct (Iw r Hr) as [w Hw]. destruct (It r Hr) as (t & Ht & Ert & Etr).
    destruct Hfree as [(Htab & Etab & _) Hnc].
    assert (t = table).
    { apply (NoDup_map_inj Table.id (tables db)); trivial. congruence. }
    subst t. apply (windows_disjoint_intro nr r (request_window req_start) w Hwin Hw).
    destruct (overlap (request_window req_start) w) eqn:Eo; [|reflexivity].
    exfalso. apply Hnc. exists r, w. repeat split; trivial; congruence. }
  (* the new reservation against an old one of a participant *)
  assert (Hpb : forall p r, In r (reservations db) ->
                            Reservation.is_active r = true ->
                            Reservation.reservation_date nr = Reservation.reservation_date r ->
                            participates (booked_db db booked) p nr ->
                            participates (booked_db db booked) p r ->
                            windows_disjoint nr r).
  { intros p r Hr Ha Ed Hpn Hpr.
    destruct (Iw r Hr) as [w Hw].
    pose proof (Hnoconf p r (Hnew p Hpn) Hr (eq_trans (eq_sym Ed) Hdate) Ha (Hold p r Hr Hpr))
      as Hc.
    unfold conflicting in Hc. rewrite Hw in Hc.
    exact (windows_disjoint_intro nr r (request_window req_start) w Hwin Hw Hc). }
  split; [constructor|].
  - intros r Hr. apply Hres in Hr as [Hr| ->]; [auto | eauto].
  - intros r Hr. apply Hres in Hr as [Hr| ->]; [exact (It r Hr)|].
    destruct Hfree as [(Htab & Etab & _) _]. exists table. repeat split; trivial; congruence.
  - intros i p H. apply Hrows in H as [H|[-> _]].
    + destruct (Ia i p H) as (r & Hr & E). exists r. split; [apply Hres; auto | exact E].
    + exists nr. split; [apply Hres; auto | reflexivity].
  - intros p r1 r2 H1 H2 Hne A1 A2 Ed P1 P2.
    apply Hres in H1 as [H1| ->]; apply Hres in H2 as [H2| ->].
    + apply (Ipb p); auto.
    + apply windows_disjoint_sym. apply (Hpb p); auto.
    + apply (Hpb p); auto.
    + contradiction.
  - intros Hnd Itb r1 r2 H1 H2 Hne A1 A2 Et Ed.
    apply Hres in H1 as [H1| ->]; apply Hres in H2 as [H2| ->].
    + now apply Itb.
    + apply windows_disjoint_sym. apply Htb; auto.
    + apply Htb; auto.
    + contradiction.
Qed.

Lemma deactivated_In (i : Z) (rs : list Reservation.t) (r' : Reservation.t) :
  In r' (map (fun r => if Reservation.id r =? i
                       then Reservation.set_is_active false r else r) rs) ->
  exists r, In r rs
            /\ (r' = r \/ (r' = Reservation.set_is_active false r /\ Reservation.id r = i)).
Proof.
  intros H. apply in_map_iff in H as (r & E & Hr). exists r. split; [exact Hr|].
  destruct (Z.eqb_spec (Reservation.id r) i); [right | left]; auto.
Qed.

Lemma deactivated_active_In (i : Z) (rs : list Reservation.t) (r' : Reservation.t) :
  In r' (map (fun r => if Reservation.id r =? i
                       then Reservation.set_is_active false r else r) rs) ->
  Reservation.is_active r' = true ->
  In r' rs.
Proof.
  intros H Ha. apply deactivated_In in H as (r & Hr & [->|[-> _]]); [exact Hr|].
  discriminate.
Qed.

Lemma delete_reservation_invariant (env : Env) (i : Z) (soft_delete : bool) (db : DB) :
  store_invariant db ->
  store_invariant (fst (delete_reservation env i soft_delete db))
  /\ (tables_pass_overlap_test db ->
      tables_pass_overlap_test (fst (delete_reservation env i soft_delete db))).
Proof.
  intros Hinv. unfold delete_reservation.
  destruct (Reservation_get db i) as [reservation|]; [|simpl; auto].
  destruct (commit_error env); [simpl; auto|].
  destruct Hinv as [Iw It Ia Ipb].
  destruct soft_delete; cbn [fst].
  - (* soft delete *)
    set (i0 := Reservation.id reservation).
    split; [constructor|]; simpl.
    + intros r' H. apply deactivated_In in H as (r & Hr & [->|[-> _]]); exact (Iw r Hr).
    + intros r' H. apply deactivated_In in H as (r & Hr & [->|[-> _]]); exact (It r Hr).
    + intros j p H. destruct (Ia j p H) as (r & Hr & E).
      exists (if Reservation.id r =? i0 then Reservation.set_is_active false r else r).
      split; [apply in_map_iff; exists r; split; [reflexivity | exact Hr]|].
      destruct (Reservation.id r =? i0); exact E.
    + unfold persons_pass_overlap_test, participates. simpl.
      intros p r1 r2 H1 H2 Hne A1 A2 Ed P1 P2.
      apply (Ipb p); trivial; eapply deactivated_active_In; eauto.
    + unfold tables_pass_overlap_test. simpl.
      intros Itb r1 r2 H1 H2 Hne A1 A2 Et Ed.
      apply Itb; trivial; eapply deactivated_active_In; eauto.
  - (* hard delete *)
    set (i0 := Reservation.id reservation).
    split; [constructor|]; simpl.
    + intros r H. apply filter_In in H as [H _]. auto.
    + intros r H. apply filter_In in H as [H _]. auto.
    + intros j p H. apply filter_In in H as [H Hj]. simpl in Hj.
      destruct (Ia j p H) as (r & Hr & E). exists r. split; [|exact E].
      apply filter_In. split; [exact Hr | now rewrite E].
    + unfold persons_pass_overlap_test, participates. simpl.
      intros p r1 r2 H1 H2 Hne A1 A2 Ed P1 P2.
      apply filter_In in H1 as [H1 _]. apply filter_In in H2 as [H2 _].
      apply (Ipb p); trivial.
      * destruct P1 as [P1|P1]; [now left|]. apply filter_In in P1 as [P1 _]. now right.
      * destruct P2 as [P2|P2]; [now left|]. apply filter_In in P2 as [P2 _]. now right.
    + unfold tables_pass_overlap_test. simpl.
      intros Itb r1 r2 H1 H2 Hne A1 A2 Et Ed.
      apply filter_In in H1 as [H1 _]. apply filter_In in H2 as [H2 _]. now apply Itb.
Qed.

Lemma create_reservation_same_static (env : Env) (eater_id restaurant_id : Z)
    (reservation_date reservation_start_time : string)
    (attendee_ids : option (list Z)) (guests_count : Z) (db : DB) :
  same_static db (fst (create_reservation env eater_id restaurant_id reservation_date
                         reservation_start_time attendee_ids guests_count db)).
Proof.
  destruct (create_reservation env eater_id restaurant_id reservation_date
              reservation_start_time attendee_ids guests_count db)
    as [db' [[[] m] r]] eqn:E.
  - apply create_reservation_inv in E as (? & ? & ? & ? & ? & _ & -> & _).
    apply same_static_with_reservations.
  - pose proof (create_reservation_failure env eater_id restaurant_id reservation_date
                  reservation_start_time attendee_ids guests_count db) as F.
    rewrite E in F. simpl in *. rewrite (F eq_refl). apply same_static_refl.
Qed.

Lemma delete_reservation_same_static (env : Env) (i : Z) (soft_delete : bool) (db : DB) :
  same_static db (fst (delete_reservation env i soft_delete db)).
Proof.
  unfold delete_reservation.
  destruct (Reservation_get db i); [|apply same_static_refl].
  destruct (commit_error env); [apply same_static_refl|].
  destruct soft_delete; apply same_static_with_reservations.
Qed.

Lemma create_reservation_invariant (env : Env) (eater_id restaurant_id : Z)
    (reservation_date reservation_start_time : string)
    (attendee_ids : option (list Z)) (guests_count : Z) (db : DB) :
  store_invariant db ->
  store_invariant (fst (create_reservation env eater_id restaurant_id reservation_date
                          reservation_start_time attendee_ids guests_count db))
  /\ (NoDup (map Table.id (tables db)) ->
      tables_pass_overlap_test db ->
      tables_pass_overlap_test
        (fst (create_reservation env eater_id restaurant_id reservation_date
                reservation_start_time attendee_ids guests_count db))).
Proof.
  intros Hinv.
  destruct (create_reservation env eater_id restaurant_id reservation_date
              reservation_start_time attendee_ids guests_count db)
    as [db' [[[] m] r]] eqn:E.
  - apply create_reservation_inv in E
      as (restaurant & host & attendees & date_obj & table & Hsteps & -> & _).
    exact (booked_db_invariant _ _ _ _ _ _ _ _ _ _ _ _ _ Hsteps Hinv).
  - pose proof (create_reservation_failure env eater_id restaurant_id reservation_date
                  reservation_start_time attendee_ids guests_count db) as F.
    rewrite E in F. simpl in *. rewrite (F eq_refl). auto.
Qed.

Lemma run_invariant (ops : list Op) (db : DB) :
  store_invariant db ->
  store_invariant (run ops db)
  /\ same_static db (run ops db)
  /\ (NoDup (map Table.id (tables db)) ->
      tables_pass_overlap_test db ->
      tables_pass_overlap_test (run ops db)).
Proof.
  revert db. induction ops as [|op ops IH]; intros db Hinv; simpl.
  - split; [exact Hinv|]. split; [apply same_static_refl | auto].
  - assert (H : store_invariant (apply_op db op)
                /\ same_static db (apply_op db op)
                /\ (NoDup (map Table.id (tables db)) ->
                    tables_pass_overlap_test db ->
                    tables_pass_overlap_test (apply_op db op))).
    { destruct op as [env e r d t a g|env i soft]; simpl.
      - destruct (create_reservation_invariant env e r d t a g db Hinv).
        split; [trivial|]. split; [apply create_reservation_same_static | trivial].
      - destruct (delete_reservation_invariant env i soft db Hinv).
        split; [trivial|]. split; [apply delete_reservation_same_static | trivial]. }
    destruct H as (H1 & H2 & H3). destruct (IH _ H1) as (J1 & J2 & J3).
    split; [exact J1|]. split; [exact (same_static_trans _ _ _ H2 J2)|].
    intros Hnd Htb. apply J3; [|auto].
    destruct H2 as (_ & _ & _ & _ & -> & _). exact Hnd.
Qed.

Lemma empty_store_invariant (db : DB) :
  empty_store db -> store_invariant db /\ tables_pass_overlap_test db.
Proof.
  intros [Hr Ha]. split; [constructor|]; try red; rewrite ?Hr, ?Ha; simpl; intros; tauto.
Qed.

(* ================================================================= *)
(** ** The overlap test and double booking *)

(** What the allocator keeps. Starting from an empty reservation store,
    after any sequence of [create_reservation] and [delete_reservation]
    (hard or soft) calls, the overlap test is false of the stored windows
    of two active reservations with the same table and the same date, table
    identifiers being the primary key of the tables. For two windows that
    end after they start this means that they share no instant. A window
    that runs past midnight is stored with its end before its start, no
    instant is [within] it, and the test is false of it and of a later
    window of the same evening: see [table_double_booked_across_midnight]. *)
Theorem overlap_test_holds_of_tables (db0 : DB) (ops : list Op) :
  empty_store db0 ->
  NoDup (map Table.id (tables db0)) ->
  forall r1 r2,
    In r1 (reservations (run ops db0)) -> In r2 (reservations (run ops db0)) ->
    Reservation.id r1 <> Reservation.id r2 ->
    Reservation.is_active r1 = true -> Reservation.is_active r2 = true ->
    Reservation.table_id r1 = Reservation.table_id r2 ->
    Reservation.reservation_date r1 = Reservation.reservation_date r2 ->
    exists w1 w2,
      stored_window r1 = Some w1 /\ stored_window r2 = Some w2
      /\ overlap w1 w2 = false
      /\ forall x, ~ (within w1 x /\ within w2 x).
Proof.
  intros Hempty Hnd.
  destruct (empty_store_invariant db0 Hempty) as [Hinv Htb].
  destruct (run_invariant ops db0 Hinv) as (_ & _ & H).
  exact (H Hnd Htb).
Qed.

Lemma overlap_test_holds_of_tables_witness :
  exists r1 r2 w1 w2,
    In r1 (reservations (run Sample.two_bookings Sample.db0))
    /\ In r2 (reservations (run Sample.two_bookings Sample.db0))
    /\ Reservation.table_id r1 = Some 2 /\ Reservation.table_id r2 = Some 2
    /\ stored_window r1 = Some w1 /\ stored_window r2 = Some w2
    /\ overlap w1 w2 = false.
Proof.
  pose (r1 := Reservation.mk 1 1 1 (Some 2) Sample.may1 "18:00" (Some "20:00") 2 true).
  pose (r2 := Reservation.mk 2 3 1 (Some 2) Sample.may1 "20:00" (Some "22:00") 2 true).
  assert (H1 : In r1 (reservations (run Sample.two_bookings Sample.db0)))
    by (vm_compute; left; reflexivity).
  assert (H2 : In r2 (reservations (run Sample.two_bookings Sample.db0)))
    by (vm_compute; right; left; reflexivity).
  assert (Hnd : NoDup (map Table.id (tables Sample.db0)))
    by (repeat constructor; simpl; intuition discriminate).
  assert (Hne : Reservation.id r1 <> Reservation.id r2) by discriminate.
  destruct (overlap_test_holds_of_tables Sample.db0 Sample.two_bookings
              (conj eq_refl eq_refl) Hnd r1 r2 H1 H2 Hne eq_refl eq_refl eq_refl eq_refl)
    as (w1 & w2 & E1 & E2 & Ho & _).
  exists r1, r2, w1, w2.
  exact (conj H1 (conj H2 (conj eq_refl (conj eq_refl (conj E1 (conj E2 Ho)))))).
Defined.

(** C1. The code breaks the invariant for a window that runs past midnight.
    From the empty reservation store of the sample, the booking of Tartine
    at 23:00 by eater 1 and the booking at 23:30 by eater 3, on the same
    date, both succeed and both are given table 4. The stored windows are
    23:00-01:00 and 23:30-01:30: the end wrapped modulo 24 is compared as a
    time of the same day, so that the overlap test is false of them; on the
    time line of the date they are the minutes 1380 to 1500 and 1410 to
    1530, which overlap. *)
Theorem table_double_booked_across_midnight :
  exists r1 r2 w1 w2,
    snd (create_reservation Sample.env_ok 1 2 "2025-05-01" "23:00" None 0 Sample.db0)
    = (true, "Reservation created successfully", Some r1)
    /\ snd (create_reservation Sample.env_ok 3 2 "2025-05-01" "23:30" None 0
              (run (firstn 1 Sample.late_bookings) Sample.db0))
       = (true, "Reservation created successfully", Some r2)
    /\ reservations (run Sample.late_bookings Sample.db0) = [r1; r2]
    /\ Reservation.id r1 <> Reservation.id r2
    /\ Reservation.is_active r1 = true /\ Reservation.is_active r2 = true
    /\ Reservation.table_id r1 = Some 4 /\ Reservation.table_id r2 = Some 4
    /\ Reservation.reservation_date r1 = Reservation.reservation_date r2
    /\ stored_window r1 = Some w1 /\ stored_window r2 = Some w2
    /\ span w1 = (1380, 1500) /\ span w2 = (1410, 1530)
    /\ spans_overlap (span w1) (span w2)
    /\ overlap w1 w2 = false.
Proof.
  exists (Reservation.mk 1 1 2 (Some 4) Sample.may1 "23:00" (Some "01:00") 1 true),
         (Reservation.mk 2 3 2 (Some 4) Sample.may1 "23:30" (Some "01:30") 1 true),
         (mk_window (Sample.t 23 0) (Sample.t 1 0)),
         (mk_window (Sample.t 23 30) (Sample.t 1 30)).
  vm_compute. repeat split; try reflexivity; intros H; discriminate H.
Qed.

(* ================================================================= *)
(** ** A conflicting request is refused *)

Lemma check_attendees_conflict (db : DB) (eater_id : Z) (date_obj : date)
    (start_time end_time m1 m2 : string) (req_start req_end : time)
    (attendees : list Eater.t) (a : Eater.t) (r : Reservation.t) :
  parse_time_string start_time = (true, m1, Some req_start) ->
  parse_time_string end_time = (true, m2, Some req_end) ->
  In a attendees -> Eater.id a <> eater_id ->
  In r (all_eater_reservations db (Eater.id a) date_obj) ->
  conflicting (mk_window req_start req_end) r = true ->
  exists a' r',
    In a' attendees /\ Eater.id a' <> eater_id
    /\ In r' (all_eater_reservations db (Eater.id a') date_obj)
    /\ conflicting (mk_window req_start req_end) r' = true
    /\ check_attendees db eater_id date_obj start_time end_time attendees
       = (false, "Attendee " ++ Eater.name a' ++ ": " ++ conflict_message db r').
Proof.
  intros Ps Pe Ha Hne Hr Hc.
  induction attendees as [|x l IH]; [destruct Ha|]. simpl.
  destruct (Z.eqb_spec (Eater.id x) eater_id) as [E|E]; simpl.
  - destruct Ha as [->|Ha]; [contradiction|].
    destruct (IH Ha) as (a' & r' & ? & ? & ? & ? & ?). exists a', r'. auto 10.
  - rewrite (check_eater_availability_parsed _ _ _ _ _ _ _ _ _ Ps Pe).
    destruct (first_conflict _ (all_eater_reservations db (Eater.id x) date_obj))
      as [r1|] eqn:Ef.
    + apply first_conflict_Some in Ef as [H1 H2]. exists x, r1. auto 10.
    + destruct Ha as [->|Ha].
      * rewrite first_conflict_None in Ef. rewrite (Ef r Hr) in Hc. discriminate.
      * destruct (IH Ha) as (a' & r' & ? & ? & ? & ? & ?). exists a', r'. auto 10.
Qed.

(** A request that passes the validation steps and has a participant with
    an overlapping active reservation on the date is refused, with the
    message of such a reservation of the host or, after the name of the
    attendee, of an attendee. *)
Lemma conflicting_request_refused (env : Env) (db : DB) (eater_id restaurant_id : Z)
    (reservation_date reservation_start_time : string)
    (attendee_ids : option (list Z)) (guests_count : Z)
    (restaurant : Restaurant.t) (host : Eater.t) (attendees : list Eater.t)
    (date_obj : date) (req_start : time) (p : Z) (r : Reservation.t) :
  validate_restaurant db restaurant_id = (true, "", Some restaurant) ->
  validate_host db eater_id = (true, "", Some host) ->
  validate_attendees db (ids_of attendee_ids) = (true, "", attendees) ->
  validate_reservation_time db restaurant reservation_date reservation_start_time
  = (true, "", Some date_obj) ->
  parse_time_string reservation_start_time = (true, "", Some req_start) ->
  p = eater_id \/ In p (ids_of attendee_ids) ->
  In r (reservations db) ->
  Reservation.is_active r = true ->
  Reservation.reservation_date r = date_obj ->
  participates db p r ->
  conflicting (request_window req_start) r = true ->
  exists r' q message,
    create_reservation env eater_id restaurant_id reservation_date
      reservation_start_time attendee_ids guests_count db
    = (db, (false, message, None))
    /\ (q = eater_id \/ In q (ids_of attendee_ids))
    /\ In r' (reservations db)
    /\ Reservation.is_active r' = true
    /\ Reservation.reservation_date r' = date_obj
    /\ participates db q r'
    /\ conflicting (request_window req_start) r' = true
    /\ (message = conflict_message db r'
        \/ exists a, In a attendees /\ Eater.id a = q
                     /\ message = "Attendee " ++ Eater.name a ++ ": "
                                  ++ conflict_message db r').
Proof.
  intros E1 E2 E3 E4 Ps Hp Hr Ha Hd Hpart Hc.
  pose proof (parse_calculate_end_time (now_end_time env) _ _ _ 2 Ps) as Pe.
  fold (request_window req_start) in Hc.
  destruct (validate_host_ok _ _ _ _ E2) as [Hid Hhost].
  destruct (validate_attendees_ok _ _ _ _ E3) as [Hids Hatt].
  assert (Hin : In r (all_eater_reservations db p date_obj)).
  { apply In_eater_reservations. repeat split; trivial.
    destruct Hpart as [H|H]; [now left|]. right. split; [exact H|].
    destruct Hp as [->|Hp]; [eauto|].
    rewrite <- Hids in Hp. apply in_map_iff in Hp as (a & <- & Hain). eauto. }
  unfold create_reservation. fold (ids_of attendee_ids). rewrite E1, E2, E3, E4.
  rewrite (check_eater_availability_parsed _ _ _ _ _ _ _ _ _ Ps Pe).
  change (mk_window req_start
            (mk_time ((hour req_start + 2) mod 24) (minute req_start) 0))
    with (request_window req_start).
  destruct (first_conflict (request_window req_start)
              (all_eater_reservations db eater_id date_obj)) as [r1|] eqn:Ef.
  - apply first_conflict_Some in Ef as [H1 H2].
    apply In_eater_reservations in H1 as (? & ? & ? & Hp1).
    exists r1, eater_id, (conflict_message db r1).
    repeat split; auto. unfold participates. tauto.
  - assert (Hne : p <> eater_id).
    { intros ->. rewrite first_conflict_None in Ef. rewrite (Ef r Hin) in Hc.
      discriminate. }
    destruct Hp as [->|Hp]; [contradiction|].
    rewrite <- Hids in Hp. apply in_map_iff in Hp as (a & Ea & Hain). subst p.
    destruct (check_attendees_conflict db eater_id date_obj reservation_start_time
                (calculate_end_time (now_end_time env) reservation_start_time 2) "" ""
                req_start (mk_time ((hour req_start + 2) mod 24) (minute req_start) 0)
                attendees a r Ps Pe Hain Hne Hin Hc)
      as (a' & r' & Ha' & Hne' & Hr' & Hc' & Echeck).
    rewrite Echeck.
    apply In_eater_reservations in Hr' as (? & ? & ? & Hp').
    exists r', (Eater.id a'), ("Attendee " ++ Eater.name a' ++ ": " ++ conflict_message db r').
    split; [reflexivity|].
    split; [right; rewrite <- Hids; now apply in_map|].
    repeat split; trivial.
    + unfold participates. tauto.
    + right. exists a'. auto.
Qed.

(** The conflict message names the restaurant of the reservation and its
    stored window. *)
Lemma conflict_message_names (db : DB) (r : Reservation.t) (restaurant : Restaurant.t)
    (e : string) :
  Restaurant_get db (Reservation.restaurant_id r) = Some restaurant ->
  Reservation.reservation_end_time r = Some e ->
  conflict_message db r
  = "You already have a reservation at " ++ Restaurant.name restaurant
    ++ " from " ++ Reservation.reservation_start_time r
    ++ " to " ++ e ++ " on this date.".
Proof.
  intros H1 H2. unfold conflict_message. now rewrite H1, H2.
Qed.

(** What the conflict check keeps. Starting from an empty reservation
    store, after any sequence of [create_reservation] and
    [delete_reservation] calls, the overlap test is false of the stored
    windows of two active reservations on one date in which one person
    takes part, as host or as attendee. In any store, a request that passes
    the validation steps and of whose window the test is true together with
    an active reservation of a participant on the date fails, leaves the
    store as it was, and returns the conflict message of such a
    reservation, which names its restaurant and its window. As for the
    tables, the test says nothing of a window that runs past midnight: see
    [person_double_booked_across_midnight]. *)
Theorem overlap_test_holds_of_persons :
  (forall (db0 : DB) (ops : list Op),
     empty_store db0 ->
     forall p r1 r2,
       In r1 (reservations (run ops db0)) -> In r2 (reservations (run ops db0)) ->
       Reservation.id r1 <> Reservation.id r2 ->
       Reservation.is_active r1 = true -> Reservation.is_active r2 = true ->
       Reservation.reservation_date r1 = Reservation.reservation_date r2 ->
       participates (run ops db0) p r1 -> participates (run ops db0) p r2 ->
       exists w1 w2,
         stored_window r1 = Some w1 /\ stored_window r2 = Some w2
         /\ overlap w1 w2 = false
         /\ forall x, ~ (within w1 x /\ within w2 x))
  /\ (forall (env : Env) (db : DB) (eater_id restaurant_id : Z)
             (reservation_date reservation_start_time : string)
             (attendee_ids : option (list Z)) (guests_count : Z)
             (restaurant : Restaurant.t) (host : Eater.t) (attendees : list Eater.t)
             (date_obj : date) (req_start : time) (p : Z) (r : Reservation.t),
        validate_restaurant db restaurant_id = (true, "", Some restaurant) ->
        validate_host db eater_id = (true, "", Some host) ->
        validate_attendees db (ids_of attendee_ids) = (true, "", attendees) ->
        validate_reservation_time db restaurant reservation_date reservation_start_time
        = (true, "", Some date_obj) ->
        parse_time_string reservation_start_time = (true, "", Some req_start) ->
        p = eater_id \/ In p (ids_of attendee_ids) ->
        In r (reservations db) ->
        Reservation.is_active r = true ->
        Reservation.reservation_date r = date_obj ->
        participates db p r ->
        conflicting (request_window req_start) r = true ->
        exists r' q message,
          create_reservation env eater_id restaurant_id reservation_date
            reservation_start_time attendee_ids guests_count db
          = (db, (false, message, None))
          /\ (q = eater_id \/ In q (ids_of attendee_ids))
          /\ In r' (reservations db)
          /\ Reservation.is_active r' = true
          /\ Reservation.reservation_date r' = date_obj
          /\ participates db q r'
          /\ conflicting (request_window req_start) r' = true
          /\ (message = conflict_message db r'
              \/ exists a, In a attendees /\ Eater.id a = q
                           /\ message = "Attendee " ++ Eater.name a ++ ": "
                                        ++ conflict_message db r')
          /\ (forall rest e,
                Restaurant_get db (Reservation.restaurant_id r') = Some rest ->
                Reservation.reservation_end_time r' = Some e ->
                conflict_message db r'
                = "You already have a reservation at " ++ Restaurant.name rest
                  ++ " from " ++ Reservation.reservation_start_time r'
                  ++ " to " ++ e ++ " on this date.")).
Proof.
  split.
  - intros db0 ops Hempty.
    destruct (empty_store_invariant db0 Hempty) as [Hinv _].
    destruct (run_invariant ops db0 Hinv) as ([_ _ _ H] & _). exact H.
  - intros env db eater_id restaurant_id reservation_date reservation_start_time
           attendee_ids guests_count restaurant host attendees date_obj req_start p r
           E1 E2 E3 E4 Ps Hp Hr Ha Hd Hpart Hc.
    destruct (conflicting_request_refused env db eater_id restaurant_id reservation_date
                reservation_start_time attendee_ids guests_count restaurant host attendees
                date_obj req_start p r E1 E2 E3 E4 Ps Hp Hr Ha Hd Hpart Hc)
      as (r' & q & message & H1 & H2 & H3 & H4 & H5 & H6 & H7 & H8).
    exists r', q, message. repeat (split; [assumption|]).
    intros rest e. apply conflict_message_names.
Qed.

Lemma overlap_test_holds_of_persons_witness :
  exists r' q message,
    create_reservation Sample.env_ok 3 2 "2025-05-01" "19:00" (Some [2]) 0 Sample.db1
    = (Sample.db1, (false, message, None))
    /\ (q = 3 \/ In q [2])
    /\ In r' (reservations Sample.db1)
    /\ participates Sample.db1 q r'
    /\ conflicting (request_window (Sample.t 19 0)) r' = true.
Proof.
  pose (r := Reservation.mk 1 1 1 (Some 2) Sample.may1 "18:00" (Some "20:00") 2 true).
  assert (Hr : In r (reservations Sample.db1)) by (left; reflexivity).
  assert (Hp : participates Sample.db1 2 r) by (right; right; left; reflexivity).
  assert (Hc : conflicting (request_window (Sample.t 19 0)) r = true)
    by (vm_compute; reflexivity).
  destruct (proj2 overlap_test_holds_of_persons Sample.env_ok Sample.db1 3 2
              "2025-05-01" "19:00" (Some [2]) 0
              (Restaurant.mk 2 "Tartine" true) (Eater.mk 3 "Cy" "cy@example.org")
              [Eater.mk 2 "Ben" "ben@example.org"] Sample.may1 (Sample.t 19 0) 2 r
              eq_refl eq_refl eq_refl eq_refl eq_refl
              (or_intror (or_introl eq_refl)) Hr eq_refl eq_refl Hp Hc)
    as (r' & q & message & H1 & H2 & H3 & _ & _ & H6 & H7 & _).
  exists r', q, message.
  exact (conj H1 (conj H2 (conj H3 (conj H6 H7)))).
Defined.

(** C2. The code breaks the invariant for a window that runs past midnight.
    From the empty reservation store of the sample, eater 1 books Tartine
    at 23:00 and then again at 23:30 on the same date: the second call is
    not refused with a conflict message, it succeeds. Eater 1 is then the
    host of two active reservations of the date whose stored windows,
    23:00-01:00 and 23:30-01:30, pass the overlap test and overlap on the
    time line of the date. *)
Theorem person_double_booked_across_midnight :
  exists db1 r1 r2 w1 w2,
    create_reservation Sample.env_ok 1 2 "2025-05-01" "23:00" None 0 Sample.db0
    = (db1, (true, "Reservation created successfully", Some r1))
    /\ create_reservation Sample.env_ok 1 2 "2025-05-01" "23:30" None 0 db1
       = (run late_bookings_of_one_host Sample.db0,
          (true, "Reservation created successfully", Some r2))
    /\ reservations (run late_bookings_of_one_host Sample.db0) = [r1; r2]
    /\ Reservation.id r1 <> Reservation.id r2
    /\ Reservation.is_active r1 = true /\ Reservation.is_active r2 = true
    /\ Reservation.reservation_date r1 = Reservation.reservation_date r2
    /\ Reservation.eater_id r1 = 1 /\ Reservation.eater_id r2 = 1
    /\ stored_window r1 = Some w1 /\ stored_window r2 = Some w2
    /\ span w1 = (1380, 1500) /\ span w2 = (1410, 1530)
    /\ spans_overlap (span w1) (span w2)
    /\ overlap w1 w2 = false.
Proof.
  exists (with_reservations Sample.db0
            [Reservation.mk 1 1 2 (Some 4) Sample.may1 "23:00" (Some "01:00") 1 true]
            [(1, 1)]),
         (Reservation.mk 1 1 2 (Some 4) Sample.may1 "23:00" (Some "01:00") 1 true),
         (Reservation.mk 2 1 2 (Some 4) Sample.may1 "23:30" (Some "01:30") 1 true),
         (mk_window (Sample.t 23 0) (Sample.t 1 0)),
         (mk_window (Sample.t 23 30) (Sample.t 1 30)).
  vm_compute. repeat split; try reflexivity; intros H; discriminate H.
Qed.

(* ================================================================= *)
(** ** Inactive reservations are not consulted *)

Lemma filter_filter_implied {A} (f g : A -> bool) (l : list A) :
  (forall x, f x = true -> g x = true) -> filter f (filter g l) = filter f l.
Proof.
  intros H. induction l as [|x l IH]; simpl; [reflexivity|].
  destruct (g x) eqn:Eg; simpl.
  - now rewrite IH.
  - destruct (f x) eqn:Ef; [|exact IH]. rewrite (H x Ef) in Eg. discriminate.
Qed.

Lemma all_eater_reservations_active (db : DB) (p : Z) (date_obj : date) :
  all_eater_reservations (without_inactive db) p date_obj
  = all_eater_reservations db p date_obj.
Proof.
  unfold all_eater_reservations, host_reservations, attending_reservations,
    without_inactive. simpl.
  rewrite !filter_filter_implied; [reflexivity| |];
    intros x H; apply andb_true_iff in H as [_ H]; exact H.
Qed.

Lemma day_reservations_active (db : DB) (restaurant_id : Z) (date_obj : date) :
  day_reservations (without_inactive db) restaurant_id date_obj
  = day_reservations db restaurant_id date_obj.
Proof.
  unfold day_reservations, without_inactive. simpl.
  apply filter_filter_implied. intros x H. apply andb_true_iff in H as [_ H]. exact H.
Qed.

(** The two checks read the store through these lists only. *)
Lemma check_eater_availability_ext (db db' : DB) (p : Z) (date_obj : date)
    (start_time end_time : string) :
  restaurants db' = restaurants db ->
  all_eater_reservations db' p date_obj = all_eater_reservations db p date_obj ->
  check_eater_availability db' p date_obj start_time end_time
  = check_eater_availability db p date_obj start_time end_time.
Proof.
  intros Hr Ha. unfold check_eater_availability. rewrite Ha.
  destruct (parse_time_string start_time) as [[[] ?] [?|]]; trivial.
  destruct (parse_time_string end_time) as [[[] ?] [?|]]; trivial.
  destruct (first_conflict _ _); trivial.
  unfold conflict_message, Restaurant_get. now rewrite Hr.
Qed.

Lemma check_table_availability_ext (db db' : DB) (now now' : time)
    (restaurant_id party_size : Z) (date_obj : date) (start_time : string)
    (end_time : option string) :
  tables db' = tables db ->
  day_reservations db' restaurant_id date_obj = day_reservations db restaurant_id date_obj ->
  default_end_time now' start_time end_time = default_end_time now start_time end_time ->
  check_table_availability db' now' restaurant_id party_size date_obj start_time end_time
  = check_table_availability db now restaurant_id party_size date_obj start_time end_time.
Proof.
  intros Ht Hd He. unfold check_table_availability, suitable_tables.
  now rewrite Ht, Hd, He.
Qed.

Lemma checks_ignore_inactive (db : DB) :
  (forall p date_obj start_time end_time,
     check_eater_availability (without_inactive db) p date_obj start_time end_time
     = check_eater_availability db p date_obj start_time end_time)
  /\ (forall now restaurant_id party_size date_obj start_time end_time,
        check_table_availability (without_inactive db) now restaurant_id party_size
          date_obj start_time end_time
        = check_table_availability db now restaurant_id party_size date_obj
            start_time end_time).
Proof.
  split; intros.
  - apply check_eater_availability_ext; [reflexivity|].
    apply all_eater_reservations_active.
  - apply check_table_availability_ext; [reflexivity| |reflexivity].
    apply day_reservations_active.
Qed.

Lemma Reservation_get_Some (db : DB) (i : Z) (r : Reservation.t) :
  Reservation_get db i = Some r -> In r (reservations db) /\ Reservation.id r = i.
Proof.
  unfold Reservation_get. intros H. apply find_some in H as [H1 H2].
  apply Z.eqb_eq in H2. auto.
Qed.

(** A successful soft delete keeps the row and clears its flag. *)
Lemma soft_delete_deactivates (env : Env) (i : Z) (db db' : DB) (message : string) :
  delete_reservation env i true db = (db', (true, message)) ->
  db' = with_reservations db
          (map (fun r => if Reservation.id r =? i
                         then Reservation.set_is_active false r else r)
               (reservations db))
          (reservation_attendees db)
  /\ (exists r, In r (reservations db) /\ Reservation.id r = i)
  /\ message = "Reservation marked as deleted".
Proof.
  unfold delete_reservation.
  destruct (Reservation_get db i) as [r|] eqn:E; [|discriminate].
  destruct (commit_error env); [discriminate|].
  apply Reservation_get_Some in E as [Hr Hi]. rewrite Hi.
  intros H. injection H as <- <-. eauto.
Qed.

(* ================================================================= *)
(** ** Booking again after a soft delete *)

Section Rebooking.

Variable db : DB.
Variable nr : Reservation.t.
Variable atts : list Z.
Hypothesis nr_id : Reservation.id nr = next_reservation_id db.

Local Abbreviation db2 := (soft_deleted_booking db nr atts).

Lemma rebooking_rows :
  reservations db2 = (reservations db ++ [Reservation.set_is_active false nr])%list.
Proof.
  unfold db2. simpl. rewrite map_app. simpl. rewrite Z.eqb_refl. f_equal.
  rewrite <- (map_id (reservations db)) at 2. apply map_ext_in.
  intros r Hr. pose proof (next_reservation_id_fresh db r Hr).
  destruct (Z.eqb_spec (Reservation.id r) (Reservation.id nr)); [lia | reflexivity].
Qed.

Lemma rebooking_filter (f : Reservation.t -> bool) :
  (forall x, f x = true -> Reservation.is_active x = true) ->
  filter f (reservations db2) = filter f (reservations db).
Proof.
  intros H. rewrite rebooking_rows, filter_app. simpl.
  destruct (f (Reservation.set_is_active false nr)) eqn:E.
  - apply H in E. discriminate.
  - apply app_nil_r.
Qed.

Lemma rebooking_day_reservations (restaurant_id : Z) (date_obj : date) :
  day_reservations db2 restaurant_id date_obj = day_reservations db restaurant_id date_obj.
Proof.
  unfold day_reservations. apply rebooking_filter.
  intros x H. apply andb_true_iff in H as [_ H]. exact H.
Qed.

Lemma rebooking_eater_reservations (p : Z) (date_obj : date) :
  all_eater_reservations db2 p date_obj = all_eater_reservations db p date_obj.
Proof.
  unfold all_eater_reservations, host_reservations, attending_reservations.
  rewrite !rebooking_filter
    by (intros x H; apply andb_true_iff in H as [_ H]; exact H).
  f_equal. f_equal. apply filter_ext_in. intros r Hr.
  f_equal. f_equal. unfold db2. simpl. rewrite existsb_app.
  match goal with |- (_ || ?b)%bool = _ => assert (E : b = false) end.
  { apply not_true_is_false. intros H. apply existsb_exists in H as (row & Hrow & Hc).
    apply in_map_iff in Hrow as (e & <- & _). simpl in Hc.
    pose proof (next_reservation_id_fresh db r Hr).
    destruct (Z.eqb_spec (Reservation.id nr) (Reservation.id r)); [lia|].
    discriminate. }
  rewrite E. apply orb_false_r.
Qed.

Lemma rebooking_check_eater (p : Z) (date_obj : date) (start_time end_time : string) :
  check_eater_availability db2 p date_obj start_time end_time
  = check_eater_availability db p date_obj start_time end_time.
Proof.
  apply check_eater_availability_ext; [reflexivity | apply rebooking_eater_reservations].
Qed.

Lemma rebooking_check_attendees (eater_id : Z) (date_obj : date)
    (start_time end_time : string) (attendees : list Eater.t) :
  check_attendees db2 eater_id date_obj start_time end_time attendees
  = check_attendees db eater_id date_obj start_time end_time attendees.
Proof.
  induction attendees as [|a l IH]; simpl; [reflexivity|].
  now rewrite rebooking_check_eater, IH.
Qed.

Lemma rebooking_validate_attendees (ids : list Z) (acc : list Eater.t) :
  validate_attendees_loop db2 ids acc = validate_attendees_loop db ids acc.
Proof.
  revert acc. induction ids as [|i l IH]; intros acc; simpl; [reflexivity|].
  change (Eater_get db2 i) with (Eater_get db i).
  destruct (Eater_get db i); [apply IH | reflexivity].
Qed.

(** The steps that succeeded on [db] succeed on [db2], whatever the clock
    reads and provided the commit succeeds. *)
Lemma rebooking_steps (env env' : Env) (eater_id restaurant_id : Z)
    (reservation_date reservation_start_time : string) (attendee_ids : list Z)
    (restaurant : Restaurant.t) (host : Eater.t) (attendees : list Eater.t)
    (date_obj : date) (party_size : Z) (table : Table.t) :
  booking_steps env eater_id restaurant_id reservation_date reservation_start_time
    attendee_ids db restaurant host attendees date_obj party_size table ->
  commit_error env' = None ->
  booking_steps env' eater_id restaurant_id reservation_date reservation_start_time
    attendee_ids db2 restaurant host attendees date_obj party_size table.
Proof.
  intros [E1 E2 E3 [m4 E4] [m5 E5] [m6 E6] [m7 E7] E9] Hcommit.
  destruct (validate_reservation_time_ok _ _ _ _ _ _ E4) as [_ [req_start Ps]].
  assert (Eend : forall now now',
             calculate_end_time now' reservation_start_time 2
             = calculate_end_time now reservation_start_time 2).
  { intros. now rewrite !(calculate_end_time_ok _ _ _ _ 2 Ps). }
  assert (S1 : validate_restaurant db2 restaurant_id = validate_restaurant db restaurant_id)
    by reflexivity.
  assert (S2 : validate_host db2 eater_id = validate_host db eater_id) by reflexivity.
  pose proof (rebooking_validate_attendees attendee_ids []) as S3.
  fold (validate_attendees db2 attendee_ids) in S3.
  fold (validate_attendees db attendee_ids) in S3.
  assert (S4 : validate_reservation_time db2 restaurant reservation_date
                 reservation_start_time
               = validate_reservation_time db restaurant reservation_date
                   reservation_start_time) by reflexivity.
  constructor; rewrite ?S1, ?S2, ?S3, ?S4; trivial.
  - exists m4. exact E4.
  - exists m5. rewrite rebooking_check_eater, (Eend (now_end_time env)). exact E5.
  - exists m6. rewrite rebooking_check_attendees, (Eend (now_end_time env)). exact E6.
  - exists m7. rewrite <- E7. unfold find_available_table.
    rewrite (Eend (now_find_table env) (now_find_table env')).
    apply check_table_availability_ext;
      [reflexivity | apply rebooking_day_reservations|].
    now rewrite !(calculate_end_time_ok _ _ _ _ 2 Ps), !default_end_time_hhmm.
Qed.

End Rebooking.

Lemma is_time_available_ignores_inactive (db : DB) (restaurant : Restaurant.t)
    (date_obj : date) (start_time end_time : string) (num_of_eaters : Z) :
  is_time_available_for_reservation (without_inactive db) restaurant date_obj
    start_time end_time num_of_eaters
  = is_time_available_for_reservation db restaurant date_obj start_time end_time
      num_of_eaters.
Proof.
  unfold is_time_available_for_reservation, without_inactive. simpl.
  destruct (filter _ (tables db)) as [|t0 ts]; [reflexivity|].
  rewrite filter_filter_implied; [reflexivity|].
  intros x H. apply andb_true_iff in H as [_ H]. exact H.
Qed.

Lemma rebooking_succeeds (env env1 env2 : Env) (eater_id restaurant_id : Z)
    (reservation_date reservation_start_time : string)
    (attendee_ids : option (list Z)) (guests_count : Z) (db db1 db2 : DB)
    (message message' : string) (r : Reservation.t) :
  create_reservation env eater_id restaurant_id reservation_date
    reservation_start_time attendee_ids guests_count db
  = (db1, (true, message, Some r)) ->
  delete_reservation env1 (Reservation.id r) true db1 = (db2, (true, message')) ->
  commit_error env2 = None ->
  exists db3 r',
    create_reservation env2 eater_id restaurant_id reservation_date
      reservation_start_time attendee_ids guests_count db2
    = (db3, (true, "Reservation created successfully", Some r'))
    /\ In r' (reservations db3)
    /\ Reservation.is_active r' = true
    /\ Reservation.eater_id r' = Reservation.eater_id r
    /\ Reservation.restaurant_id r' = Reservation.restaurant_id r
    /\ Reservation.table_id r' = Reservation.table_id r
    /\ Reservation.reservation_date r' = Reservation.reservation_date r
    /\ Reservation.reservation_start_time r' = Reservation.reservation_start_time r
    /\ Reservation.reservation_end_time r' = Reservation.reservation_end_time r
    /\ Reservation.party_size r' = Reservation.party_size r.
Proof.
  intros Hc Hd Hcommit.
  apply create_reservation_inv in Hc
    as (restaurant & host & attendees & date_obj & table & Hsteps & Hdb1 & Hr & _).
  set (booked := booked_reservation env eater_id restaurant_id reservation_start_time db
                   host attendees date_obj (party_size_of host attendees guests_count)
                   table) in *.
  pose proof (f_equal (fun o => match o with Some x => x | None => r end) Hr) as Hr'.
  cbv beta iota in Hr'. clear Hr. subst r.
  destruct (booking_facts _ _ _ _ _ _ _ _ _ _ _ _ _ Hsteps)
    as (req_start & Ps & Enr & _).
  fold booked in Enr.
  set (r := fst booked) in *.
  assert (Hid : Reservation.id r = next_reservation_id db) by now rewrite Enr.
  apply soft_delete_deactivates in Hd as (Hdb2 & _ & _).
  pose proof (rebooking_steps db r (snd booked) Hid env env2 eater_id restaurant_id
                reservation_date reservation_start_time (ids_of attendee_ids)
                restaurant host attendees date_obj
                (party_size_of host attendees guests_count) table Hsteps Hcommit)
    as Hsteps2.
  assert (E2 : db2 = soft_deleted_booking db r (snd booked)).
  { rewrite Hdb2, Hdb1. reflexivity. }
  rewrite <- E2 in Hsteps2.
  pose proof (create_reservation_succeeds env2 eater_id restaurant_id reservation_date
                reservation_start_time attendee_ids guests_count db2 restaurant host
                attendees date_obj table Hsteps2) as Hcreate.
  destruct (booking_facts _ _ _ _ _ _ _ _ _ _ _ _ _ Hsteps2)
    as (req_start' & Ps' & Enr' & _).
  assert (req_start' = req_start) by congruence. subst req_start'.
  cbv zeta in Hcreate.
  set (booked' := booked_reservation env2 eater_id restaurant_id reservation_start_time
                    db2 host attendees date_obj
                    (party_size_of host attendees guests_count) table) in *.
  exists (booked_db db2 booked'), (fst booked').
  split; [exact Hcreate|].
  split; [unfold booked_db; simpl; apply in_or_app; right; left; reflexivity|].
  rewrite Enr', Enr. simpl. repeat split; reflexivity.
Qed.

(** C8. A successful soft delete keeps the reservation in the store with
    its flag cleared. The conflict check, the table allocator and the
    existence check of the search give, on any store, the result they give
    on the store without its inactive reservations. And when a reservation
    that was just created is soft-deleted, the same request succeeds again
    (the commit succeeding) for the same host, table, date and window. *)
Theorem soft_delete_frees_resources :
  (forall (env : Env) (i : Z) (db db' : DB) (message : string),
     delete_reservation env i true db = (db', (true, message)) ->
     (exists r, In r (reservations db') /\ Reservation.id r = i)
     /\ forall r, In r (reservations db') -> Reservation.id r = i ->
                  Reservation.is_active r = false)
  /\ (forall (db : DB),
        (forall p date_obj start_time end_time,
           check_eater_availability (without_inactive db) p date_obj start_time end_time
           = check_eater_availability db p date_obj start_time end_time)
        /\ (forall now restaurant_id party_size date_obj start_time end_time,
              check_table_availability (without_inactive db) now restaurant_id party_size
                date_obj start_time end_time
              = check_table_availability db now restaurant_id party_size date_obj
                  start_time end_time)
        /\ (forall restaurant date_obj start_time end_time num_of_eaters,
              is_time_available_for_reservation (without_inactive db) restaurant date_obj
                start_time end_time num_of_eaters
              = is_time_available_for_reservation db restaurant date_obj start_time
                  end_time num_of_eaters))
  /\ (forall (env env1 env2 : Env) (eater_id restaurant_id : Z)
             (reservation_date reservation_start_time : string)
             (attendee_ids : option (list Z)) (guests_count : Z) (db db1 db2 : DB)
             (message message' : string) (r : Reservation.t),
        create_reservation env eater_id restaurant_id reservation_date
          reservation_start_time attendee_ids guests_count db
        = (db1, (true, message, Some r)) ->
        delete_reservation env1 (Reservation.id r) true db1 = (db2, (true, message')) ->
        commit_error env2 = None ->
        exists db3 r',
          create_reservation env2 eater_id restaurant_id reservation_date
            reservation_start_time attendee_ids guests_count db2
          = (db3, (true, "Reservation created successfully", Some r'))
          /\ In r' (reservations db3)
          /\ Reservation.is_active r' = true
          /\ Reservation.eater_id r' = Reservation.eater_id r
          /\ Reservation.restaurant_id r' = Reservation.restaurant_id r
          /\ Reservation.table_id r' = Reservation.table_id r
          /\ Reservation.reservation_date r' = Reservation.reservation_date r
          /\ Reservation.reservation_start_time r' = Reservation.reservation_start_time r
          /\ Reservation.reservation_end_time r' = Reservation.reservation_end_time r
          /\ Reservation.party_size r' = Reservation.party_size r).
Proof.
  split; [|split].
  - intros env i db db' message H.
    apply soft_delete_deactivates in H as (-> & (r & Hr & Hi) & _). simpl. split.
    + exists (Reservation.set_is_active false r). split; [|exact Hi].
      apply in_map_iff. exists r. split; [|exact Hr]. now rewrite Hi, Z.eqb_refl.
    + intros r' H E. apply in_map_iff in H as (x & <- & Hx).
      destruct (Z.eqb_spec (Reservation.id x) i) as [_|N]; [reflexivity|].
      contradiction.
  - intros db. destruct (checks_ignore_inactive db) as [H1 H2].
    split; [exact H1|]. split; [exact H2|]. apply is_time_available_ignores_inactive.
  - exact rebooking_succeeds.
Qed.

Lemma soft_delete_frees_resources_witness :
  exists db3 r',
    create_reservation Sample.env_ok 1 1 "2025-05-01" "18:00" (Some [2]) 0 Sample.db2
    = (db3, (true, "Reservation created successfully", Some r'))
    /\ Reservation.is_active r' = true
    /\ Reservation.table_id r' = Some 2.
Proof.
  destruct (proj2 (proj2 soft_delete_frees_resources)
              Sample.env_ok Sample.env_ok Sample.env_ok 1 1 "2025-05-01" "18:00"
              (Some [2]) 0 Sample.db0 Sample.db1 Sample.db2
              "Reservation created successfully" "Reservation marked as deleted"
              Sample.booking1 eq_refl eq_refl eq_refl)
    as (db3 & r' & H1 & _ & H3 & _ & _ & H6 & _).
  exists db3, r'. exact (conj H1 (conj H3 H6)).
Defined.

(* ================================================================= *)
(** ** Concrete runs *)

(** The message of a refused request names the restaurant and the window
    of the reservation in the way. *)
Example refused_request_message :
  create_reservation Sample.env_ok 3 2 "2025-05-01" "19:00" (Some [2]) 0 Sample.db1
  = (Sample.db1,
     (false,
      "Attendee Ben: You already have a reservation at Lardo from 18:00 to 20:00 on this date.",
      None)).
Proof. vm_compute. reflexivity. Qed.

(** The host listed among three attendees, with two guests: a party of
    five. *)
Example party_of_five :
  exists db' r,
    create_reservation Sample.env_ok 1 1 "2025-05-01" "18:00" (Some [1; 2; 3]) 2 Sample.db0
    = (db', (true, "Reservation created successfully", Some r))
    /\ Reservation.party_size r = 5.
Proof. eexists _, _. vm_compute. split; reflexivity. Qed.

(** An endorsement mapped to two requested restrictions is returned twice
    by the join, and a restaurant that holds every mapped endorsement is
    then left out: the rule of the specification admits Lardo, the filter
    does not. *)
Example shared_endorsement_excluded :
  matching_endorsement_ids Sample.db_shared [1; 2] = [10; 10]
  /\ mapped_endorsements Sample.db_shared [1; 2] = [10]
  /\ held_count Sample.db_shared [1; 2] 1 = 1
  /\ spec_restriction_rule Sample.db_shared [1; 2] 1 = true
  /\ get_potential_restaurants Sample.db_shared "18:00" [1; 2] = [].
Proof. vm_compute. repeat split. Qed.

(** An end time that wraps past midnight is stored as a time of the same
    day, before the start: the overlap test is false of the windows
    23:00-01:00 and 23:30-01:30, and both bookings get the same table. *)
Example bookings_across_midnight :
  map (fun r => (Reservation.table_id r, Reservation.reservation_start_time r,
                 Reservation.reservation_end_time r, Reservation.is_active r))
      (reservations (run Sample.late_bookings Sample.db0))
  = [(Some 4, "23:00", Some "01:00", true); (Some 4, "23:30", Some "01:30", true)]
  /\ overlap (mk_window (Sample.t 23 0) (Sample.t 1 0))
             (mk_window (Sample.t 23 30) (Sample.t 1 30)) = false.
Proof. vm_compute. split; reflexivity. Qed.

(* ================================================================= *)
(** * Further properties of the helpers *)

(* ================================================================= *)
(** ** [parse_time_string] and [calculate_end_time] *)

Lemma time_eta (t : time) : mk_time (hour t) (minute t) (second t) = t.
Proof. now destruct t. Qed.

Lemma py_time_in_range (h m s : Z) :
  0 <= h <= 23 -> 0 <= m <= 59 -> 0 <= s <= 59 -> py_time h m s = Some (mk_time h m s).
Proof.
  intros Hh Hm Hs. unfold py_time.
  replace (0 <=? h) with true by (symmetry; apply Z.leb_le; lia).
  replace (h <=? 23) with true by (symmetry; apply Z.leb_le; lia).
  replace (0 <=? m) with true by (symmetry; apply Z.leb_le; lia).
  replace (m <=? 59) with true by (symmetry; apply Z.leb_le; lia).
  replace (0 <=? s) with true by (symmetry; apply Z.leb_le; lia).
  replace (s <=? 59) with true by (symmetry; apply Z.leb_le; lia).
  reflexivity.
Qed.

Lemma parse_time_string_failure_message (s msg : string) (o : option time) :
  parse_time_string s = (false, msg, o) -> msg <> EmptyString.
Proof.
  unfold parse_time_string, invalid_time_format.
  repeat match goal with
         | |- context [match ?x with _ => _ end] => destruct x
         end;
    intros H; first [discriminate H | injection H as <- _; discriminate].
Qed.

(** X1. For an ASCII string that has a colon, or that is an hour alone
    whose number fits a C int, [parse_time_string] reports success with an
    empty message and a time of day within 00:00 and 23:59, to the minute,
    or it reports failure with a message that is not empty and no time; no
    other result occurs. (An hour alone beyond the range of a C int makes
    [time] raise [OverflowError], which is not caught: the function does
    not return.) *)
Theorem parse_time_string_result (s : string) :
  is_ascii s = true ->
  (Py.contains ":" s = false -> forall h, Py.int s = Some h -> fits_c_int h) ->
  match parse_time_string s with
  | (true, msg, Some t) =>
      msg = EmptyString
      /\ 0 <= hour t <= 23 /\ 0 <= minute t <= 59 /\ second t = 0
  | (false, msg, None) => msg <> EmptyString
  | _ => False
  end.
Proof.
  intros _ _.
  destruct (parse_time_string_shape s) as [[t H]|[msg H]]; rewrite H.
  - apply parse_time_string_ok in H as (_ & ? & ? & ? & _). auto.
  - exact (parse_time_string_failure_message _ _ _ H).
Qed.

Lemma parse_time_string_result_witness :
  match parse_time_string "25" with
  | (true, msg, Some t) =>
      msg = EmptyString
      /\ 0 <= hour t <= 23 /\ 0 <= minute t <= 59 /\ second t = 0
  | (false, msg, None) => msg <> EmptyString
  | _ => False
  end.
Proof.
  apply (parse_time_string_result "25"); [reflexivity|].
  intros _ h E. vm_compute in E. injection E as <-. unfold fits_c_int. lia.
Defined.

(** X2. An ASCII string of at most 4300 characters (so that no literal
    exceeds the number of digits that [int] converts) is accepted exactly
    when it is not empty, its part before the first colon and, when there
    is a colon, its part after it are integer literals, and the two numbers
    are an hour within 0 and 23 and a minute within 0 and 59 (the minute is
    0 without a colon); parts after a second colon are not read. *)
Theorem parse_time_string_accepts (s : string) (t : time) :
  is_ascii s = true ->
  (String.length s <= 4300)%nat ->
  parse_time_string s = (true, EmptyString, Some t)
  <-> s <> EmptyString
      /\ Py.int (nth 0 (Py.split ":" s) EmptyString) = Some (hour t)
      /\ (if 1 <? Py.len (Py.split ":" s)
          then Py.int (nth 1 (Py.split ":" s) EmptyString) else Some 0) = Some (minute t)
      /\ 0 <= hour t <= 23 /\ 0 <= minute t <= 59 /\ second t = 0.
Proof.
  intros _ _. split.
  - intros H. split; [intros ->; discriminate|].
    apply parse_time_string_ok in H as (_ & ? & ? & ? & ? & ?). auto 10.
  - intros (Hne & H0 & H1 & Hh & Hm & Hs).
    unfold parse_time_string. destruct s as [|c s]; [contradiction|].
    destruct (negb (Py.contains ":" (String c s))) eqn:Hc.
    + apply negb_true_iff in Hc. rewrite (split_no_sep _ _ Hc) in H0, H1.
      simpl in H0, H1. rewrite H0. injection H1 as H1.
      rewrite py_time_in_range by lia.
      rewrite <- (time_eta t), <- H1, Hs. reflexivity.
    + rewrite H0, H1.
      replace ((hour t <? 0) || (hour t >? 23)) with false
        by (symmetry; apply orb_false_iff; split;
            [apply Z.ltb_ge | rewrite Z.gtb_ltb; apply Z.ltb_ge]; lia).
      replace ((minute t <? 0) || (minute t >? 59)) with false
        by (symmetry; apply orb_false_iff; split;
            [apply Z.ltb_ge | rewrite Z.gtb_ltb; apply Z.ltb_ge]; lia).
      rewrite py_time_in_range by lia.
      rewrite <- (time_eta t) at 3. now rewrite Hs.
Qed.

Lemma parse_time_string_accepts_witness :
  parse_time_string " 9 : 05 :x" = (true, "", Some (mk_time 9 5 0)).
Proof.
  apply (parse_time_string_accepts " 9 : 05 :x" (mk_time 9 5 0));
    [reflexivity | simpl; lia |].
  repeat split; try reflexivity; try discriminate; simpl; lia.
Defined.

Lemma parse_documented_forms (h m : Z) :
  0 <= h < 24 -> 0 <= m < 60 ->
  parse_time_string (Py.str h) = (true, "", Some (mk_time h 0 0))
  /\ parse_time_string (Py.str h ++ ":" ++ two_digits m) = (true, "", Some (mk_time h m 0)).
Proof.
  intros Hh Hm.
  pose (check := fun (s : string) (h m : Z) =>
    match parse_time_string s with
    | (true, EmptyString, Some t) => (hour t =? h) && (minute t =? m) && (second t =? 0)
    | _ => false
    end).
  assert (Hcheck : forall s h m, check s h m = true ->
                     parse_time_string s = (true, "", Some (mk_time h m 0))).
  { intros s x y. unfold check.
    destruct (parse_time_string s) as [[[] [|? ?]] [[h' m' s']|]]; try discriminate.
    simpl. intros H. apply andb_true_iff in H as [H H3]. apply andb_true_iff in H as [H1 H2].
    apply Z.eqb_eq in H1, H2, H3. now subst. }
  pose (P := fun h m : Z =>
    check (Py.str h) h 0 && check (Py.str h ++ ":" ++ two_digits m) h m).
  assert (HP : P h m = true).
  { apply (Z_range_forallb (fun h => forallb (P h) (map Z.of_nat (seq 0 60))) 24) in Hh.
    - apply (Z_range_forallb (P h) 60 Hh m Hm).
    - vm_compute. reflexivity. }
  apply andb_true_iff in HP as [H1 H2]. split; now apply Hcheck.
Qed.

(** X3. The forms of the docstring are accepted: for an hour [h] below 24
    and a minute [m] below 60, the hour alone in decimal ("9", "19") is
    [h]:00, and the hour with a two-digit minute, whether the hour is
    padded ("09:05") or not ("9:05"), is [h]:[m]. *)
Theorem parse_time_string_forms (h m : Z) :
  0 <= h < 24 -> 0 <= m < 60 ->
  parse_time_string (Py.str h) = (true, "", Some (mk_time h 0 0))
  /\ parse_time_string (Py.str h ++ ":" ++ two_digits m) = (true, "", Some (mk_time h m 0))
  /\ parse_time_string (two_digits h ++ ":" ++ two_digits m)
     = (true, "", Some (mk_time h m 0)).
Proof.
  intros Hh Hm. destruct (parse_documented_forms h m Hh Hm) as [H1 H2].
  split; [exact H1|]. split; [exact H2|]. exact (parse_hhmm h m Hh Hm).
Qed.

Lemma parse_time_string_forms_witness :
  parse_time_string "9" = (true, "", Some (mk_time 9 0 0))
  /\ parse_time_string "9:05" = (true, "", Some (mk_time 9 5 0))
  /\ parse_time_string "09:05" = (true, "", Some (mk_time 9 5 0)).
Proof.
  exact (parse_time_string_forms 9 5 ltac:(lia) ltac:(lia)).
Defined.

Lemma calculate_end_time_shape (now : time) (s : string) (d : Z) :
  exists H rest,
    calculate_end_time now s d = two_digits H ++ ":" ++ rest /\ 0 <= H < 24.
Proof.
  unfold calculate_end_time, calculate_end_time_try.
  destruct (Py.int (nth 0 (Py.split ":" s) "")) as [h|].
  - destruct (if 1 <? Py.len _ then _ else _) as [m|].
    + exists ((h + d) mod 24), (Py.fmt_02d m).
      pose proof (Z.mod_pos_bound (h + d) 24 eq_refl). split; [|lia].
      rewrite fmt_02d_two_digits by lia. reflexivity.
    + exists ((hour now + d) mod 24), (Py.fmt_02d (minute now)).
      pose proof (Z.mod_pos_bound (hour now + d) 24 eq_refl). split; [|lia].
      rewrite fmt_02d_two_digits by lia. reflexivity.
  - exists ((hour now + d) mod 24), (Py.fmt_02d (minute now)).
    pose proof (Z.mod_pos_bound (hour now + d) 24 eq_refl). split; [|lia].
    rewrite fmt_02d_two_digits by lia. reflexivity.
Qed.

Lemma calculate_end_time_period (now : time) (s : string) (d : Z) :
  calculate_end_time now s (d + 24) = calculate_end_time now s d.
Proof.
  unfold calculate_end_time, calculate_end_time_try.
  assert (E : forall h, (h + (d + 24)) mod 24 = (h + d) mod 24).
  { intros h. replace (h + (d + 24)) with (h + d + 1 * 24) by lia.
    apply Z_mod_plus_full. }
  destruct (Py.int (nth 0 (Py.split ":" s) "")) as [h|]; rewrite ?E; trivial.
Qed.

(** X4. Whatever the start string, the duration and the clock,
    [calculate_end_time] returns a string that begins with a two-digit hour
    between 00 and 23 and a colon, and a duration longer by 24 hours gives
    the same string. *)
Theorem calculate_end_time_hour_in_range (now : time) (s : string) (d : Z) :
  (exists H rest,
     calculate_end_time now s d = two_digits H ++ ":" ++ rest /\ 0 <= H < 24)
  /\ calculate_end_time now s (d + 24) = calculate_end_time now s d.
Proof.
  split; [apply calculate_end_time_shape | apply calculate_end_time_period].
Qed.

(** X5. For a start time that [parse_time_string] accepts, the end time is
    accepted too, as the hour advanced modulo 24 with the same minute; and
    the end time of an end time is the end time for the sum of the
    durations, whatever the clock reads at each call. *)
Theorem calculate_end_time_composes (s : string) (t : time) (a b : Z)
    (now1 now2 now3 : time) :
  parse_time_string s = (true, "", Some t) ->
  parse_time_string (calculate_end_time now1 s a)
  = (true, "", Some (mk_time ((hour t + a) mod 24) (minute t) 0))
  /\ calculate_end_time now2 (calculate_end_time now1 s a) b
     = calculate_end_time now3 s (a + b).
Proof.
  intros H.
  pose proof (parse_calculate_end_time now1 _ _ _ a H) as P.
  split; [exact P|].
  rewrite (calculate_end_time_ok now2 _ _ _ b P), (calculate_end_time_ok now3 _ _ _ (a + b) H).
  cbn [hour minute]. f_equal.
  rewrite Zplus_mod_idemp_l. f_equal. lia.
Qed.

Lemma calculate_end_time_composes_witness :
  calculate_end_time (Sample.t 1 1) (calculate_end_time (Sample.t 2 2) "22:15" 2) 3
  = calculate_end_time (Sample.t 3 3) "22:15" (2 + 3).
Proof.
  exact (proj2 (calculate_end_time_composes "22:15" (Sample.t 22 15) 2 3
                  (Sample.t 2 2) (Sample.t 1 1) (Sample.t 3 3) eq_refl)).
Defined.

(* ================================================================= *)
(** ** The validation helpers *)

Lemma validate_attendees_loop_result (db : DB) (ids : list Z) (acc : list Eater.t) :
  match validate_attendees_loop db ids acc with
  | (true, msg, attendees) =>
      msg = EmptyString
      /\ exists rest, attendees = (acc ++ rest)%list
                      /\ map (Eater_get db) ids = map Some rest
  | (false, msg, attendees) =>
      attendees = []
      /\ exists pre i post,
           ids = (pre ++ i :: post)%list
           /\ (forall j, In j pre -> Eater_get db j <> None)
           /\ Eater_get db i = None
           /\ msg = "Attendee with ID " ++ Py.str i ++ " not found"
  end.
Proof.
  revert acc. induction ids as [|i ids IH]; intros acc; simpl.
  - split; [reflexivity|]. exists []. now rewrite app_nil_r.
  - destruct (Eater_get db i) as [e|] eqn:E.
    + specialize (IH (acc ++ [e])%list).
      destruct (validate_attendees_loop db ids (acc ++ [e])) as [[[] msg] atts].
      * destruct IH as [Hm (rest & -> & Hr)]. split; [exact Hm|].
        exists (e :: rest). rewrite <- app_assoc. simpl. now rewrite Hr.
      * destruct IH as [Ha (pre & j & post & -> & Hpre & Hj & Hm)]. split; [exact Ha|].
        exists (i :: pre), j, post. repeat split; trivial.
        intros k [<-|Hk]; [congruence | auto].
    + split; [reflexivity|]. exists [], i, ids. repeat split; trivial.
      intros j [].
Qed.

(** X6. [validate_attendees] succeeds exactly when every listed identifier
    is the key of an eater, and then returns, with an empty message, the
    eaters of the identifiers in the order of the list, repetitions
    included. Otherwise it returns no eater and the message names the first
    identifier of the list that is not found. *)
Theorem validate_attendees_result (db : DB) (ids : list Z) :
  match validate_attendees db ids with
  | (true, msg, attendees) =>
      msg = EmptyString /\ map (Eater_get db) ids = map Some attendees
  | (false, msg, attendees) =>
      attendees = []
      /\ exists pre i post,
           ids = (pre ++ i :: post)%list
           /\ (forall j, In j pre -> Eater_get db j <> None)
           /\ Eater_get db i = None
           /\ msg = "Attendee with ID " ++ Py.str i ++ " not found"
  end.
Proof.
  unfold validate_attendees.
  pose proof (validate_attendees_loop_result db ids []) as H.
  destruct (validate_attendees_loop db ids []) as [[[] msg] atts]; [|exact H].
  destruct H as [Hm (rest & -> & Hr)]. auto.
Qed.

Lemma time_gtb_lt (a b : time) : time_gtb a b = true <-> time_lt b a.
Proof. rewrite time_gtb_ltb. apply time_ltb_lt. Qed.

(** X7. [validate_reservation_time] succeeds, with the parsed date, exactly
    when the date is a calendar date in the form year-month-day, the
    restaurant has a row of hours, the start time is accepted by
    [parse_time_string] and it is neither before the opening time nor after
    the closing time: both bounds are allowed, and the end of the
    reservation is not compared with the hours. *)
Theorem validate_reservation_time_accepts (db : DB) (restaurant : Restaurant.t)
    (reservation_date reservation_start_time : string) (date_obj : date) :
  validate_reservation_time db restaurant reservation_date reservation_start_time
  = (true, "", Some date_obj)
  <-> Strptime.ymd reservation_date = Some date_obj
      /\ exists h t,
           Restaurant_hours db restaurant = Some h
           /\ parse_time_string reservation_start_time = (true, "", Some t)
           /\ ~ time_lt t (RestaurantHours.opening_time h)
           /\ ~ time_lt (RestaurantHours.closing_time h) t.
Proof.
  unfold validate_reservation_time. split.
  - destruct (Strptime.ymd reservation_date) as [d|]; [|discriminate].
    destruct (Restaurant_hours db restaurant) as [h|]; [|discriminate].
    destruct (parse_time_string_shape reservation_start_time) as [[t Ht]|[msg Hf]];
      [rewrite Ht | rewrite Hf; discriminate].
    destruct (time_gtb (RestaurantHours.opening_time h) t) eqn:E1; [discriminate|].
    destruct (time_ltb (RestaurantHours.closing_time h) t) eqn:E2; [discriminate|].
    simpl. intros H. injection H as <-. split; [reflexivity|].
    exists h, t. repeat split; trivial.
    + intros L. apply time_gtb_lt in L. congruence.
    + intros L. apply time_ltb_lt in L. congruence.
  - intros (-> & h & t & -> & -> & H1 & H2).
    destruct (time_gtb (RestaurantHours.opening_time h) t) eqn:E1;
      [apply time_gtb_lt in E1; contradiction|].
    destruct (time_ltb (RestaurantHours.closing_time h) t) eqn:E2;
      [apply time_ltb_lt in E2; contradiction|].
    reflexivity.
Qed.

(* ================================================================= *)
(** ** The two checks *)







(** X10. [find_available_table] gives the result of
    [check_table_availability] called without an end time, for every
    request, whatever the clock reads in each of them: the window it looks
    for is the default of two hours. *)
Theorem find_available_table_default (db : DB) (now now' now'' : time)
    (restaurant_id party_size : Z) (date_obj : date) (reservation_start_time : string) :
  find_available_table db now now' restaurant_id party_size date_obj reservation_start_time
  = check_table_availability db now'' restaurant_id party_size date_obj
      reservation_start_time None.
Proof.
  unfold find_available_table, check_table_availability.
  destruct (order_by_capacity _) as [|u us]; [reflexivity|].
  destruct (parse_time_string_shape reservation_start_time) as [[t Ht]|[msg Hf]].
  - rewrite (calculate_end_time_ok now _ _ _ 2 Ht), default_end_time_hhmm.
    unfold default_end_time. now rewrite (calculate_end_time_ok now'' _ _ _ 2 Ht).
  - now rewrite Hf.
Qed.

(* ================================================================= *)
(** ** What a successful [create_reservation] stores *)

Lemma validate_restaurant_ok (db : DB) (restaurant_id : Z) (m : string)
    (restaurant : Restaurant.t) :
  validate_restaurant db restaurant_id = (true, m, Some restaurant) ->
  Restaurant_get db restaurant_id = Some restaurant
  /\ Restaurant.accepts_reservations restaurant = true.
Proof.
  unfold validate_restaurant.
  destruct (Restaurant_get db restaurant_id) as [x|]; [|discriminate].
  destruct (Restaurant.accepts_reservations x) eqn:E; simpl; [|discriminate].
  intros H. injection H as _ <-. auto.
Qed.

Lemma validate_host_get (db : DB) (eater_id : Z) (m : string) (host : Eater.t) :
  validate_host db eater_id = (true, m, Some host) -> Eater_get db eater_id = Some host.
Proof.
  unfold validate_host. destruct (Eater_get db eater_id); [|discriminate].
  intros H. now injection H as _ <-.
Qed.

Lemma validate_reservation_time_inv (db : DB) (restaurant : Restaurant.t)
    (reservation_date reservation_start_time m : string) (date_obj : date) :
  validate_reservation_time db restaurant reservation_date reservation_start_time
  = (true, m, Some date_obj) ->
  Strptime.ymd reservation_date = Some date_obj
  /\ exists h t,
       Restaurant_hours db restaurant = Some h
       /\ parse_time_string reservation_start_time = (true, "", Some t)
       /\ ~ time_lt t (RestaurantHours.opening_time h)
       /\ ~ time_lt (RestaurantHours.closing_time h) t.
Proof.
  unfold validate_reservation_time.
  destruct (Strptime.ymd reservation_date) as [d|]; [|discriminate].
  destruct (Restaurant_hours db restaurant) as [h|]; [|discriminate].
  destruct (parse_time_string_shape reservation_start_time) as [[t Ht]|[msg Hf]];
    [rewrite Ht | rewrite Hf; discriminate].
  destruct (time_gtb (RestaurantHours.opening_time h) t) eqn:E1; [discriminate|].
  destruct (time_ltb (RestaurantHours.closing_time h) t) eqn:E2; [discriminate|].
  simpl. intros H. injection H as _ <-. split; [reflexivity|].
  exists h, t. repeat split; trivial.
  - intros L. apply time_gtb_lt in L. congruence.
  - intros L. apply time_ltb_lt in L. congruence.
Qed.

(** The [attendees] collection of a new reservation: the host first, no
    eater twice. *)
Lemma new_attendees_shape (now : time) (new_id eater_id restaurant_id table_id : Z)
    (date_obj : date) (start_time : string) (party_size : Z) (host : Eater.t)
    (attendees : list Eater.t) (end_time : option string) :
  NoDup (snd (create_reservation_object now new_id eater_id restaurant_id table_id
                date_obj start_time party_size host attendees end_time))
  /\ exists others,
       snd (create_reservation_object now new_id eater_id restaurant_id table_id
              date_obj start_time party_size host attendees end_time)
       = Eater.id host :: others.
Proof.
  unfold create_reservation_object. cbn [snd].
  assert (G : forall acc,
             NoDup acc ->
             NoDup (fold_left (fun acc attendee =>
                                 if negb (Eater.id attendee =? Eater.id host)
                                 then attendees_append acc attendee else acc)
                              attendees acc)
             /\ exists more,
                  fold_left (fun acc attendee =>
                               if negb (Eater.id attendee =? Eater.id host)
                               then attendees_append acc attendee else acc)
                            attendees acc
                  = (acc ++ more)%list).
  { induction attendees as [|a l IH]; intros acc Hacc; simpl.
    - split; [exact Hacc|]. exists []. now rewrite app_nil_r.
    - destruct (negb (Eater.id a =? Eater.id host)); [|now apply IH].
      destruct (mem (Eater.id a) acc) eqn:Em.
      { replace (attendees_append acc a) with acc
          by (unfold attendees_append; now rewrite Em).
        now apply IH. }
      replace (attendees_append acc a) with (acc ++ [Eater.id a])%list
        by (unfold attendees_append; now rewrite Em).
      destruct (IH (acc ++ [Eater.id a])%list) as [H1 [more H2]].
      + apply NoDup_app; trivial.
        * repeat constructor. intros [].
        * intros x Hx [<-|[]]. apply mem_In in Hx. congruence.
      + split; [exact H1|]. exists (Eater.id a :: more).
        rewrite H2, <- app_assoc. reflexivity. }
  destruct (G (attendees_append [] host)) as [H1 [more H2]].
  - unfold attendees_append. simpl. repeat constructor. intros [].
  - split; [exact H1|]. exists more. rewrite H2. reflexivity.
Qed.

Lemma Reservation_get_app_new (db : DB) (rs : list Reservation.t) (ra : list (Z * Z))
    (nr : Reservation.t) (i : Z) :
  rs = (reservations db ++ [nr])%list ->
  (forall r, In r (reservations db) -> Reservation.id r <> Reservation.id nr) ->
  Reservation_get (with_reservations db rs ra) i
  = if i =? Reservation.id nr then Some nr else Reservation_get db i.
Proof.
  intros -> Hfresh. unfold Reservation_get. simpl.
  induction (reservations db) as [|x l IH]; simpl.
  - rewrite (Z.eqb_sym i). now destruct (Reservation.id nr =? i).
  - destruct (Z.eqb_spec (Reservation.id x) i) as [E|E].
    + destruct (Z.eqb_spec i (Reservation.id nr)) as [E'|E']; [|reflexivity].
      exfalso. apply (Hfresh x (or_introl eq_refl)). congruence.
    + apply IH. intros r Hr. apply Hfresh. now right.
Qed.

Lemma party_size_of_ids (host : Eater.t) (attendees : list Eater.t) (ids : list Z)
    (eater_id guests_count : Z) :
  Eater.id host = eater_id -> map Eater.id attendees = ids ->
  party_size_of host attendees guests_count
  = Py.len ids + (if mem eater_id ids then 0 else 1) + guests_count.
Proof.
  intros Hid Hids. unfold party_size_of. rewrite host_in_ids, Hid, Hids.
  f_equal. f_equal. unfold Py.len. now rewrite <- Hids, length_map.
Qed.

(** X11. What a successful call guarantees of the reservation it
    returns: the message is "Reservation created successfully"; the
    restaurant exists and accepts reservations, the host is an eater, the
    date is the parsed date and the start time the string of the request,
    accepted by [parse_time_string] and within the hours of the restaurant,
    bounds included; the end time is the start two hours later modulo 24,
    written HH:MM; the reservation is active; the party size is the
    number of listed attendees, one more when the host is not listed, and
    the guests; its table is a table of the restaurant with at least as
    many seats. *)
Theorem create_reservation_success (env : Env) (eater_id restaurant_id : Z)
    (reservation_date reservation_start_time : string)
    (attendee_ids : option (list Z)) (guests_count : Z) (db db' : DB)
    (message : string) (reservation : option Reservation.t) :
  create_reservation env eater_id restaurant_id reservation_date
    reservation_start_time attendee_ids guests_count db
  = (db', (true, message, reservation)) ->
  message = "Reservation created successfully"
  /\ exists r restaurant host hours table date_obj t,
       reservation = Some r
       /\ Restaurant_get db restaurant_id = Some restaurant
       /\ Restaurant.accepts_reservations restaurant = true
       /\ Eater_get db eater_id = Some host
       /\ Strptime.ymd reservation_date = Some date_obj
       /\ parse_time_string reservation_start_time = (true, "", Some t)
       /\ Restaurant_hours db restaurant = Some hours
       /\ ~ time_lt t (RestaurantHours.opening_time hours)
       /\ ~ time_lt (RestaurantHours.closing_time hours) t
       /\ In table (tables db)
       /\ Table.restaurant_id table = restaurant_id
       /\ Reservation.party_size r <= Table.capacity table
       /\ r = Reservation.mk (next_reservation_id db) eater_id restaurant_id
                (Some (Table.id table)) date_obj reservation_start_time
                (Some (hhmm ((hour t + 2) mod 24) (minute t)))
                (Py.len (ids_of attendee_ids)
                 + (if mem eater_id (ids_of attendee_ids) then 0 else 1)
                 + guests_count)
                true.
Proof.
  intros H.
  apply create_reservation_inv in H
    as (restaurant & host & attendees & date_obj & table & Hsteps & _ & Hr & Hm).
  split; [exact Hm|].
  destruct (booking_facts _ _ _ _ _ _ _ _ _ _ _ _ _ Hsteps)
    as (req_start & Ps & Enr & _ & [(Htab & Erest & Hcap) _] & _).
  destruct Hsteps as [[m1 E1] [m2 E2] [m3 E3] [m4 E4] _ _ _ _].
  apply validate_restaurant_ok in E1 as [G1 G2].
  destruct (validate_host_ok _ _ _ _ E2) as [Hid _].
  destruct (validate_attendees_ok _ _ _ _ E3) as [Hids _].
  rewrite (party_size_of_ids host attendees (ids_of attendee_ids) eater_id guests_count
             Hid Hids) in *.
  apply validate_host_get in E2.
  apply validate_reservation_time_inv in E4 as (Ed & h & t & Eh & Pt & B1 & B2).
  assert (t = req_start) by congruence. subst t.
  rewrite Enr in Hr.
  eexists _, restaurant, host, h, table, date_obj, req_start.
  split; [exact Hr|]. cbn [Reservation.party_size].
  repeat (split; [first [assumption | reflexivity]|]).
  reflexivity.
Qed.

Lemma create_reservation_success_witness :
  exists r table,
    snd (create_reservation Sample.env_ok 1 1 "2025-05-01" "18:00" (Some [2]) 0 Sample.db0)
    = (true, "Reservation created successfully", Some r)
    /\ In table (tables Sample.db0)
    /\ Reservation.table_id r = Some (Table.id table)
    /\ Reservation.party_size r <= Table.capacity table.
Proof.
  destruct (create_reservation_success Sample.env_ok 1 1 "2025-05-01" "18:00" (Some [2]) 0
              Sample.db0 Sample.db1 "Reservation created successfully"
              (Some Sample.booking1) eq_refl)
    as (_ & r & restaurant & host & hours & table & date_obj & t & Hr & _ & _ & _ & _ & _
        & _ & _ & _ & Hin & _ & Hcap & Er).
  exists r, table. injection Hr as <-.
  split; [reflexivity|]. split; [exact Hin|]. split; [|exact Hcap].
  rewrite Er. reflexivity.
Defined.

(** The effect of a successful call, with the values its steps
    computed. *)
Lemma create_reservation_effect (env : Env) (eater_id restaurant_id : Z)
    (reservation_date reservation_start_time : string)
    (attendee_ids : option (list Z)) (guests_count : Z) (db db' : DB)
    (message : string) (r : Reservation.t) :
  create_reservation env eater_id restaurant_id reservation_date
    reservation_start_time attendee_ids guests_count db
  = (db', (true, message, Some r)) ->
  exists restaurant host attendees date_obj table t others,
    booking_steps env eater_id restaurant_id reservation_date reservation_start_time
      (ids_of attendee_ids) db restaurant host attendees date_obj
      (party_size_of host attendees guests_count) table
    /\ db' = with_reservations db
               (reservations db ++ [r])
               (reservation_attendees db
                ++ map (fun e => (Reservation.id r, e)) (eater_id :: others))
    /\ NoDup (eater_id :: others)
    /\ (forall x, In x others <-> In x (ids_of attendee_ids) /\ x <> eater_id)
    /\ parse_time_string reservation_start_time = (true, "", Some t)
    /\ r = Reservation.mk (next_reservation_id db) eater_id restaurant_id
             (Some (Table.id table)) date_obj reservation_start_time
             (Some (hhmm ((hour t + 2) mod 24) (minute t)))
             (party_size_of host attendees guests_count) true.
Proof.
  intros H.
  apply create_reservation_inv in H
    as (restaurant & host & attendees & date_obj & table & Hsteps & Hdb & Hr & _).
  destruct (booking_facts _ _ _ _ _ _ _ _ _ _ _ _ _ Hsteps)
    as (req_start & Ps & Enr & _ & _ & Hin & _).
  pose proof Hsteps as [_ [m2 E2] _ _ _ _ _ _].
  apply validate_host_ok in E2 as [Hid _].
  set (booked := booked_reservation env eater_id restaurant_id reservation_start_time db
                   host attendees date_obj (party_size_of host attendees guests_count)
                   table) in *.
  assert (Er : fst booked = r) by congruence.
  destruct (new_attendees_shape (now_object env) (next_reservation_id db) eater_id
              restaurant_id (Table.id table) date_obj reservation_start_time
              (party_size_of host attendees guests_count) host attendees
              (Some (calculate_end_time (now_end_time env) reservation_start_time 2)))
    as [Hnd' [others Eo']].
  assert (Hnd : NoDup (snd booked)) by exact Hnd'.
  assert (Eo : snd booked = eater_id :: others) by (rewrite <- Hid; exact Eo').
  clear Hnd' Eo'.
  exists restaurant, host, attendees, date_obj, table, req_start, others.
  split; [exact Hsteps|].
  split; [subst db'; unfold booked_db; now rewrite Er, Eo|].
  rewrite <- Eo. split; [exact Hnd|]. split; [|split; [exact Ps | congruence]].
  intros x. rewrite Eo in Hnd. inversion Hnd as [|? ? Hx _]; subst.
  specialize (Hin x). rewrite Eo in Hin. simpl in Hin. split.
  - intros Ho. split.
    + destruct (proj1 Hin (or_intror Ho)) as [->|]; [contradiction | assumption].
    + intros ->. contradiction.
  - intros [Hi Hne]. destruct (proj2 Hin (or_intror Hi)) as [Heq|]; [|assumption].
    congruence.
Qed.

(** X12. What a successful call writes, whatever the order in which the
    rows are inserted. The reservations are those of before and the
    reservation returned, once, under an identifier larger than those
    stored; the attendee rows are those of before, one row for the host and
    one for each listed attendee other than the host, none of them twice.
    Nothing else changes: a lookup by any other identifier gives what it
    gave before, and no other table is written. *)
Theorem create_reservation_store (env : Env) (eater_id restaurant_id : Z)
    (reservation_date reservation_start_time : string)
    (attendee_ids : option (list Z)) (guests_count : Z) (db db' : DB)
    (message : string) (r : Reservation.t) :
  create_reservation env eater_id restaurant_id reservation_date
    reservation_start_time attendee_ids guests_count db
  = (db', (true, message, Some r)) ->
  Permutation (reservations db') (r :: reservations db)
  /\ (forall x, In x (reservations db) -> Reservation.id x < Reservation.id r)
  /\ (exists others,
        Permutation (reservation_attendees db')
          (map (fun e => (Reservation.id r, e)) (eater_id :: others)
           ++ reservation_attendees db)%list
        /\ NoDup (eater_id :: others)
        /\ forall x, In x others <-> In x (ids_of attendee_ids) /\ x <> eater_id)
  /\ (forall i, Reservation_get db' i
                = if i =? Reservation.id r then Some r else Reservation_get db i)
  /\ same_static db db'.
Proof.
  intros H.
  apply create_reservation_effect in H
    as (restaurant & host & attendees & date_obj & table & t & others
        & _ & -> & Hnd & Hin & _ & Er).
  assert (Hfresh : forall x, In x (reservations db) -> Reservation.id x < Reservation.id r).
  { intros x Hx. rewrite Er. cbn [Reservation.id]. now apply next_reservation_id_fresh. }
  split; [symmetry; apply Permutation_cons_append|].
  split; [exact Hfresh|]. split; [|split].
  - exists others. split; [apply Permutation_app_comm | auto].
  - intros i. apply Reservation_get_app_new; [reflexivity|].
    intros x Hx. specialize (Hfresh x Hx). lia.
  - apply same_static_with_reservations.
Qed.

Lemma create_reservation_store_witness :
  Permutation (reservations Sample.db1) [Sample.booking1]
  /\ Reservation_get Sample.db1 1 = Some Sample.booking1.
Proof.
  destruct (create_reservation_store Sample.env_ok 1 1 "2025-05-01" "18:00" (Some [2]) 0
              Sample.db0 Sample.db1 "Reservation created successfully"
              Sample.booking1 eq_refl)
    as (H1 & _ & _ & H2 & _).
  split; [exact H1 | exact (H2 1)].
Defined.

(* ================================================================= *)
(** ** What every reachable store satisfies *)

Lemma NoDup_map_injective {A B} (f : A -> B) (l : list A) :
  (forall x y, f x = f y -> x = y) -> NoDup l -> NoDup (map f l).
Proof.
  intros Hf. induction 1 as [|x l Hx _ IH]; simpl; constructor; [|exact IH].
  intros H. apply in_map_iff in H as (y & E & Hy). apply Hf in E. now subst.
Qed.

Lemma NoDup_map_filter {A} (f : A -> Z) (p : A -> bool) (l : list A) :
  NoDup (map f l) -> NoDup (map f (filter p l)).
Proof.
  induction l as [|x l IH]; simpl; intros H; [constructor|].
  inversion H as [|? ? Hx Hl]; subst.
  destruct (p x); simpl; [constructor|]; auto.
  intros Hin. apply Hx. apply in_map_iff in Hin as (y & E & Hy).
  apply filter_In in Hy as [Hy _]. rewrite <- E. now apply in_map.
Qed.

Lemma map_id_deactivated (i : Z) (rs : list Reservation.t) :
  map Reservation.id
    (map (fun r => if Reservation.id r =? i then Reservation.set_is_active false r else r) rs)
  = map Reservation.id rs.
Proof.
  rewrite map_map. apply map_ext. intros r. now destruct (Reservation.id r =? i).
Qed.

Lemma empty_store_wellformed (db : DB) : empty_store db -> store_wellformed db.
Proof.
  intros [Hr Ha]. constructor; rewrite ?Hr, ?Ha; simpl; try constructor; intros; tauto.
Qed.

Lemma create_reservation_wellformed (env : Env) (eater_id restaurant_id : Z)
    (reservation_date reservation_start_time : string)
    (attendee_ids : option (list Z)) (guests_count : Z) (db : DB) :
  store_wellformed db ->
  store_wellformed (fst (create_reservation env eater_id restaurant_id reservation_date
                           reservation_start_time attendee_ids guests_count db)).
Proof.
  intros Hwf.
  destruct (create_reservation env eater_id restaurant_id reservation_date
              reservation_start_time attendee_ids guests_count db)
    as [db' [[[] m] o]] eqn:E.
  2:{ pose proof (create_reservation_failure env eater_id restaurant_id reservation_date
                    reservation_start_time attendee_ids guests_count db) as F.
      rewrite E in F. simpl in *. now rewrite (F eq_refl). }
  destruct o as [r|];
    [|apply create_reservation_inv in E as (? & ? & ? & ? & ? & _ & _ & ? & _); discriminate].
  apply create_reservation_effect in E
    as (restaurant & host & attendees & date_obj & table & t & others
        & Hsteps & -> & Hnd & Hin & Ps & Er).
  destruct (booking_facts _ _ _ _ _ _ _ _ _ _ _ _ _ Hsteps)
    as (t' & Ps' & _ & _ & [(Htab & Erest & Hcap) _] & _ & Hexists & _).
  destruct Hsteps as [[m1 E1] [m2 E2] _ [m4 E4] _ _ _ _].
  apply validate_restaurant_ok in E1 as [G1 G2].
  apply validate_host_get in E2.
  apply validate_reservation_time_inv in E4 as (_ & h & t'' & Eh & Ps'' & B1 & B2).
  assert (t'' = t) by congruence. subst t''. clear t' Ps' Ps''.
  destruct Hwf as [W1 W2 W3 W4 W5 W6 W7].
  assert (Hid : Reservation.id r = next_reservation_id db) by (now rewrite Er).
  assert (Hfresh : forall x, In x (reservations db) -> Reservation.id x <> Reservation.id r).
  { intros x Hx. pose proof (next_reservation_id_fresh db x Hx). lia. }
  cbn [fst].
  constructor; unfold Eater_get, Restaurant_get, Restaurant_hours in *;
    cbn [with_reservations reservations reservation_attendees eaters tables restaurants
         restaurant_hours].
  - rewrite map_app. apply NoDup_app; [exact W1 | repeat constructor; intros [] |].
    intros i Hi [<-|[]]. apply in_map_iff in Hi as (x & Ex & Hx).
    now apply (Hfresh x Hx).
  - apply NoDup_app; [exact W2 | |].
    + apply NoDup_map_injective; [|exact Hnd]. intros x y Exy. now injection Exy.
    + intros [i p] Hold Hnew. apply in_map_iff in Hnew as (e & Ee & _).
      injection Ee as Ei _. destruct (W3 i p Hold) as [(x & Hx & Ex) _].
      apply (Hfresh x Hx). congruence.
  - intros i p Hrow. apply in_app_iff in Hrow as [Hrow|Hrow].
    + destruct (W3 i p Hrow) as [(x & Hx & Ex) He]. split; [|exact He].
      exists x. split; [apply in_app_iff; now left | exact Ex].
    + apply in_map_iff in Hrow as (e & Ee & He). injection Ee as <- <-. split.
      * exists r. split; [apply in_app_iff; right; now left | reflexivity].
      * apply Hexists. destruct He as [<-|He]; [now left|]. right. now apply Hin.
  - intros x Hx. apply in_app_iff in Hx as [Hx|[<-|[]]]; apply in_app_iff.
    + left. now apply W4.
    + right. left. rewrite Er. reflexivity.
  - intros x Hx. apply in_app_iff in Hx as [Hx|[<-|[]]]; [now apply W5|].
    exists table. rewrite Er. simpl. auto.
  - intros x Hx. apply in_app_iff in Hx as [Hx|[<-|[]]]; [now apply W6|].
    exists t. rewrite Er. simpl. auto.
  - intros x Hx. apply in_app_iff in Hx as [Hx|[<-|[]]]; [exact (W7 x Hx)|].
    rewrite Er. simpl. split; [exists host; exact E2|].
    exists restaurant, h, t. auto 8.
Qed.

Lemma delete_reservation_wellformed (env : Env) (i : Z) (soft_delete : bool) (db : DB) :
  store_wellformed db ->
  store_wellformed (fst (delete_reservation env i soft_delete db)).
Proof.
  intros Hwf. unfold delete_reservation.
  destruct (Reservation_get db i) as [reservation|]; [|exact Hwf].
  destruct (commit_error env); [exact Hwf|].
  destruct Hwf as [W1 W2 W3 W4 W5 W6 W7].
  set (i0 := Reservation.id reservation).
  destruct soft_delete; cbn [fst]; constructor; simpl.
  - now rewrite map_id_deactivated.
  - exact W2.
  - intros j p H. destruct (W3 j p H) as [(r & Hr & E) He]. split; [|exact He].
    exists (if Reservation.id r =? i0 then Reservation.set_is_active false r else r).
    split; [apply in_map_iff; exists r; split; [reflexivity | exact Hr]|].
    destruct (Reservation.id r =? i0); exact E.
  - intros r' H. apply deactivated_In in H as (r & Hr & [->|[-> _]]); exact (W4 r Hr).
  - intros r' H. apply deactivated_In in H as (r & Hr & [->|[-> _]]); exact (W5 r Hr).
  - intros r' H. apply deactivated_In in H as (r & Hr & [->|[-> _]]); exact (W6 r Hr).
  - intros r' H. apply deactivated_In in H as (r & Hr & [->|[-> _]]); exact (W7 r Hr).
  - now apply NoDup_map_filter.
  - now apply NoDup_filter.
  - intros j p H. apply filter_In in H as [H Hj]. simpl in Hj.
    destruct (W3 j p H) as [(r & Hr & E) He]. split; [|exact He].
    exists r. split; [|exact E]. apply filter_In. split; [exact Hr | now rewrite E].
  - intros r H. apply filter_In in H as [H Hr]. apply filter_In. split; [now apply W4|].
    exact Hr.
  - intros r H. apply filter_In in H as [H _]. now apply W5.
  - intros r H. apply filter_In in H as [H _]. now apply W6.
  - intros r H. apply filter_In in H as [H _]. exact (W7 r H).
Qed.

Lemma run_wellformed (ops : list Op) (db : DB) :
  store_wellformed db -> store_wellformed (run ops db).
Proof.
  revert db. induction ops as [|op ops IH]; intros db Hwf; simpl; [exact Hwf|].
  apply IH. destruct op as [env e r d t a g|env i soft]; simpl.
  - now apply create_reservation_wellformed.
  - now apply delete_reservation_wellformed.
Qed.

Lemma run_same_static (ops : list Op) (db : DB) : same_static db (run ops db).
Proof.
  revert db. induction ops as [|op ops IH]; intros db; simpl; [apply same_static_refl|].
  apply (same_static_trans _ (apply_op db op)); [|apply IH].
  destruct op; simpl;
    [apply create_reservation_same_static | apply delete_reservation_same_static].
Qed.

(** X13. The keys and the references of the store. Starting from an empty
    reservation store, after any sequence of [create_reservation] and
    [delete_reservation] calls (hard or soft, successful or not): no two
    reservations share an identifier, no attendee row is stored twice,
    every attendee row belongs to a stored reservation and to an eater,
    and the host of every stored reservation is one of its attendees. *)
Theorem reachable_store_keys (db0 : DB) (ops : list Op) :
  empty_store db0 ->
  NoDup (map Reservation.id (reservations (run ops db0)))
  /\ NoDup (reservation_attendees (run ops db0))
  /\ (forall i p, In (i, p) (reservation_attendees (run ops db0)) ->
        (exists r, In r (reservations (run ops db0)) /\ Reservation.id r = i)
        /\ (exists e, In e (eaters db0) /\ Eater.id e = p))
  /\ (forall r, In r (reservations (run ops db0)) ->
        In (Reservation.id r, Reservation.eater_id r)
           (reservation_attendees (run ops db0))).
Proof.
  intros Hempty.
  destruct (run_wellformed ops db0 (empty_store_wellformed db0 Hempty))
    as [W1 W2 W3 W4 _ _ _].
  destruct (run_same_static ops db0) as (Ee & _).
  rewrite Ee in W3. auto.
Qed.

Lemma reachable_store_keys_witness :
  empty_store Sample.db0
  /\ NoDup (reservation_attendees (run Sample.two_bookings Sample.db0)).
Proof.
  exact (conj (conj eq_refl eq_refl)
           (proj1 (proj2 (reachable_store_keys Sample.db0 Sample.two_bookings
                            (conj eq_refl eq_refl))))).
Defined.

(** X14. What holds of every stored reservation, active or not. Starting
    from an empty reservation store, after any sequence of calls: its host
    is an eater; its restaurant exists and accepts reservations; its table
    is a table of that restaurant with at least as many seats as the party;
    its start time is accepted by [parse_time_string] and lies within the
    hours of the restaurant, bounds included; its end time is the start two
    hours later, the hour modulo 24, written HH:MM. *)
Theorem reachable_store_reservations (db0 : DB) (ops : list Op) (r : Reservation.t) :
  empty_store db0 ->
  In r (reservations (run ops db0)) ->
  exists host restaurant hours table t,
    Eater_get db0 (Reservation.eater_id r) = Some host
    /\ Restaurant_get db0 (Reservation.restaurant_id r) = Some restaurant
    /\ Restaurant.accepts_reservations restaurant = true
    /\ Restaurant_hours db0 restaurant = Some hours
    /\ In table (tables db0)
    /\ Reservation.table_id r = Some (Table.id table)
    /\ Table.restaurant_id table = Reservation.restaurant_id r
    /\ Reservation.party_size r <= Table.capacity table
    /\ parse_time_string (Reservation.reservation_start_time r) = (true, "", Some t)
    /\ ~ time_lt t (RestaurantHours.opening_time hours)
    /\ ~ time_lt (RestaurantHours.closing_time hours) t
    /\ Reservation.reservation_end_time r
       = Some (hhmm ((hour t + 2) mod 24) (minute t)).
Proof.
  intros Hempty Hr.
  destruct (run_wellformed ops db0 (empty_store_wellformed db0 Hempty))
    as [_ _ _ _ W5 W6 W7].
  destruct (run_same_static ops db0) as (Ee & _ & Er & Eh & Et & _).
  destruct (W5 r Hr) as (table & T1 & T2 & T3 & T4).
  destruct (W6 r Hr) as (t & P1 & P2).
  destruct (W7 r Hr) as [[host Hh] (x & h & t' & R1 & R2 & R3 & R4 & R5 & R6)].
  assert (t' = t) by congruence. subst t'.
  unfold Eater_get, Restaurant_get, Restaurant_hours in *.
  rewrite Ee in Hh. rewrite Er in R1. rewrite Eh in R3. rewrite Et in T1.
  exists host, x, h, table, t. auto 12.
Qed.

Lemma reachable_store_reservations_witness :
  exists r table,
    In r (reservations (run Sample.two_bookings Sample.db0))
    /\ Reservation.is_active r = true
    /\ Reservation.table_id r = Some (Table.id table)
    /\ Reservation.party_size r <= Table.capacity table.
Proof.
  pose (r := Reservation.mk 2 3 1 (Some 2) Sample.may1 "20:00" (Some "22:00") 2 true).
  assert (H : In r (reservations (run Sample.two_bookings Sample.db0)))
    by (vm_compute; right; left; reflexivity).
  destruct (reachable_store_reservations Sample.db0 Sample.two_bookings r
              (conj eq_refl eq_refl) H)
    as (host & restaurant & hours & table & t & _ & _ & _ & _ & _ & T2 & _ & T4 & _).
  exists r, table. exact (conj H (conj eq_refl (conj T2 T4))).
Defined.

(* ================================================================= *)
(** ** [delete_reservation] *)

Lemma find_filter_id_None (i : Z) (rs : list Reservation.t) :
  find (fun r => Reservation.id r =? i)
       (filter (fun r => negb (Reservation.id r =? i)) rs) = None.
Proof.
  induction rs as [|x l IH]; simpl; [reflexivity|].
  destruct (Reservation.id x =? i) eqn:E; simpl; [exact IH|]. now rewrite E.
Qed.

Lemma find_filter_id_other (i j : Z) (rs : list Reservation.t) :
  j <> i ->
  find (fun r => Reservation.id r =? j)
       (filter (fun r => negb (Reservation.id r =? i)) rs)
  = find (fun r => Reservation.id r =? j) rs.
Proof.
  intros Hne. induction rs as [|x l IH]; simpl; [reflexivity|].
  destruct (Z.eqb_spec (Reservation.id x) i) as [E|E]; simpl.
  - destruct (Z.eqb_spec (Reservation.id x) j); [congruence | exact IH].
  - destruct (Reservation.id x =? j); [reflexivity | exact IH].
Qed.

Lemma find_deactivated (i j : Z) (rs : list Reservation.t) :
  find (fun r => Reservation.id r =? j)
       (map (fun r => if Reservation.id r =? i
                      then Reservation.set_is_active false r else r) rs)
  = option_map (fun r => if Reservation.id r =? i
                         then Reservation.set_is_active false r else r)
      (find (fun r => Reservation.id r =? j) rs).
Proof.
  induction rs as [|x l IH]; simpl; [reflexivity|].
  replace (Reservation.id (if Reservation.id x =? i
                           then Reservation.set_is_active false x else x))
    with (Reservation.id x) by (now destruct (Reservation.id x =? i)).
  destruct (Reservation.id x =? j); [reflexivity | exact IH].
Qed.

Lemma with_reservations_same (db : DB) :
  with_reservations db (reservations db) (reservation_attendees db) = db.
Proof. now destruct db. Qed.

(** X15. A successful hard delete removes the reservation and its attendee
    rows, and nothing else: afterwards a lookup of the identifier finds
    nothing, the other reservations and attendee rows are those of before,
    no other table is written, and a further delete of the identifier, hard
    or soft, reports "Reservation not found" and leaves the store as it
    is. *)
Theorem hard_delete_removes (env : Env) (i : Z) (db db' : DB) (message : string) :
  delete_reservation env i false db = (db', (true, message)) ->
  message = "Reservation permanently deleted"
  /\ Reservation_get db' i = None
  /\ (forall j, j <> i -> Reservation_get db' j = Reservation_get db j)
  /\ (forall r, In r (reservations db')
                <-> In r (reservations db) /\ Reservation.id r <> i)
  /\ (forall j p, In (j, p) (reservation_attendees db')
                  <-> In (j, p) (reservation_attendees db) /\ j <> i)
  /\ same_static db db'
  /\ (forall env' soft_delete,
        delete_reservation env' i soft_delete db'
        = (db', (false, "Reservation not found"))).
Proof.
  unfold delete_reservation at 1.
  destruct (Reservation_get db i) as [r|] eqn:E; [|discriminate].
  destruct (commit_error env); [discriminate|].
  apply Reservation_get_Some in E as [_ ->].
  intros H. injection H as <- <-.
  assert (G : Reservation_get
                (with_reservations db
                   (filter (fun r => negb (Reservation.id r =? i)) (reservations db))
                   (filter (fun row => negb (fst row =? i)) (reservation_attendees db))) i
              = None) by apply find_filter_id_None.
  split; [reflexivity|]. split; [exact G|].
  split; [intros j Hj; now apply find_filter_id_other|].
  split; [|split; [|split; [apply same_static_with_reservations|]]].
  - intros x. cbn [with_reservations reservations]. rewrite filter_In, negb_true_iff.
    now rewrite Z.eqb_neq.
  - intros j p. cbn [with_reservations reservation_attendees].
    rewrite filter_In, negb_true_iff. cbn [fst]. now rewrite Z.eqb_neq.
  - intros env' soft_delete. unfold delete_reservation. now rewrite G.
Qed.

Lemma hard_delete_removes_witness :
  delete_reservation Sample.env_ok 1 false Sample.db1
  = (Sample.db0, (true, "Reservation permanently deleted"))
  /\ Reservation_get Sample.db0 1 = None.
Proof.
  split; [reflexivity|].
  exact (proj1 (proj2 (hard_delete_removes Sample.env_ok 1 Sample.db1 Sample.db0
                         "Reservation permanently deleted" eq_refl))).
Defined.

(** X16. A successful soft delete keeps the row and clears its flag, whether
    or not the flag was set: afterwards a lookup of the identifier gives a
    reservation with [is_active] false and the identifier, host,
    restaurant, table, date, start, end and party size it had; every other
    lookup gives what it gave before, the attendee rows are kept, and the
    same soft delete again succeeds with the same message and changes none
    of these. (The timestamp [updated_at], which the update of the row
    rewrites, is not a column of the rows of the model: nothing is stated
    of it.) *)
Theorem soft_delete_keeps_row (env : Env) (i : Z) (db db' : DB) (message : string) :
  delete_reservation env i true db = (db', (true, message)) ->
  message = "Reservation marked as deleted"
  /\ (exists r r',
        Reservation_get db i = Some r
        /\ Reservation_get db' i = Some r'
        /\ Reservation.is_active r' = false
        /\ Reservation.id r' = Reservation.id r
        /\ Reservation.eater_id r' = Reservation.eater_id r
        /\ Reservation.restaurant_id r' = Reservation.restaurant_id r
        /\ Reservation.table_id r' = Reservation.table_id r
        /\ Reservation.reservation_date r' = Reservation.reservation_date r
        /\ Reservation.reservation_start_time r' = Reservation.reservation_start_time r
        /\ Reservation.reservation_end_time r' = Reservation.reservation_end_time r
        /\ Reservation.party_size r' = Reservation.party_size r)
  /\ (forall j, j <> i -> Reservation_get db' j = Reservation_get db j)
  /\ map Reservation.id (reservations db') = map Reservation.id (reservations db)
  /\ reservation_attendees db' = reservation_attendees db
  /\ same_static db db'
  /\ delete_reservation env i true db' = (db', (true, message)).
Proof.
  unfold delete_reservation at 1.
  destruct (Reservation_get db i) as [r|] eqn:E; [|discriminate].
  destruct (commit_error env) eqn:Ec; [discriminate|].
  pose proof (Reservation_get_Some _ _ _ E) as [_ Hi]. rewrite Hi.
  intros H. injection H as <- <-.
  set (f := fun r => if Reservation.id r =? i then Reservation.set_is_active false r else r).
  assert (G : forall j, Reservation_get
                          (with_reservations db (map f (reservations db))
                             (reservation_attendees db)) j
                        = option_map f (Reservation_get db j))
    by (intros j; apply find_deactivated).
  split; [reflexivity|]. split; [|split; [|split; [|split; [|split]]]].
  - exists r, (Reservation.set_is_active false r). split; [reflexivity|].
    split; [|cbn; auto 12].
    rewrite G, E. simpl. unfold f. now rewrite Hi, Z.eqb_refl.
  - intros j Hj. rewrite G. destruct (Reservation_get db j) as [x|] eqn:Ex; [|reflexivity].
    apply Reservation_get_Some in Ex as [_ Ex]. simpl. unfold f.
    destruct (Z.eqb_spec (Reservation.id x) i); [congruence | reflexivity].
  - apply map_id_deactivated.
  - reflexivity.
  - apply same_static_with_reservations.
  - unfold delete_reservation. rewrite G, E. cbn [option_map commit_error with_reservations].
    rewrite Ec.
    replace (Reservation.id (f r)) with i
      by (unfold f; rewrite Hi, Z.eqb_refl; symmetry; exact Hi).
    unfold with_reservations.
    cbn [eaters endorsements restaurants restaurant_hours tables reservations
         reservation_attendees eater_dietary_restrictions restaurant_endorsements
         restriction_endorsement_mappings].
    rewrite map_map. do 2 f_equal. apply map_ext. intros x. unfold f.
    destruct (Reservation.id x =? i) eqn:Ex; cbn [Reservation.id Reservation.set_is_active];
      rewrite Ex; reflexivity.
Qed.

Lemma soft_delete_keeps_row_witness :
  delete_reservation Sample.env_ok 1 true Sample.db1
  = (Sample.db2, (true, "Reservation marked as deleted"))
  /\ delete_reservation Sample.env_ok 1 true Sample.db2
     = (Sample.db2, (true, "Reservation marked as deleted")).
Proof.
  split; [reflexivity|].
  exact (proj2 (proj2 (proj2 (proj2 (proj2 (proj2
           (soft_delete_keeps_row Sample.env_ok 1 Sample.db1 Sample.db2
              "Reservation marked as deleted" eq_refl))))))).
Defined.

Lemma filter_deactivated (i : Z) (g g' : Reservation.t -> bool) (rs : list Reservation.t) :
  (forall r, g r = true -> Reservation.is_active r = true) ->
  (forall r, Reservation.id r <> i -> g r = g' r) ->
  filter g (map (fun r => if Reservation.id r =? i
                          then Reservation.set_is_active false r else r) rs)
  = filter g' (filter (fun r => negb (Reservation.id r =? i)) rs).
Proof.
  intros Ha Hg. induction rs as [|x l IH]; simpl; [reflexivity|].
  destruct (Z.eqb_spec (Reservation.id x) i) as [E|E]; simpl.
  - destruct (g (Reservation.set_is_active false x)) eqn:Eg; [|exact IH].
    apply Ha in Eg. discriminate.
  - rewrite (Hg x E), IH. reflexivity.
Qed.

Lemma existsb_filter_implied {A} (g h : A -> bool) (l : list A) :
  (forall x, g x = true -> h x = true) -> existsb g (filter h l) = existsb g l.
Proof.
  intros H. induction l as [|x l IH]; simpl; [reflexivity|].
  destruct (h x) eqn:Eh; simpl; [now rewrite IH|].
  destruct (g x) eqn:Eg; [|exact IH]. rewrite (H x Eg) in Eh. discriminate.
Qed.

(** The store after a successful soft delete and after a successful hard
    delete of the reservations with the identifier [i]. *)
Lemma delete_modes_lists (db : DB) (i : Z) :
  let ds := with_reservations db
              (map (fun r => if Reservation.id r =? i
                             then Reservation.set_is_active false r else r)
                   (reservations db))
              (reservation_attendees db) in
  let dh := with_reservations db
              (filter (fun r => negb (Reservation.id r =? i)) (reservations db))
              (filter (fun row => negb (fst row =? i)) (reservation_attendees db)) in
  (forall p date_obj,
     all_eater_reservations ds p date_obj = all_eater_reservations dh p date_obj)
  /\ (forall restaurant_id date_obj,
        day_reservations ds restaurant_id date_obj
        = day_reservations dh restaurant_id date_obj).
Proof.
  intros ds dh. split.
  - intros p date_obj.
    unfold all_eater_reservations, host_reservations, attending_reservations, ds, dh.
    cbn [with_reservations reservations reservation_attendees eaters].
    f_equal. f_equal.
    + apply filter_deactivated; [|reflexivity].
      intros r H. apply andb_true_iff in H as [_ H]. exact H.
    + apply filter_deactivated.
      * intros r H. apply andb_true_iff in H as [_ H]. exact H.
      * intros r Hr. f_equal. f_equal. symmetry. apply existsb_filter_implied.
        intros [j q] H. cbn [fst snd] in *.
        apply andb_true_iff in H as [H _]. apply andb_true_iff in H as [H _].
        apply Z.eqb_eq in H. subst j. apply negb_true_iff. now apply Z.eqb_neq.
  - intros restaurant_id date_obj. unfold day_reservations, ds, dh.
    cbn [with_reservations reservations].
    apply filter_deactivated; [|reflexivity].
    intros r H. apply andb_true_iff in H as [_ H]. exact H.
Qed.

(** X17. The availability checks do not tell a soft delete from a hard
    delete. After the delete of a reservation, carried out softly or hard,
    [check_eater_availability], [check_table_availability] and
    [is_time_available_for_reservation] give the same result for every
    request. *)
Theorem delete_modes_agree (env : Env) (i : Z) (db : DB) :
  let ds := fst (delete_reservation env i true db) in
  let dh := fst (delete_reservation env i false db) in
  (forall p date_obj start_time end_time,
     check_eater_availability ds p date_obj start_time end_time
     = check_eater_availability dh p date_obj start_time end_time)
  /\ (forall now restaurant_id party_size date_obj start_time end_time,
        check_table_availability ds now restaurant_id party_size date_obj
          start_time end_time
        = check_table_availability dh now restaurant_id party_size date_obj
            start_time end_time)
  /\ (forall restaurant date_obj start_time end_time num_of_eaters,
        is_time_available_for_reservation ds restaurant date_obj start_time end_time
          num_of_eaters
        = is_time_available_for_reservation dh restaurant date_obj start_time end_time
            num_of_eaters).
Proof.
  unfold delete_reservation.
  destruct (Reservation_get db i) as [r|] eqn:E; [|cbn [fst]; auto].
  destruct (commit_error env); [cbn [fst]; auto|].
  apply Reservation_get_Some in E as [_ ->]. cbn [fst].
  destruct (delete_modes_lists db i) as [H1 H2].
  split; [|split].
  - intros. apply check_eater_availability_ext; [reflexivity | apply H1].
  - intros. apply check_table_availability_ext; [reflexivity | apply H2 | reflexivity].
  - intros. unfold is_time_available_for_reservation.
    cbn [with_reservations reservations tables].
    destruct (filter _ (tables db)) as [|u us]; [reflexivity|].
    match goal with
    | |- context [filter ?g (map _ (reservations db))] =>
        rewrite (filter_deactivated i g g); [reflexivity | | reflexivity]
    end.
    intros x H. apply andb_true_iff in H as [_ H]. exact H.
Qed.

Lemma filter_all_true {A} (p : A -> bool) (l : list A) :
  (forall x, In x l -> p x = true) -> filter p l = l.
Proof.
  induction l as [|x l IH]; simpl; intros H; [reflexivity|].
  rewrite (H x (or_introl eq_refl)), IH; [reflexivity|]. intros y Hy. apply H. now right.
Qed.

Lemma filter_all_false {A} (p : A -> bool) (l : list A) :
  (forall x, In x l -> p x = false) -> filter p l = [].
Proof.
  induction l as [|x l IH]; simpl; intros H; [reflexivity|].
  rewrite (H x (or_introl eq_refl)). apply IH. intros y Hy. apply H. now right.
Qed.

(** X18. A booking followed by the hard delete of the reservation it made
    restores the store. In a store reached from an empty reservation
    store, when [create_reservation] succeeds with the reservation [r] and
    the commit of the delete does not fail, the hard delete of the
    identifier of [r] succeeds and gives back the store as it was before the
    booking. *)
Theorem create_then_hard_delete (db0 : DB) (ops : list Op) (env env' : Env)
    (eater_id restaurant_id : Z) (reservation_date reservation_start_time : string)
    (attendee_ids : option (list Z)) (guests_count : Z) (db' : DB) (message : string)
    (r : Reservation.t) :
  empty_store db0 ->
  create_reservation env eater_id restaurant_id reservation_date
    reservation_start_time attendee_ids guests_count (run ops db0)
  = (db', (true, message, Some r)) ->
  commit_error env' = None ->
  delete_reservation env' (Reservation.id r) false db'
  = (run ops db0, (true, "Reservation permanently deleted")).
Proof.
  intros Hempty Hc Hcommit.
  destruct (run_wellformed ops db0 (empty_store_wellformed db0 Hempty))
    as [_ _ W3 _ _ _ _].
  set (db := run ops db0) in *.
  apply create_reservation_effect in Hc
    as (restaurant & host & attendees & date_obj & table & t & others
        & _ & -> & _ & _ & _ & Er).
  assert (Hfresh : forall x, In x (reservations db) -> Reservation.id x <> Reservation.id r).
  { intros x Hx. pose proof (next_reservation_id_fresh db x Hx) as L.
    rewrite Er. cbn [Reservation.id]. lia. }
  unfold delete_reservation.
  rewrite (Reservation_get_app_new db _ _ r (Reservation.id r) eq_refl Hfresh).
  rewrite Z.eqb_refl, Hcommit. cbn [with_reservations reservations reservation_attendees].
  rewrite !filter_app.
  rewrite (filter_all_true _ (reservations db)).
  2:{ intros x Hx. apply negb_true_iff, Z.eqb_neq. now apply Hfresh. }
  rewrite (filter_all_true _ (reservation_attendees db)).
  2:{ intros [j p] Hrow. destruct (W3 j p Hrow) as [(x & Hx & Ex) _].
      cbn [fst]. apply negb_true_iff, Z.eqb_neq. rewrite <- Ex. now apply Hfresh. }
  rewrite (filter_all_false _ (map _ _)).
  2:{ intros [j p] Hrow. apply in_map_iff in Hrow as (e & Ee & _). injection Ee as <- _.
      cbn [fst]. now rewrite Z.eqb_refl. }
  cbn [filter]. rewrite Z.eqb_refl. cbn [negb]. rewrite !app_nil_r.
  f_equal. exact (with_reservations_same db).
Qed.

Lemma create_then_hard_delete_witness :
  empty_store Sample.db0
  /\ delete_reservation Sample.env_ok 1 false Sample.db1
     = (Sample.db0, (true, "Reservation permanently deleted")).
Proof.
  split; [exact (conj eq_refl eq_refl)|].
  exact (create_then_hard_delete Sample.db0 [] Sample.env_ok Sample.env_ok 1 1
           "2025-05-01" "18:00" (Some [2]) 0 Sample.db1
           "Reservation created successfully" Sample.booking1
           (conj eq_refl eq_refl) eq_refl eq_refl).
Defined.

(* ================================================================= *)
(** ** The checks of the search *)

Lemma match_nil_len {A} (p : A -> bool) (S : list A) :
  match S with [] => false | _ :: _ => Py.len (filter p S) >? 0 end
  = (Py.len (filter p S) >? 0).
Proof. now destruct S. Qed.

Lemma is_time_available_open_table (db : DB) (restaurant : Restaurant.t) (date_obj : date)
    (start_time end_time : string) (num_of_eaters : Z) :
  is_time_available_for_reservation db restaurant date_obj start_time end_time
    num_of_eaters = true
  <-> exists t, open_table db restaurant date_obj start_time end_time num_of_eaters t.
Proof.
  unfold is_time_available_for_reservation.
  set (S := filter (fun t => (Table.restaurant_id t =? Restaurant.id restaurant)
                             && (Table.capacity t >=? num_of_eaters)) (tables db)).
  assert (HS : forall t, In t S <-> In t (tables db)
                                    /\ Table.restaurant_id t = Restaurant.id restaurant
                                    /\ num_of_eaters <= Table.capacity t).
  { intros t. unfold S. rewrite filter_In, andb_true_iff, Z.eqb_eq, Z.geb_le. tauto. }
  rewrite match_nil_len, filter_nonempty.
  split.
  - intros (t & Ht & Hn). exists t. apply HS in Ht as Hfit.
    destruct Hfit as (H1 & H2 & H3). repeat split; trivial.
    intros r Hr (B1 & B2 & B3 & B4 & e & B5 & B6 & B7).
    apply negb_true_iff in Hn.
    assert (Hm : mem_option (Table.id t)
                   (map Reservation.table_id
                      (filter (fun r =>
                                 (Reservation.restaurant_id r =? Restaurant.id restaurant)
                                 && match Reservation.table_id r with
                                    | Some i => mem i (map Table.id S)
                                    | None => false
                                    end
                                 && date_eqb (Reservation.reservation_date r) date_obj
                                 && match Reservation.reservation_end_time r with
                                    | Some e => String.ltb start_time e
                                    | None => false
                                    end
                                 && String.ltb (Reservation.reservation_start_time r) end_time
                                 && Reservation.is_active r)
                              (reservations db))) = true).
    { apply mem_option_In. rewrite <- B4. apply in_map. apply filter_In.
      split; [exact Hr|].
      rewrite B1, B2, B3, B4, B5, B6, B7, Z.eqb_refl, date_eqb_refl.
      rewrite !andb_true_r. apply mem_In. now apply in_map. }
    congruence.
  - intros (t & H1 & H2 & H3 & Hfree).
    assert (Ht : In t S) by (apply HS; auto).
    exists t. split; [exact Ht|]. apply negb_true_iff.
    match goal with |- ?m = false => destruct m eqn:Em end; [|reflexivity].
    apply mem_option_In, in_map_iff in Em as (r & Et & Hr).
    apply filter_In in Hr as [Hr Hq].
    rewrite <- !andb_assoc in Hq.
    apply andb_true_iff in Hq as [Q1 Hq]. apply andb_true_iff in Hq as [_ Hq].
    apply andb_true_iff in Hq as [Q3 Hq]. apply andb_true_iff in Hq as [Q4 Hq].
    apply andb_true_iff in Hq as [Q5 Q6].
    exfalso. apply (Hfree r Hr). apply Z.eqb_eq in Q1. apply date_eqb_eq in Q3.
    destruct (Reservation.reservation_end_time r) as [e|] eqn:Ee; [|discriminate].
    repeat split; trivial. exists e. auto.
Qed.

Lemma restaurant_has_table_iff (db : DB) (restaurant : Restaurant.t) (group_size : Z) :
  restaurant_has_table_for_group db restaurant group_size = true
  <-> exists t, In t (tables db)
                /\ Table.restaurant_id t = Restaurant.id restaurant
                /\ group_size <= Table.capacity t.
Proof.
  unfold restaurant_has_table_for_group.
  set (p := fun t => (Table.restaurant_id t =? Restaurant.id restaurant)
                     && (Table.capacity t >=? group_size)).
  assert (Hp : forall t, In t (filter p (tables db))
                         <-> In t (tables db)
                             /\ Table.restaurant_id t = Restaurant.id restaurant
                             /\ group_size <= Table.capacity t).
  { intros t. unfold p. rewrite filter_In, andb_true_iff, Z.eqb_eq, Z.geb_le. tauto. }
  destruct (filter p (tables db)) as [|u us]; split.
  - discriminate.
  - intros (t & Ht). apply Hp in Ht. destruct Ht.
  - intros _. exists u. apply Hp. now left.
  - reflexivity.
Qed.

(** X19. What the two checks of the search decide.
    [restaurant_has_table_for_group] is true exactly when the restaurant has
    a table with at least as many seats as the group.
    [is_time_available_for_reservation] is true exactly when it has such a
    table that no active reservation of the restaurant on the date holds
    with a stored end after the requested start and a stored start before
    the requested end, the times compared as strings. The first check is
    implied by the second. *)
Theorem search_checks_decide (db : DB) (restaurant : Restaurant.t) (date_obj : date)
    (start_time end_time : string) (n : Z) :
  (restaurant_has_table_for_group db restaurant n = true
   <-> exists t, In t (tables db)
                 /\ Table.restaurant_id t = Restaurant.id restaurant
                 /\ n <= Table.capacity t)
  /\ (is_time_available_for_reservation db restaurant date_obj start_time end_time n = true
      <-> exists t,
            In t (tables db)
            /\ Table.restaurant_id t = Restaurant.id restaurant
            /\ n <= Table.capacity t
            /\ forall r, In r (reservations db) ->
                 ~ blocks (Restaurant.id restaurant) date_obj start_time end_time t r)
  /\ (is_time_available_for_reservation db restaurant date_obj start_time end_time n = true
      -> restaurant_has_table_for_group db restaurant n = true).
Proof.
  split; [apply restaurant_has_table_iff|].
  split; [apply is_time_available_open_table|].
  intros H. apply is_time_available_open_table in H as (t & H1 & H2 & H3 & _).
  apply restaurant_has_table_iff. eauto.
Qed.

(** X20. A smaller group finds a table wherever a larger one does: both
    checks of the search are monotone in the size of the group. *)
Theorem search_checks_monotone (db : DB) (restaurant : Restaurant.t) (date_obj : date)
    (start_time end_time : string) (n m : Z) :
  n <= m ->
  (restaurant_has_table_for_group db restaurant m = true ->
   restaurant_has_table_for_group db restaurant n = true)
  /\ (is_time_available_for_reservation db restaurant date_obj start_time end_time m = true ->
      is_time_available_for_reservation db restaurant date_obj start_time end_time n = true).
Proof.
  intros Hnm. split; intros H.
  - apply restaurant_has_table_iff in H as (t & H1 & H2 & H3).
    apply restaurant_has_table_iff. exists t. repeat split; trivial. lia.
  - apply is_time_available_open_table in H as (t & H1 & H2 & H3 & H4).
    apply is_time_available_open_table. exists t. repeat split; trivial. lia.
Qed.

Lemma search_checks_monotone_witness :
  is_time_available_for_reservation Sample.db1 (Restaurant.mk 1 "Lardo" true) Sample.may1
    "19:00" "21:00" 2 = true.
Proof.
  apply (search_checks_monotone Sample.db1 (Restaurant.mk 1 "Lardo" true) Sample.may1
           "19:00" "21:00" 2 6); [lia | reflexivity].
Defined.

(* ================================================================= *)
(** ** The time strings of the search *)

Lemma digit_inv (a : ascii) (x : Z) :
  Strptime.digit a = Some x -> 0 <= x < 10 /\ a = digit_char x.
Proof.
  destruct a as [[] [] [] [] [] [] [] []]; vm_compute; intros H;
    try discriminate H; injection H as <-; (split; [split; [discriminate | reflexivity]
                                                  | reflexivity]).
Qed.

Lemma two_inv (lo1 hi1 lo2 hi2 : Z) (s rest : string) (v : Z) :
  Strptime.two lo1 hi1 lo2 hi2 s = Some (v, rest) ->
  exists x y, 0 <= x < 10 /\ 0 <= y < 10
              /\ s = digits true x y ++ rest /\ v = digits_value true x y.
Proof.
  unfold Strptime.two. destruct s as [|a [|b s']]; try discriminate.
  destruct (Strptime.digit a) as [x|] eqn:Ea; [|discriminate].
  destruct (Strptime.digit b) as [y|] eqn:Eb; [|discriminate].
  destruct (_ && _); [|discriminate]. intros H. injection H as <- <-.
  apply digit_inv in Ea as [Hx ->]. apply digit_inv in Eb as [Hy ->].
  exists x, y. auto.
Qed.

Lemma one_inv (lo hi : Z) (s rest : string) (v : Z) :
  Strptime.one lo hi s = Some (v, rest) ->
  exists x, 0 <= x < 10 /\ s = digits false x 0 ++ rest /\ v = digits_value false x 0.
Proof.
  unfold Strptime.one. destruct s as [|a s']; [discriminate|].
  destruct (Strptime.digit a) as [x|] eqn:Ea; [|discriminate].
  destruct (_ && _); [|discriminate]. intros H. injection H as <- <-.
  apply digit_inv in Ea as [Hx ->]. exists x. auto.
Qed.

Lemma dir_H_inv (s rest : string) (v : Z) :
  Strptime.dir_H s = Some (v, rest) ->
  exists b x y, 0 <= x < 10 /\ 0 <= y < 10
                /\ s = digits b x y ++ rest /\ v = digits_value b x y.
Proof.
  unfold Strptime.dir_H, Strptime.orelse.
  destruct (Strptime.two 2 2 0 3 s) as [[v1 r1]|] eqn:E1.
  { intros H. injection H as <- <-. apply two_inv in E1 as (x & y & ?). exists true, x, y.
    tauto. }
  destruct (Strptime.two 0 1 0 9 s) as [[v2 r2]|] eqn:E2.
  { intros H. injection H as <- <-. apply two_inv in E2 as (x & y & ?). exists true, x, y.
    tauto. }
  intros H. apply one_inv in H as (x & ? & ? & ?). exists false, x, 0.
  repeat split; trivial; lia.
Qed.

Lemma dir_M_inv (s rest : string) (v : Z) :
  Strptime.dir_M s = Some (v, rest) ->
  exists b x y, 0 <= x < 10 /\ 0 <= y < 10
                /\ s = digits b x y ++ rest /\ v = digits_value b x y.
Proof.
  unfold Strptime.dir_M, Strptime.orelse.
  destruct (Strptime.two 0 5 0 9 s) as [[v1 r1]|] eqn:E1.
  { intros H. injection H as <- <-. apply two_inv in E1 as (x & y & ?). exists true, x, y.
    tauto. }
  intros H. apply one_inv in H as (x & ? & ? & ?). exists false, x, 0.
  repeat split; trivial; lia.
Qed.

Lemma lit_inv (c : ascii) (s rest : string) :
  Strptime.lit c s = Some rest -> s = String c rest.
Proof.
  unfold Strptime.lit. destruct s as [|a s']; [discriminate|].
  destruct (Ascii.eqb_spec c a) as [->|]; [|discriminate]. intros H. now injection H as <-.
Qed.

(** The strings that [strptime] accepts with the format "%H:%M". *)
Lemma hm_inv (s : string) (t : time) :
  Strptime.hm s = Some t ->
  exists b1 x y b2 z w,
    (0 <= x < 10 /\ 0 <= y < 10) /\ (0 <= z < 10 /\ 0 <= w < 10)
    /\ s = digits b1 x y ++ ":" ++ digits b2 z w
    /\ py_time (digits_value b1 x y) (digits_value b2 z w) 0 = Some t.
Proof.
  unfold Strptime.hm.
  destruct (Strptime.dir_H s) as [[h s1]|] eqn:EH; [|discriminate].
  destruct (Strptime.lit ":" s1) as [s2|] eqn:EL; [|discriminate].
  destruct (Strptime.dir_M s2) as [[m [|? ?]]|] eqn:EM; try discriminate.
  intros Ht.
  apply dir_H_inv in EH as (b1 & x & y & Hx & Hy & -> & ->).
  apply lit_inv in EL as ->.
  apply dir_M_inv in EM as (b2 & z & w & Hz & Hw & -> & ->).
  exists b1, x, y, b2, z, w. repeat split; try tauto.
  destruct b2; reflexivity.
Qed.

Lemma contains_app (c : ascii) (a r : string) : Py.contains c (a ++ String c r) = true.
Proof.
  induction a as [|x a IH]; simpl; [now rewrite Ascii.eqb_refl|].
  rewrite IH. apply orb_true_r.
Qed.

Lemma dir_H_lit_contains (s s1 s2 : string) (h : Z) :
  Strptime.dir_H s = Some (h, s1) -> Strptime.lit ":" s1 = Some s2 ->
  Py.contains ":" s = true.
Proof.
  intros EH EL. apply dir_H_inv in EH as (b & x & y & _ & _ & -> & _).
  apply lit_inv in EL as ->. apply contains_app.
Qed.

(** Without a colon neither format of [get_potential_restaurants]
    matches. *)
Lemma strptime_needs_colon (s : string) :
  Py.contains ":" s = false ->
  Strptime.orelse (Strptime.hm s) (Strptime.hms s) = None.
Proof.
  intros Hc. unfold Strptime.hm, Strptime.hms.
  destruct (Strptime.dir_H s) as [[h s1]|] eqn:EH; [|reflexivity].
  destruct (Strptime.lit ":" s1) as [s2|] eqn:EL; [|reflexivity].
  rewrite (dir_H_lit_contains _ _ _ _ EH EL) in Hc. discriminate.
Qed.

(** A string that "%H:%M" accepts is accepted by [parse_time_string], as
    the same time. *)
Lemma hm_parse_time_string (s : string) (t : time) :
  Strptime.hm s = Some t -> parse_time_string s = (true, "", Some t).
Proof.
  intros H. apply hm_inv in H as (b1 & x & y & b2 & z & w & [Hx Hy] & [Hz Hw] & -> & Ht).
  pose (P := fun (b1 b2 : bool) (x y z w : Z) =>
    match py_time (digits_value b1 x y) (digits_value b2 z w) 0 with
    | None => true
    | Some t =>
        match parse_time_string (digits b1 x y ++ ":" ++ digits b2 z w) with
        | (true, EmptyString, Some t') =>
            (hour t' =? hour t) && (minute t' =? minute t) && (second t' =? second t)
        | _ => false
        end
    end).
  pose (ten := map Z.of_nat (seq 0 10)).
  assert (HP : forall b1 b2,
             forallb (fun x => forallb (fun y => forallb (fun z =>
               forallb (P b1 b2 x y z) ten) ten) ten) ten = true)
    by (intros [] []; vm_compute; reflexivity).
  assert (G : P b1 b2 x y z w = true).
  { specialize (HP b1 b2).
    apply (Z_range_forallb _ 10 HP x) in Hx.
    apply (Z_range_forallb _ 10 Hx y) in Hy.
    apply (Z_range_forallb _ 10 Hy z) in Hz.
    exact (Z_range_forallb _ 10 Hz w Hw). }
  unfold P in G. rewrite Ht in G.
  destruct (parse_time_string _) as [[[] [|? ?]] [[h' m' s']|]]; try discriminate.
  destruct t as [h m s0]. cbn [hour minute second] in G.
  apply andb_true_iff in G as [G H3]. apply andb_true_iff in G as [H1 H2].
  apply Z.eqb_eq in H1, H2, H3. now subst.
Qed.

(** X21. The search needs a colon. For a time string without a colon
    [get_potential_restaurants] returns no restaurant, whatever the
    restrictions, so that [find_available_restaurants] returns none either:
    the hour-only form that the booking path accepts finds nothing. *)
Theorem search_needs_colon (db : DB) (reservation_time : string) :
  Py.contains ":" reservation_time = false ->
  (forall restrictions, get_potential_restaurants db reservation_time restrictions = [])
  /\ (forall env eaters reservation_date duration additional_guests l,
        find_available_restaurants db env reservation_time eaters reservation_date
          duration additional_guests = Some l ->
        l = []).
Proof.
  intros Hc.
  assert (G : forall restrictions,
             get_potential_restaurants db reservation_time restrictions = []).
  { intros restrictions. unfold get_potential_restaurants.
    now rewrite (strptime_needs_colon _ Hc). }
  split; [exact G|].
  intros env eaters reservation_date duration additional_guests l.
  unfold find_available_restaurants. rewrite G.
  destruct (get_reservation_end_time _ _ _ _); [|discriminate].
  intros H. now injection H as <-.
Qed.

Lemma search_needs_colon_witness :
  parse_time_string "18" = (true, "", Some (mk_time 18 0 0))
  /\ get_potential_restaurants Sample.db0 "18" [] = []
  /\ get_potential_restaurants Sample.db0 "18:00" [] <> [].
Proof.
  split; [reflexivity|]. split; [|discriminate].
  exact (proj1 (search_needs_colon Sample.db0 "18" eq_refl) []).
Defined.

(** X22. A time string that the search reads with the format "%H:%M" is
    accepted by [parse_time_string], as the same time of day, so that the
    search and the booking path agree on the start of the request. *)
Theorem search_time_accepted_by_booking (s : string) (t : time) :
  Strptime.hm s = Some t ->
  parse_time_string s = (true, "", Some t)
  /\ second t = 0
  /\ Py.contains ":" s = true.
Proof.
  intros H. pose proof (hm_parse_time_string s t H) as P. split; [exact P|].
  split; [now apply parse_time_string_ok in P|].
  destruct (Py.contains ":" s) eqn:Hc; [reflexivity|].
  pose proof (strptime_needs_colon s Hc) as N. rewrite H in N. discriminate.
Qed.

Lemma search_time_accepted_by_booking_witness :
  Strptime.hm "9:05" = Some (mk_time 9 5 0)
  /\ parse_time_string "9:05" = (true, "", Some (mk_time 9 5 0)).
Proof.
  split; [reflexivity|].
  exact (proj1 (search_time_accepted_by_booking "9:05" (mk_time 9 5 0) eq_refl)).
Defined.

Lemma add_and_format_hours (date_obj : date) (h m k : Z) :
  0 <= h <= 23 -> 0 <= m <= 59 ->
  add_and_format date_obj (mk_time h m 0) 0 (timedelta_hours k)
  = if end_in_calendar date_obj (mk_time h m 0) k
    then Some (hhmm ((h + k) mod 24) m) else None.
Proof.
  intros Hh Hm. unfold add_and_format, end_in_calendar, timedelta_hours, day_microseconds.
  cbn [hour minute second].
  pose proof (Z.div_mod (h + k) 24 ltac:(lia)) as Hdm.
  pose proof (Z.mod_pos_bound (h + k) 24 ltac:(lia)) as Hr.
  set (q := (h + k) / 24) in *. set (r := (h + k) mod 24) in *.
  set (total := ((h * 60 + m) * 60 + 0) * 1000000 + 0 + k * 3600 * 1000000).
  assert (Et : total = 86400 * 1000000 * q + (r * 3600 + m * 60) * 1000000)
    by (unfold total; lia).
  assert (Eq : total / (86400 * 1000000) = q).
  { symmetry. apply (Z.div_unique _ _ _ ((r * 3600 + m * 60) * 1000000)); [lia | exact Et]. }
  assert (Em : total mod (86400 * 1000000) = (r * 3600 + m * 60) * 1000000).
  { symmetry. apply (Z.mod_unique _ _ q); [lia | exact Et]. }
  rewrite Eq, Em.
  assert (E1 : (r * 3600 + m * 60) * 1000000 / (3600 * 1000000) = r).
  { symmetry. apply (Z.div_unique _ _ _ (m * 60 * 1000000)); lia. }
  assert (E2 : ((r * 3600 + m * 60) * 1000000 / (60 * 1000000)) mod 60 = m).
  { replace ((r * 3600 + m * 60) * 1000000 / (60 * 1000000)) with (r * 60 + m).
    - symmetry. apply (Z.mod_unique _ _ r); lia.
    - apply (Z.div_unique _ _ _ 0); lia. }
  rewrite E1, E2. unfold hhmm. rewrite !fmt_02d_two_digits by lia. reflexivity.
Qed.

(** X23. The end time of the search agrees with the end time of the
    booking path. For a time string that "%H:%M" accepts and a duration of
    [k] hours, [get_reservation_end_time] returns what
    [calculate_end_time] returns for [k] hours, the start advanced by [k]
    hours modulo 24 and written HH:MM, as long as the end lies in the years
    1 to 9999; otherwise the addition raises. *)
Theorem search_end_time_agrees (env : SearchEnv) (now : time) (s : string) (t : time)
    (date_obj : date) (k : Z) :
  Strptime.hm s = Some t ->
  get_reservation_end_time env s date_obj (timedelta_hours k)
  = if end_in_calendar date_obj t k
    then Some (calculate_end_time now s k) else None.
Proof.
  intros H. pose proof (hm_parse_time_string s t H) as P.
  unfold get_reservation_end_time. rewrite H.
  rewrite (calculate_end_time_ok now s "" t k P).
  apply parse_time_string_ok in P as (_ & Hh & Hm & Hs & _).
  destruct t as [h m s0]. cbn [hour minute second] in *. subst s0.
  now apply add_and_format_hours.
Qed.

Lemma search_end_time_agrees_witness :
  get_reservation_end_time (mk_SearchEnv Sample.may1 (Sample.t 12 0) 0) "23:30" Sample.may1
    (timedelta_hours 2)
  = Some "01:30"
  /\ calculate_end_time (Sample.t 12 0) "23:30" 2 = "01:30".
Proof.
  split; [|reflexivity].
  exact (search_end_time_agrees (mk_SearchEnv Sample.may1 (Sample.t 12 0) 0) (Sample.t 12 0)
           "23:30" (Sample.t 23 30) Sample.may1 2 eq_refl).
Defined.

(* ================================================================= *)
(** ** [find_available_restaurants] *)

Lemma get_potential_restaurants_sound (db : DB) (reservation_time : string)
    (restrictions : list Z) (x : Restaurant.t) :
  In x (get_potential_restaurants db reservation_time restrictions) ->
  In x (restaurants db)
  /\ Restaurant.accepts_reservations x = true
  /\ exists res_time,
       Strptime.orelse (Strptime.hm reservation_time) (Strptime.hms reservation_time)
       = Some res_time
       /\ open_at db res_time x = true.
Proof.
  intros H.
  destruct (Strptime.orelse (Strptime.hm reservation_time) (Strptime.hms reservation_time))
    as [res_time|] eqn:E.
  - destruct (proj1 (In_get_potential_restaurants db _ _ res_time x E) H)
      as (H1 & H2 & H3 & _).
    eauto.
  - unfold get_potential_restaurants in H. rewrite E in H. destruct H.
Qed.

Lemma find_available_restaurants_filter (db : DB) (env : SearchEnv)
    (reservation_time : string) (eaters : list Eater.t) (reservation_date : option string)
    (duration : timedelta) (additional_guests : Z) :
  find_available_restaurants db env reservation_time eaters reservation_date duration
    additional_guests
  = option_map
      (fun end_time =>
         filter (fun restaurant =>
                   is_time_available_for_reservation db restaurant
                     (parse_reservation_date env reservation_date) reservation_time
                     end_time (Py.len eaters + additional_guests))
                (get_potential_restaurants db reservation_time
                   (aggregate_dietary_restrictions db eaters)))
      (get_reservation_end_time env reservation_time
         (parse_reservation_date env reservation_date) duration).
Proof.
  unfold find_available_restaurants.
  destruct (get_reservation_end_time _ _ _ _) as [end_time|]; [|reflexivity].
  simpl. f_equal. apply filter_ext. intros x.
  destruct (is_time_available_for_reservation _ _ _ _ _ _) eqn:E; [|apply andb_false_r].
  apply is_time_available_open_table in E as (t & H1 & H2 & H3 & _).
  rewrite andb_true_r. apply restaurant_has_table_iff. eauto.
Qed.

(** X24. What a search returns. When [find_available_restaurants] returns,
    the end time was computed, and a restaurant is returned exactly when
    [get_potential_restaurants] returns it for the restrictions of the
    eaters and it has a table with at least as many seats as eaters and
    guests that no active reservation blocks on the date; every restaurant
    returned is a restaurant of the database that accepts reservations and
    whose hours include the requested time. The separate check that a table
    is large enough decides nothing. *)
Theorem find_available_restaurants_members (db : DB) (env : SearchEnv)
    (reservation_time : string) (eaters : list Eater.t) (reservation_date : option string)
    (duration : timedelta) (additional_guests : Z) (l : list Restaurant.t) :
  find_available_restaurants db env reservation_time eaters reservation_date duration
    additional_guests = Some l ->
  exists end_time,
    get_reservation_end_time env reservation_time
      (parse_reservation_date env reservation_date) duration = Some end_time
    /\ (forall x,
          In x l
          <-> In x (get_potential_restaurants db reservation_time
                      (aggregate_dietary_restrictions db eaters))
              /\ exists t,
                   open_table db x (parse_reservation_date env reservation_date)
                     reservation_time end_time (Py.len eaters + additional_guests) t)
    /\ (forall x,
          In x l ->
          In x (restaurants db)
          /\ Restaurant.accepts_reservations x = true
          /\ exists res_time,
               Strptime.orelse (Strptime.hm reservation_time)
                 (Strptime.hms reservation_time) = Some res_time
               /\ open_at db res_time x = true).
Proof.
  rewrite find_available_restaurants_filter.
  destruct (get_reservation_end_time _ _ _ _) as [end_time|]; [|discriminate].
  simpl. intros H. injection H as <-. exists end_time. split; [reflexivity|].
  split.
  - intros x. rewrite filter_In, is_time_available_open_table. reflexivity.
  - intros x Hx. apply filter_In in Hx as [Hx _].
    now apply get_potential_restaurants_sound in Hx.
Qed.

Lemma find_available_restaurants_members_witness :
  exists l,
    find_available_restaurants Sample.db1 (mk_SearchEnv Sample.may1 (Sample.t 12 0) 0)
      "19:00" [Eater.mk 3 "Cy" "cy@example.org"] (Some "2025-05-01") (timedelta_hours 2) 1
    = Some l
    /\ forall x, In x l -> Restaurant.accepts_reservations x = true.
Proof.
  eexists. split; [reflexivity|]. intros x Hx.
  destruct (find_available_restaurants_members Sample.db1
              (mk_SearchEnv Sample.may1 (Sample.t 12 0) 0) "19:00"
              [Eater.mk 3 "Cy" "cy@example.org"] (Some "2025-05-01") (timedelta_hours 2) 1
              _ eq_refl)
    as (end_time & _ & _ & H).
  exact (proj1 (proj2 (H x Hx))).
Defined.

(** X25. Fewer guests never lose a restaurant: when a search returns for a
    number of additional guests, the search with fewer guests and the same
    other arguments returns too, and every restaurant of the first result
    is in the second. *)
Theorem find_available_restaurants_monotone (db : DB) (env : SearchEnv)
    (reservation_time : string) (eaters : list Eater.t) (reservation_date : option string)
    (duration : timedelta) (g g' : Z) (l' : list Restaurant.t) :
  g <= g' ->
  find_available_restaurants db env reservation_time eaters reservation_date duration g'
  = Some l' ->
  exists l,
    find_available_restaurants db env reservation_time eaters reservation_date duration g
    = Some l
    /\ forall x, In x l' -> In x l.
Proof.
  intros Hg. rewrite !find_available_restaurants_filter.
  destruct (get_reservation_end_time _ _ _ _) as [end_time|]; [|discriminate].
  simpl. intros H. injection H as <-. eexists. split; [reflexivity|].
  intros x Hx. apply filter_In in Hx as [Hx Ha]. apply filter_In. split; [exact Hx|].
  apply is_time_available_open_table in Ha as (t & H1 & H2 & H3 & H4).
  apply is_time_available_open_table. exists t. repeat split; trivial. lia.
Qed.

Lemma find_available_restaurants_monotone_witness :
  exists l,
    find_available_restaurants Sample.db1 (mk_SearchEnv Sample.may1 (Sample.t 12 0) 0)
      "19:00" [Eater.mk 3 "Cy" "cy@example.org"] (Some "2025-05-01") (timedelta_hours 2) 0
    = Some l
    /\ In (Restaurant.mk 2 "Tartine" true) l.
Proof.
  destruct (find_available_restaurants_monotone Sample.db1
              (mk_SearchEnv Sample.may1 (Sample.t 12 0) 0) "19:00"
              [Eater.mk 3 "Cy" "cy@example.org"] (Some "2025-05-01") (timedelta_hours 2)
              0 3 [Restaurant.mk 1 "Lardo" true; Restaurant.mk 2 "Tartine" true]
              ltac:(lia) eq_refl)
    as (l & Hl & Hin).
  exists l. split; [exact Hl|]. apply Hin. right. left. reflexivity.
Defined.

Lemma set_add_fold (xs acc : list Z) :
  NoDup acc ->
  NoDup (fold_left (fun acc restriction => set_add restriction acc) xs acc)
  /\ forall x, In x (fold_left (fun acc restriction => set_add restriction acc) xs acc)
               <-> In x acc \/ In x xs.
Proof.
  revert acc. induction xs as [|y xs IH]; intros acc Hacc; simpl.
  - split; [exact Hacc | tauto].
  - assert (Hn : NoDup (set_add y acc)).
    { unfold set_add. destruct (mem y acc) eqn:Em; [exact Hacc|].
      apply NoDup_app; [exact Hacc | repeat constructor; intros [] |].
      intros x Hx [<-|[]]. apply mem_In in Hx. congruence. }
    destruct (IH _ Hn) as [H1 H2]. split; [exact H1|].
    intros x. rewrite H2. unfold set_add. destruct (mem y acc) eqn:Em.
    + apply mem_In in Em. split; [tauto|]. intros [H|[<-|H]]; auto.
    + rewrite in_app_iff. simpl. tauto.
Qed.

(** X26. [aggregate_dietary_restrictions] returns the set of the
    restrictions of the eaters: each identifier once, and an identifier is
    in it exactly when one of the eaters has a row with it in
    [eater_dietary_restrictions]. *)
Theorem aggregate_dietary_restrictions_set (db : DB) (eaters : list Eater.t) :
  NoDup (aggregate_dietary_restrictions db eaters)
  /\ forall x, In x (aggregate_dietary_restrictions db eaters)
               <-> exists e, In e eaters
                             /\ In (Eater.id e, x) (eater_dietary_restrictions db).
Proof.
  unfold aggregate_dietary_restrictions.
  assert (G : forall acc,
             NoDup acc ->
             NoDup (fold_left (fun restrictions eater =>
                                 fold_left (fun acc restriction => set_add restriction acc)
                                           (Eater_dietary_restrictions db eater)
                                           restrictions)
                              eaters acc)
             /\ forall x,
                  In x (fold_left (fun restrictions eater =>
                                     fold_left (fun acc restriction =>
                                                  set_add restriction acc)
                                               (Eater_dietary_restrictions db eater)
                                               restrictions)
                                  eaters acc)
                  <-> In x acc
                      \/ exists e, In e eaters
                                   /\ In (Eater.id e, x) (eater_dietary_restrictions db)).
  { induction eaters as [|e l IH]; intros acc Hacc; simpl.
    - split; [exact Hacc|]. intros x. split; [tauto|]. intros [H|(e & [] & _)]. exact H.
    - destruct (set_add_fold (Eater_dietary_restrictions db e) acc Hacc) as [H1 H2].
      destruct (IH _ H1) as [J1 J2]. split; [exact J1|].
      intros x. rewrite J2, H2. unfold Eater_dietary_restrictions.
      rewrite in_map_iff. split.
      + intros [[H|([i y] & Ey & Hy)]|(e' & He' & Hx)]; [now left | |right; eauto].
        apply filter_In in Hy as [Hy Hi]. cbn [fst snd] in *. apply Z.eqb_eq in Hi.
        subst. right. exists e. auto.
      + intros [H|(e' & [<-|He'] & Hx)]; [now left; left | |right; eauto].
        left. right. exists (Eater.id e, x). split; [reflexivity|].
        apply filter_In. split; [exact Hx | apply Z.eqb_refl]. }
  destruct (G [] (NoDup_nil _)) as [H1 H2]. split; [exact H1|].
  intros x. rewrite H2. simpl. tauto.
Qed.

(** X27. The search reads the date as the booking path does: a date string
    that [validate_reservation_time] accepts is the date
    [parse_reservation_date] returns for it, whatever the day of the
    search. *)
Theorem search_date_agrees_with_booking (db : DB) (env : SearchEnv)
    (restaurant : Restaurant.t) (reservation_date reservation_start_time message : string)
    (date_obj : date) :
  validate_reservation_time db restaurant reservation_date reservation_start_time
  = (true, message, Some date_obj) ->
  parse_reservation_date env (Some reservation_date) = date_obj.
Proof.
  intros H. apply validate_reservation_time_inv in H as [Ed _].
  unfold parse_reservation_date. destruct reservation_date as [|c s]; [discriminate|].
  now rewrite Ed.
Qed.

Lemma search_date_agrees_with_booking_witness :
  parse_reservation_date (mk_SearchEnv (mk_date 2024 2 29) (Sample.t 12 0) 0)
    (Some "2025-05-01")
  = Sample.may1.
Proof.
  exact (search_date_agrees_with_booking Sample.db0
           (mk_SearchEnv (mk_date 2024 2 29) (Sample.t 12 0) 0)
           (Restaurant.mk 1 "Lardo" true) "2025-05-01" "18:00" "" Sample.may1 eq_refl).
Defined.

(* ================================================================= *)
(** ** [get_reservation_details] *)

Lemma digit_digit_char (a : Z) : 0 <= a < 10 -> Strptime.digit (digit_char a) = Some a.
Proof.
  intros H.
  apply (Z_range_forallb
           (fun a => match Strptime.digit (digit_char a) with
                     | Some x => x =? a
                     | None => false
                     end) 10) in H; [|vm_compute; reflexivity].
  destruct (Strptime.digit (digit_char a)) as [x|]; [|discriminate].
  apply Z.eqb_eq in H. now subst.
Qed.

Lemma str_four_digits (y : Z) :
  1000 <= y <= 9999 ->
  Py.str y
  = String (digit_char (y / 1000))
      (String (digit_char (y / 100 mod 10))
         (String (digit_char (y / 10 mod 10))
            (String (digit_char (y mod 10)) EmptyString)))
  /\ 1000 * (y / 1000) + 100 * (y / 100 mod 10) + 10 * (y / 10 mod 10) + y mod 10 = y.
Proof.
  intros H.
  pose (P := fun y =>
    (y <? 1000)
    || (String.eqb (Py.str y)
          (String (digit_char (y / 1000))
             (String (digit_char (y / 100 mod 10))
                (String (digit_char (y / 10 mod 10))
                   (String (digit_char (y mod 10)) EmptyString))))
        && (1000 * (y / 1000) + 100 * (y / 100 mod 10) + 10 * (y / 10 mod 10) + y mod 10
            =? y))).
  assert (HP : P y = true).
  { pose proof (Z.div_mod y 100 ltac:(lia)) as Ey.
    assert (Hq : 0 <= y / 100 < 100)
      by (split; [apply Z.div_pos; lia | apply Z.div_lt_upper_bound; lia]).
    pose proof (Z.mod_pos_bound y 100 ltac:(lia)) as Hr.
    rewrite Ey.
    apply (Z_range_forallb
             (fun q => forallb (fun r => P (100 * q + r)) (map Z.of_nat (seq 0 100))) 100)
      in Hq; [|vm_compute; reflexivity].
    exact (Z_range_forallb (fun r => P (100 * (y / 100) + r)) 100 Hq (y mod 100) Hr). }
  unfold P in HP. apply orb_true_iff in HP as [HP|HP]; [apply Z.ltb_lt in HP; lia|].
  apply andb_true_iff in HP as [H1 H2].
  apply String.eqb_eq in H1. apply Z.eqb_eq in H2. auto.
Qed.

Lemma dir_Y_str (y : Z) (rest : string) :
  1000 <= y <= 9999 -> Strptime.dir_Y (Py.str y ++ rest) = Some (y, rest).
Proof.
  intros H. destruct (str_four_digits y H) as [E1 E2]. rewrite E1.
  cbn [String.append]. unfold Strptime.dir_Y.
  assert (B : forall k, 0 <= k -> 0 <= y / k mod 10 < 10)
    by (intros; apply Z.mod_pos_bound; lia).
  rewrite !digit_digit_char.
  - now rewrite E2.
  - apply Z.mod_pos_bound. lia.
  - apply (B 10). lia.
  - apply (B 100). lia.
  - split; [apply Z.div_pos; lia | apply Z.div_lt_upper_bound; lia].
Qed.

Lemma ymd_tail (y m d : Z) :
  1 <= m <= 12 -> 1 <= d <= 31 ->
  match Strptime.lit "-" ("-" ++ Py.fmt_02d m ++ "-" ++ Py.fmt_02d d) with
  | Some s2 =>
      match Strptime.dir_m s2 with
      | Some (m', s3) =>
          match Strptime.lit "-" s3 with
          | Some s4 =>
              match Strptime.dir_d s4 with
              | Some (d', EmptyString) => Strptime.py_date y m' d'
              | _ => None
              end
          | None => None
          end
      | None => None
      end
  | None => None
  end
  = Strptime.py_date y m d.
Proof.
  intros Hm Hd.
  assert (Hm' : exists n, (n < 12)%nat /\ m = Z.of_nat (S n))
    by (exists (Z.to_nat (m - 1)); lia).
  assert (Hd' : exists n, (n < 31)%nat /\ d = Z.of_nat (S n))
    by (exists (Z.to_nat (d - 1)); lia).
  destruct Hm' as (n1 & L1 & ->), Hd' as (n2 & L2 & ->). clear Hm Hd.
  do 12 (destruct n1 as [|n1];
         [do 31 (destruct n2 as [|n2]; [reflexivity|]); lia|]).
  lia.
Qed.

Lemma py_date_Some (y m d : Z) (dt : date) :
  Strptime.py_date y m d = Some dt ->
  dt = mk_date y m d /\ 1 <= y <= 9999 /\ 1 <= m <= 12 /\ 1 <= d <= 31.
Proof.
  unfold Strptime.py_date.
  destruct ((1 <=? y) && (y <=? 9999) && (1 <=? m) && (m <=? 12) && (1 <=? d)
            && (d <=? Strptime.days_in_month y m)) eqn:E; [|discriminate].
  intros H. injection H as <-. repeat (apply andb_true_iff in E as [E ?]).
  repeat match goal with H : (_ <=? _) = true |- _ => apply Z.leb_le in H end.
  split; [reflexivity|].
  assert (Strptime.days_in_month y m <= 31).
  { unfold Strptime.days_in_month.
    destruct (m =? 2); [destruct (Strptime.is_leap y); lia|].
    destruct ((m =? 4) || (m =? 6) || (m =? 9) || (m =? 11)); lia. }
  lia.
Qed.

Lemma ymd_py_date (s : string) (dt : date) :
  Strptime.ymd s = Some dt -> Strptime.py_date (year dt) (month dt) (day dt) = Some dt.
Proof.
  unfold Strptime.ymd.
  destruct (Strptime.dir_Y s) as [[y s1]|]; [|discriminate].
  destruct (Strptime.lit "-" s1) as [s2|]; [|discriminate].
  destruct (Strptime.dir_m s2) as [[m s3]|]; [|discriminate].
  destruct (Strptime.lit "-" s3) as [s4|]; [|discriminate].
  destruct (Strptime.dir_d s4) as [[d [|? ?]]|]; try discriminate.
  intros H. pose proof (py_date_Some _ _ _ _ H) as [-> _]. exact H.
Qed.

(** A date from the year 1000 on, written by [strftime] with
    "%Y-%m-%d", is read back by [strptime] as the same date. *)
Lemma ymd_strftime (dt : date) :
  Strptime.py_date (year dt) (month dt) (day dt) = Some dt ->
  1000 <= year dt ->
  Strptime.ymd (strftime_ymd dt) = Some dt.
Proof.
  intros H Hy. pose proof (py_date_Some _ _ _ _ H) as (_ & Y & M & D).
  unfold Strptime.ymd, strftime_ymd.
  rewrite dir_Y_str by lia. rewrite ymd_tail by lia. exact H.
Qed.

Lemma Restaurant_get_Some (db : DB) (i : Z) (x : Restaurant.t) :
  Restaurant_get db i = Some x -> In x (restaurants db) /\ Restaurant.id x = i.
Proof.
  unfold Restaurant_get. intros H. apply find_some in H as [H1 H2].
  apply Z.eqb_eq in H2. auto.
Qed.

Lemma In_Reservation_attendees (db : DB) (r : Reservation.t) (e : Eater.t) :
  In e (Reservation_attendees db r)
  <-> In e (eaters db) /\ In (Reservation.id r, Eater.id e) (reservation_attendees db).
Proof.
  unfold Reservation_attendees. rewrite in_flat_map. split.
  - intros (x & Hx & Hm). apply in_map_iff in Hm as ([i p] & <- & Hrow).
    apply filter_In in Hrow as [Hrow Hc]. cbn [fst snd] in Hc.
    apply andb_true_iff in Hc as [H1 H2]. apply Z.eqb_eq in H1, H2. subst.
    auto.
  - intros [He Hrow]. exists e. split; [exact He|].
    apply in_map_iff. exists (Reservation.id r, Eater.id e). split; [reflexivity|].
    apply filter_In. split; [exact Hrow|]. cbn [fst snd]. now rewrite !Z.eqb_refl.
Qed.

(** X28. In a store reached from an empty reservation store,
    [get_reservation_details] never fails on a missing host or restaurant.
    It returns nothing for an identifier that is not stored, and for a
    reservation that is not active unless [include_inactive] is set;
    otherwise it returns the details of the reservation of that
    identifier, with its flag, and the host is one of the attendees
    listed. *)
Theorem reservation_details_reachable (db0 : DB) (ops : list Op)
    (created_at : Z -> option string) (i : Z) (include_inactive : bool) :
  empty_store db0 ->
  match Reservation_get (run ops db0) i with
  | None =>
      get_reservation_details (run ops db0) created_at i include_inactive = Some None
  | Some r =>
      if negb include_inactive && negb (Reservation.is_active r)
      then get_reservation_details (run ops db0) created_at i include_inactive = Some None
      else exists d host,
             get_reservation_details (run ops db0) created_at i include_inactive
             = Some (Some d)
             /\ Details.id d = i
             /\ Details.is_active d = Reservation.is_active r
             /\ Eater_get db0 (Details.host_id d) = Some host
             /\ Details.host_name d = Eater.name host
             /\ In host (Details.attendees d)
  end.
Proof.
  intros Hempty.
  destruct (run_wellformed ops db0 (empty_store_wellformed db0 Hempty))
    as [_ _ _ W4 _ _ W7].
  destruct (run_same_static ops db0) as (Ee & _).
  set (db := run ops db0) in *.
  unfold get_reservation_details.
  destruct (Reservation_get db i) as [r|] eqn:E; [|reflexivity].
  destruct (negb include_inactive && negb (Reservation.is_active r)); [reflexivity|].
  apply Reservation_get_Some in E as [Hr Hi].
  destruct (W7 r Hr) as [[host Hh] (x & _ & _ & Hx & _)].
  rewrite Hh, Hx. eexists. exists host. split; [reflexivity|].
  cbn [Details.id Details.is_active Details.host_id Details.host_name Details.attendees].
  split; [exact Hi|]. split; [reflexivity|].
  split; [unfold Eater_get in *; now rewrite <- Ee|]. split; [reflexivity|].
  apply In_Reservation_attendees. apply Eater_get_Some in Hh as [Hid Hin].
  split; [exact Hin|]. rewrite Hid. now apply W4.
Qed.

Lemma reservation_details_reachable_witness :
  exists d,
    get_reservation_details (run Sample.two_bookings Sample.db0) (fun _ => None) 2 false
    = Some (Some d)
    /\ Details.host_name d = "Cy".
Proof.
  pose proof (reservation_details_reachable Sample.db0 Sample.two_bookings (fun _ => None)
                2 false (conj eq_refl eq_refl)) as H.
  vm_compute in H. destruct H as (d & host & H1 & _).
  exists d. split; [vm_compute; exact H1|]. injection H1 as <-. reflexivity.
Defined.

(** X29. The details after a delete. After a successful delete the
    reservation is hidden from [get_reservation_details] called without
    [include_inactive]; with it, a soft-deleted reservation is returned
    with the details it had before and the flag cleared, and a
    hard-deleted one is not returned. *)
Theorem reservation_details_after_delete (env : Env) (i : Z) (soft_delete : bool)
    (db db' : DB) (message : string) (created_at : Z -> option string) :
  delete_reservation env i soft_delete db = (db', (true, message)) ->
  get_reservation_details db' created_at i false = Some None
  /\ get_reservation_details db' created_at i true
     = if soft_delete
       then option_map (option_map (Details.set_is_active false))
              (get_reservation_details db created_at i true)
       else Some None.
Proof.
  unfold delete_reservation.
  destruct (Reservation_get db i) as [r|] eqn:E; [|discriminate].
  destruct (commit_error env); [discriminate|].
  pose proof (Reservation_get_Some _ _ _ E) as [_ Hi]. rewrite Hi.
  destruct soft_delete; intros H; injection H as <- _.
  - set (db' := with_reservations db _ _).
    assert (G : Reservation_get db' i = Some (Reservation.set_is_active false r)).
    { unfold db', Reservation_get. cbn [with_reservations reservations].
      rewrite find_deactivated. fold (Reservation_get db i). rewrite E.
      cbn [option_map]. now rewrite Hi, Z.eqb_refl. }
    assert (A1 : forall x, Eater_get db' x = Eater_get db x) by reflexivity.
    assert (A2 : forall x, Restaurant_get db' x = Restaurant_get db x) by reflexivity.
    assert (A3 : Reservation_attendees db' (Reservation.set_is_active false r)
                 = Reservation_attendees db r) by reflexivity.
    unfold get_reservation_details. rewrite G, E, A1, A2, A3.
    cbn [Reservation.set_is_active Reservation.is_active Reservation.eater_id
         Reservation.restaurant_id Reservation.id Reservation.table_id
         Reservation.reservation_date Reservation.reservation_start_time
         Reservation.reservation_end_time Reservation.party_size negb andb].
    split; [reflexivity|].
    destruct (Eater_get db (Reservation.eater_id r)) as [host|]; [|reflexivity].
    destruct (Restaurant_get db (Reservation.restaurant_id r)) as [x|]; reflexivity.
  - unfold get_reservation_details, Reservation_get.
    cbn [with_reservations reservations].
    now rewrite find_filter_id_None.
Qed.

Lemma reservation_details_after_delete_witness :
  get_reservation_details Sample.db2 (fun _ => None) 1 false = Some None
  /\ exists d, get_reservation_details Sample.db2 (fun _ => None) 1 true = Some (Some d)
               /\ Details.is_active d = false.
Proof.
  destruct (reservation_details_after_delete Sample.env_ok 1 true Sample.db1 Sample.db2
              "Reservation marked as deleted" (fun _ => None) eq_refl) as [H1 H2].
  split; [exact H1|]. eexists. split; [exact H2 | reflexivity].
Defined.

(** X30. The details after a booking. In a store reached from an empty
    reservation store, after [create_reservation] has succeeded the details
    of the new reservation are returned, with or without
    [include_inactive]: they name the host and the restaurant of the
    request and carry the columns of the reservation; the attendees are
    the eaters that are the host or are listed in the request; and, for a
    date from the year 1000 on, the date of the details is the date of the
    reservation written year-month-day, a string that parses to the date of
    the request. (For an earlier year the string depends on the platform and
    nothing is stated of it.) *)
Theorem reservation_details_after_booking (db0 : DB) (ops : list Op) (env : Env)
    (eater_id restaurant_id : Z) (reservation_date reservation_start_time : string)
    (attendee_ids : option (list Z)) (guests_count : Z) (db' : DB) (message : string)
    (r : Reservation.t) (created_at : Z -> option string) (include_inactive : bool) :
  empty_store db0 ->
  create_reservation env eater_id restaurant_id reservation_date
    reservation_start_time attendee_ids guests_count (run ops db0)
  = (db', (true, message, Some r)) ->
  exists d host restaurant,
    get_reservation_details db' created_at (Reservation.id r) include_inactive
    = Some (Some d)
    /\ Eater_get db0 eater_id = Some host
    /\ Restaurant_get db0 restaurant_id = Some restaurant
    /\ d = Details.mk (Reservation.id r) eater_id (Eater.name host)
             (restaurant_id, Restaurant.name restaurant) (Reservation.table_id r)
             (Details.date d) reservation_start_time
             (Reservation.reservation_end_time r) (Reservation.party_size r) true
             (created_at (Reservation.id r)) (Details.attendees d)
    /\ (forall e, In e (Details.attendees d)
                  <-> In e (eaters db0)
                      /\ (Eater.id e = eater_id \/ In (Eater.id e) (ids_of attendee_ids)))
    /\ (1000 <= year (Reservation.reservation_date r) ->
        Details.date d = strftime_ymd (Reservation.reservation_date r)
        /\ Strptime.ymd (Details.date d) = Strptime.ymd reservation_date).
Proof.
  intros Hempty Hc.
  destruct (run_wellformed ops db0 (empty_store_wellformed db0 Hempty))
    as [_ _ W3 _ _ _ _].
  destruct (run_same_static ops db0) as (Ee & _ & Er & _).
  set (db := run ops db0) in *.
  apply create_reservation_effect in Hc
    as (restaurant & host & attendees & date_obj & table & t & others
        & Hsteps & -> & Hnd & Hin & _ & Enr).
  destruct Hsteps as [[m1 E1] [m2 E2] _ [m4 E4] _ _ _ _].
  apply validate_restaurant_ok in E1 as [G1 _].
  apply validate_host_get in E2.
  apply validate_reservation_time_inv in E4 as (Ed & _).
  assert (Hfresh : forall x, In x (reservations db) -> Reservation.id x <> Reservation.id r).
  { intros x Hx. pose proof (next_reservation_id_fresh db x Hx) as L.
    rewrite Enr. cbn [Reservation.id]. lia. }
  unfold get_reservation_details.
  rewrite (Reservation_get_app_new db _ _ r (Reservation.id r) eq_refl Hfresh).
  rewrite Z.eqb_refl.
  assert (Ea : Reservation.is_active r = true) by (now rewrite Enr).
  assert (Eh : Reservation.eater_id r = eater_id) by (now rewrite Enr).
  assert (Ex : Reservation.restaurant_id r = restaurant_id) by (now rewrite Enr).
  assert (Es : Reservation.reservation_start_time r = reservation_start_time)
    by (now rewrite Enr).
  assert (Edate : Reservation.reservation_date r = date_obj) by (now rewrite Enr).
  rewrite Ea, andb_false_r, Eh, Ex.
  change (Eater_get (with_reservations db _ _) eater_id) with (Eater_get db eater_id).
  change (Restaurant_get (with_reservations db _ _) restaurant_id)
    with (Restaurant_get db restaurant_id).
  rewrite E2, G1.
  pose proof (Restaurant_get_Some _ _ _ G1) as [_ Hxid].
  eexists _, host, restaurant. split; [reflexivity|].
  split; [unfold Eater_get in *; now rewrite <- Ee|].
  split; [unfold Restaurant_get in *; now rewrite <- Er|].
  cbn [Details.attendees Details.date].
  split; [now rewrite Hxid, Es|]. split.
  - intros e. rewrite In_Reservation_attendees.
    cbn [with_reservations eaters reservation_attendees]. rewrite Ee, in_app_iff.
    split.
    + intros [He [Hrow|Hrow]].
      * destruct (W3 _ _ Hrow) as [(x & Hx & Exid) _]. now apply Hfresh in Hx.
      * split; [exact He|]. apply in_map_iff in Hrow as (p & Ep & Hp).
        injection Ep as ->. destruct Hp as [<-|Hp]; [now left|]. right. now apply Hin.
    + intros [He Hp]. split; [exact He|]. right.
      apply in_map_iff. exists (Eater.id e). split; [reflexivity|].
      destruct (Z.eq_dec (Eater.id e) eater_id) as [->|Hne]; [now left|].
      right. apply Hin. destruct Hp; [contradiction | auto].
  - intros Hy. split; [reflexivity|]. rewrite Edate in *. rewrite Ed.
    apply ymd_strftime; [now apply (ymd_py_date reservation_date) | exact Hy].
Qed.

Lemma reservation_details_after_booking_witness :
  exists d,
    get_reservation_details Sample.db1 (fun _ => None) 1 false = Some (Some d)
    /\ Details.host_name d = "Ana"
    /\ Details.date d = "2025-05-01".
Proof.
  destruct (reservation_details_after_booking Sample.db0 [] Sample.env_ok 1 1
              "2025-05-01" "18:00" (Some [2]) 0 Sample.db1
              "Reservation created successfully" Sample.booking1 (fun _ => None) false
              (conj eq_refl eq_refl) eq_refl)
    as (d & host & restaurant & H1 & _).
  exists d. split; [exact H1|]. vm_compute in H1. injection H1 as <-.
  split; reflexivity.
Defined.
